(** * node-slack-logger: the logger registry, configuration, event
      normalisation and stack-trail extraction of [lib/index.js]

    A shallow embedding of [lib/index.js], [lib/constants.js] and
    [lib/formats.js], and of the configuration, validation and filtering of
    the first version of the module.

    Conventions of the embedding.
    - A JavaScript value is a [value].  Numbers are the integers ([Z]) and
      [NaN];
      strings are [string]s of 8-bit characters; objects are plain data
      objects (own members in insertion order, prototype [Object.prototype],
      no own conversion hooks); functions are opaque and identified by [fn].
    - [in] and member reads walk the prototype chain, as the operators of
      the source do: every plain object inherits the members of
      [Object.prototype].
    - A [throw] is a [Throw] result.  Code that assigns to [this] before it
      may throw is written in the monad [M], whose results keep the state
      reached at the throw.
    - The caller-supplied functions ([send], custom formatters) are run
      through the oracles [run_format] and [run_send]; every invocation is
      recorded in a trace.
    - The Slack formatter builds a [payload] and prints values through
      [ToString]; the time of the call, the source text of a function and
      what an object with a [toString] of its own prints are given by the
      environment. *)

From Equations Require Import Equations.
From stdpp Require Import base option list strings pretty gmap.
From Stdlib Require Import ZArith Ascii String Lia.

Set Default Proof Using "Type".
Set Warnings "-register-all".
Local Open Scope string_scope.
Local Open Scope Z_scope.
#[local] Arguments String.append !_ _ : simpl nomatch.

(** ** Values *)

(** Function values.  [_slackFormatter] is the formatter of [lib/formats.js];
    [ObjectPrototypeFn name] is the method [name] every plain object inherits
    from [Object.prototype]; [UserFn] are the closures a caller supplies. *)
Inductive fn : Type :=
| _slackFormatter
| ObjectPrototypeFn (name : string)
| UserFn (id : nat).

Inductive value : Type :=
| VUndefined
| VNull
| VBool (b : bool)
| VNum (n : Z)
| VNaN
| VStr (s : string)
| VSymbol (key : string)                (* Symbol.for(key) *)
| VFun (f : fn)
| VObj (members : list (string * value)) (* { k1: v1, ... } *)
| VObjectPrototype.                      (* Object.prototype itself *)

(** Property keys: strings and registered symbols. *)
Inductive pkey : Type :=
| KString (s : string)
| KSymbol (key : string).

#[global] Instance fn_eq_dec : EqDecision fn.
Proof. solve_decision. Defined.

#[global] Instance pkey_eq_dec : EqDecision pkey.
Proof. solve_decision. Defined.

#[global] Program Instance pkey_countable : Countable pkey :=
  inj_countable'
    (fun k => match k with KString s => inl s | KSymbol s => inr s end)
    (fun x => match x with inl s => KString s | inr s => KSymbol s end) _.
Next Obligation. by intros []. Qed.

(** What the source throws.  One constructor per [throw] site; the text of
    each message is in the comment. *)
Inductive js_error : Type :=
| UnknownLevel (level : value)  (* Error(`Unknown level: ${level}`) *)
| InvalidFormat                 (* Error('Invalid format function') *)
| InvalidConfig                 (* Error('Invalid arguments. Required: send (function). ...') *)
| InvalidLogCall                (* Error('Invalid arguments. Required: level (string|number), ...') *)
| InvalidFormatter              (* Error('Failed to format log event body:') *)
| NotConfigured (id : pkey)     (* Error(`... does not yet exist, please supply config.`) *)
| TypeError                     (* raised by the runtime *)
| AssertionError                (* assert(false) *)
| UserError (v : value).        (* thrown, or rejected, by a caller-supplied function *)

Inductive result (A : Type) : Type :=
| Ok (a : A)
| Throw (e : js_error).
Arguments Ok {A} a.
Arguments Throw {A} e.

Definition typeof (v : value) : string :=
  match v with
  | VUndefined => "undefined"
  | VNull => "object"
  | VBool _ => "boolean"
  | VNum _ | VNaN => "number"
  | VStr _ => "string"
  | VSymbol _ => "symbol"
  | VFun _ => "function"
  | VObj _ => "object"
  | VObjectPrototype => "object"
  end.

(** ToBoolean. *)
Definition truthy (v : value) : bool :=
  match v with
  | VUndefined | VNull | VNaN => false
  | VBool b => b
  | VNum n => negb (n =? 0)
  | VStr s => negb (String.eqb s "")
  | VSymbol _ | VFun _ | VObj _ | VObjectPrototype => true
  end.

(** [a || b] and [a && b]. *)
Definition js_or (a b : value) : value := if truthy a then a else b.
Definition js_and (a b : value) : value := if truthy a then b else a.

(** [['t1', 't2'].includes(typeof v)] *)
Definition typeof_in (ts : list string) (v : value) : bool :=
  existsb (String.eqb (typeof v)) ts.

(** ToPropertyKey.  The key of a number is its decimal form (integers of
    magnitude 10^21 and more print with an exponent, which the embedding
    does not follow).  The key of a function is its source text, which is
    neither an identifier nor a numeral and so names no member of any object
    of this module: [None]. *)
Definition ToPropertyKey (v : value) : option pkey :=
  match v with
  | VUndefined => Some (KString "undefined")
  | VNull => Some (KString "null")
  | VBool true => Some (KString "true")
  | VBool false => Some (KString "false")
  | VNum n => Some (KString (pretty n))
  | VNaN => Some (KString "NaN")
  | VStr s => Some (KString s)
  | VSymbol k => Some (KSymbol k)
  | VFun _ => None
  | VObj _ | VObjectPrototype => Some (KString "[object Object]")
  end.

(** ** Plain objects and their prototype *)

(** The string-named members of [Object.prototype]. *)
Definition Object_prototype_names : list string :=
  [ "constructor"; "hasOwnProperty"; "isPrototypeOf"; "propertyIsEnumerable";
    "toLocaleString"; "toString"; "valueOf"; "__proto__";
    "__defineGetter__"; "__defineSetter__"; "__lookupGetter__";
    "__lookupSetter__" ].

Definition in_Object_prototype (k : pkey) : bool :=
  match k with
  | KString s => existsb (String.eqb s) Object_prototype_names
  | KSymbol _ => false
  end.

(** [Object.prototype[k]] *)
Definition Object_prototype_get (k : pkey) : value :=
  match k with
  | KString s =>
      if String.eqb s "__proto__" then VObjectPrototype
      else if in_Object_prototype k then VFun (ObjectPrototypeFn s)
      else VUndefined
  | KSymbol _ => VUndefined
  end.

Fixpoint own_get (members : list (string * value)) (k : string) : option value :=
  match members with
  | [] => None
  | (k', v) :: rest => if String.eqb k' k then Some v else own_get rest k
  end.

(** [k in { members }]: an own member, or one inherited from
    [Object.prototype]. *)
Definition has_member (members : list (string * value)) (k : pkey) : bool :=
  match k with
  | KString s =>
      match own_get members s with
      | Some _ => true
      | None => in_Object_prototype k
      end
  | KSymbol _ => false
  end.

(** [{ members }[k]] *)
Definition get_member (members : list (string * value)) (k : pkey) : value :=
  match k with
  | KString s =>
      match own_get members s with
      | Some v => v
      | None => Object_prototype_get k
      end
  | KSymbol _ => VUndefined
  end.

(** [v in { members }] and [{ members }[v]] for a value [v] used as key. *)
Definition js_in (v : value) (members : list (string * value)) : bool :=
  match ToPropertyKey v with
  | Some k => has_member members k
  | None => false
  end.

Definition js_index (members : list (string * value)) (v : value) : value :=
  match ToPropertyKey v with
  | Some k => get_member members k
  | None => VUndefined
  end.

(** [v[k]].  The module reads members of values that may not be objects
    only in the destructuring of [setConfig], by the names [send], [format],
    [appName], [minLevel] and [colors]: the wrapper prototypes of numbers,
    strings, booleans, symbols and functions have no member of these names.
    Reading a member of [undefined] or [null] throws, which is handled where
    it can happen. *)
Definition GetV (v : value) (k : pkey) : value :=
  match v with
  | VObj members => get_member members k
  | VObjectPrototype => Object_prototype_get k
  | _ => VUndefined
  end.

(** ** lib/constants.js *)

Definition DEBUG : Z := 1.
Definition INFO : Z := 2.
Definition WARNING : Z := 3.
Definition ERROR : Z := 4.
Definition CRITICAL : Z := 5.

Definition logLevels : list (string * value) :=
  [ ("DEBUG", VNum DEBUG); ("INFO", VNum INFO); ("WARNING", VNum WARNING);
    ("ERROR", VNum ERROR); ("CRITICAL", VNum CRITICAL) ].

Definition logLevelNames : list (string * value) :=
  [ (pretty DEBUG, VStr "DEBUG"); (pretty INFO, VStr "INFO");
    (pretty WARNING, VStr "WARNING"); (pretty ERROR, VStr "ERROR");
    (pretty CRITICAL, VStr "CRITICAL") ].

Definition _defaultColors : list (string * value) :=
  [ (pretty DEBUG, VStr "#eee"); (pretty INFO, VStr "#0f0");
    (pretty WARNING, VStr "#ff0"); (pretty ERROR, VStr "#f00");
    (pretty CRITICAL, VStr "#f00") ].

(** ** lib/formats.js (tables) *)

Definition SLACK : Z := 1.

Definition logFormats : list (string * value) := [ ("SLACK", VNum SLACK) ].

Definition logFormatNames : list (string * value) :=
  [ (pretty SLACK, VStr "SLACK") ].

Definition _defaultFormats : list (string * value) :=
  [ (pretty SLACK, VFun _slackFormatter) ].

(** ** lib/index.js: level and format resolution *)

(** [_getLevel]: "takes string or number and returns number value".  The
    message of the error interpolates [level], which throws a [TypeError]
    for a symbol. *)
Definition _getLevel (level : value) : result value :=
  if js_in level logLevelNames then Ok level
  else if js_in level logLevels then Ok (js_index logLevels level)
  else match level with
       | VSymbol _ => Throw TypeError
       | _ => Throw (UnknownLevel level)
       end.

(** [_getFormat]: "takes string, number or function and returns function". *)
Definition _getFormat (format : value) : result value :=
  if js_in format logFormatNames then Ok (js_index _defaultFormats format)
  else if js_in format logFormats
       then Ok (js_index _defaultFormats (js_index logFormats format))
  else if String.eqb (typeof format) "function" then Ok format
  else Throw InvalidFormat.

(** ** Regular expressions

    The fragment of the regular expressions of the language that
    [_errorTrailRE] is written in, with the backtracking semantics of
    [RegExp.prototype.exec]: alternatives are tried in order, quantifiers
    are greedy, and the first complete match found is the result. *)

Inductive cls : Type :=
| Lit (c : ascii)           (* the character itself *)
| Space                     (* \s *)
| Digit                     (* \d *)
| NoneOf (cs : list cls).   (* [^...] *)

Definition NotSpace : cls := NoneOf [Space].   (* \S *)

Inductive regex : Type :=
| RAtom (a : cls)                  (* one character of the class *)
| RStar (a : cls)                  (* a star *)
| RPlus (a : cls)                  (* a+ *)
| ROpt (r : regex)                 (* (?:r)? *)
| RSeq (r1 r2 : regex)             (* r1r2 *)
| RGroup (i : nat) (r : regex).    (* (r), the i-th capturing group *)

Notation "r1 +++ r2" := (RSeq r1 r2) (at level 60, right associativity).

(** White space of the language among the 8-bit characters: TAB, LF, VT, FF,
    CR, SP and NBSP. *)
Definition is_space (c : ascii) : bool :=
  let n := nat_of_ascii c in
  ((9 <=? n) && (n <=? 13) || (n =? 32) || (n =? 160))%nat.

Definition is_digit (c : ascii) : bool :=
  let n := nat_of_ascii c in ((48 <=? n) && (n <=? 57))%nat.

Fixpoint cls_match (a : cls) (c : ascii) : bool :=
  match a with
  | Lit c' => Ascii.eqb c' c
  | Space => is_space c
  | Digit => is_digit c
  | NoneOf cs => negb (existsb (fun a' => cls_match a' c) cs)
  end.

(** The captures of a match: group number and captured text, newest
    first. *)
Definition captures : Type := list (nat * string).

Fixpoint capture (caps : captures) (i : nat) : option string :=
  match caps with
  | [] => None
  | (j, t) :: rest => if (j =? i)%nat then Some t else capture rest i
  end.

(** The text between the start of [s] and the start of its suffix [s']. *)
Definition consumed (s s' : string) : string :=
  String.substring 0 (String.length s - String.length s') s.

Section Matcher.
Context {R : Type}.

(** A continuation takes the rest of the input and the captures so far. *)
Definition cont : Type := string -> captures -> option R.

Fixpoint m_star (a : cls) (s : string) (caps : captures) (k : cont) : option R :=
  match s with
  | String c s' =>
      if cls_match a c then
        match m_star a s' caps k with
        | Some x => Some x
        | None => k s caps
        end
      else k s caps
  | EmptyString => k s caps
  end.

Fixpoint m (r : regex) (s : string) (caps : captures) (k : cont) : option R :=
  match r with
  | RAtom a =>
      match s with
      | String c s' => if cls_match a c then k s' caps else None
      | EmptyString => None
      end
  | RStar a => m_star a s caps k
  | RPlus a =>
      match s with
      | String c s' => if cls_match a c then m_star a s' caps k else None
      | EmptyString => None
      end
  | ROpt r' =>
      match m r' s caps k with
      | Some x => Some x
      | None => k s caps
      end
  | RSeq r1 r2 => m r1 s caps (fun s' caps' => m r2 s' caps' k)
  | RGroup i r' =>
      m r' s caps (fun s' caps' => k s' ((i, consumed s s') :: caps'))
  end.
End Matcher.

(** A successful [exec]: the captures, and the input from [lastIndex] on. *)
Record exec_result : Type := { groups : captures; rest : string }.

(** [re.exec(s)] on the input from [lastIndex] on: the leftmost match. *)
Fixpoint exec (re : regex) (s : string) : option exec_result :=
  match m re s [] (fun s' caps => Some {| groups := caps; rest := s' |}) with
  | Some x => Some x
  | None =>
      match s with
      | String _ s' => exec re s'
      | EmptyString => None
      end
  end.

(** The pattern of [_errorTrailRE], piece by piece; its groups are the
    scope, the path, the line and the column of a stack frame. *)
Definition _errorTrailRE : regex :=
  RAtom (Lit "a") +++ RAtom (Lit "t")                    (* at *)
  +++ ROpt (RAtom Space +++ RGroup 1 (RStar NotSpace))   (* optional: \s, group 1 = \S star *)
  +++ RAtom Space                                        (* \s *)
  +++ ROpt (RAtom (Lit "("))                             (* optional ( *)
  +++ RGroup 2 (RPlus (NoneOf [Space; Lit ")"]))         (* group 2 = [^\s)]+ *)
  +++ RAtom (Lit ":")                                    (* : *)
  +++ RGroup 3 (RPlus Digit)                             (* group 3 = \d+ *)
  +++ RAtom (Lit ":")                                    (* : *)
  +++ RGroup 4 (RPlus Digit)                             (* group 4 = \d+ *)
  +++ ROpt (RAtom (Lit ")")).                            (* optional ) *)

(** Whether every match of the expression consumes input. *)
Fixpoint consuming (r : regex) : bool :=
  match r with
  | RAtom _ | RPlus _ => true
  | RStar _ | ROpt _ => false
  | RSeq r1 r2 => consuming r1 || consuming r2
  | RGroup _ r' => consuming r'
  end.

Lemma m_star_shrinks {R} a s caps (k : @cont R) x :
  m_star a s caps k = Some x ->
  exists s' caps', k s' caps' = Some x /\ (String.length s' <= String.length s)%nat.
Proof.
  induction s as [|c s IH]; simpl; intros H.
  - eauto.
  - destruct (cls_match a c); [|eauto].
    destruct (m_star a s caps k) eqn:E.
    + injection H as ->. destruct (IH eq_refl) as (s' & caps' & ? & ?).
      exists s', caps'. split; [done|lia].
    + eauto.
Qed.

Lemma m_shrinks {R} r : forall s caps (k : @cont R) x,
  m r s caps k = Some x ->
  exists s' caps', k s' caps' = Some x /\
    (String.length s' + (if consuming r then 1 else 0) <= String.length s)%nat.
Proof.
  induction r as [a|a|a|r IH|r1 IH1 r2 IH2|i r IH]; simpl; intros s caps k x H.
  - destruct s as [|c s]; [done|]. destruct (cls_match a c); [|done].
    exists s, caps. simpl. split; [done|lia].
  - apply m_star_shrinks in H as (s' & caps' & ? & ?).
    exists s', caps'. split; [done|lia].
  - destruct s as [|c s]; [done|]. destruct (cls_match a c); [|done].
    apply m_star_shrinks in H as (s' & caps' & ? & ?).
    exists s', caps'. simpl. split; [done|lia].
  - destruct (m r s caps k) eqn:E.
    + injection H as ->. apply IH in E as (s' & caps' & ? & ?).
      exists s', caps'. split; [done|lia].
    + exists s, caps. split; [done|lia].
  - apply IH1 in H as (s1 & caps1 & H & ?).
    apply IH2 in H as (s2 & caps2 & ? & ?).
    exists s2, caps2. split; [done|].
    destruct (consuming r1), (consuming r2); simpl in *; lia.
  - apply IH in H as (s' & caps' & ? & ?). eauto.
Qed.

Lemma exec_shrinks re s x :
  consuming re = true ->
  exec re s = Some x -> (String.length (rest x) < String.length s)%nat.
Proof.
  intros Hre. induction s as [|c s IH]; simpl.
  - destruct (m re "" [] _) eqn:E; [|done].
    intros [= ->]. apply m_shrinks in E as (s' & caps' & [= <-] & Hlen).
    rewrite Hre in Hlen. simpl in *. lia.
  - destruct (m re (String c s) [] _) eqn:E.
    + intros [= ->]. apply m_shrinks in E as (s' & caps' & [= <-] & Hlen).
      rewrite Hre in Hlen. simpl in *. lia.
    + intros H. apply IH in H. lia.
Qed.

(** ** lib/index.js: the trail of a stack *)

(** [parseInt(t, 10)] for a capture [t] (a string, or [undefined] for a
    group that took no part in the match): optional white space and sign,
    then the longest run of decimal digits; [NaN] when there is none. *)
Fixpoint digits_value (acc : Z) (s : string) : Z :=
  match s with
  | String c s' =>
      if is_digit c then digits_value (acc * 10 + (Z.of_nat (nat_of_ascii c) - 48)) s'
      else acc
  | EmptyString => acc
  end.

Fixpoint skip_space (s : string) : string :=
  match s with
  | String c s' => if is_space c then skip_space s' else s
  | EmptyString => s
  end.

Definition starts_with_digit (s : string) : bool :=
  match s with
  | String c _ => is_digit c
  | EmptyString => false
  end.

Definition parseInt10 (t : option string) : value :=
  match t with
  | None => VNaN
  | Some s =>
      match skip_space s with
      | String c s' =>
          if Ascii.eqb c "-"
          then (if starts_with_digit s' then VNum (- digits_value 0 s') else VNaN)
          else if Ascii.eqb c "+"
          then (if starts_with_digit s' then VNum (digits_value 0 s') else VNaN)
          else if is_digit c then VNum (digits_value 0 (String c s')) else VNaN
      | EmptyString => VNaN
      end
  end.

(** A capture as a value. *)
Definition capture_value (t : option string) : value :=
  match t with
  | Some s => VStr s
  | None => VUndefined
  end.

(** ** State and exceptions

    A computation over a state [S]: it returns the state it reached together
    with its value, or with what it threw. *)
Definition M (S A : Type) : Type := S -> S * result A.

Definition ret {S A} (a : A) : M S A := fun s => (s, Ok a).

Definition bind {S A B} (c : M S A) (k : A -> M S B) : M S B :=
  fun s =>
    match c s with
    | (s', Ok a) => k a s'
    | (s', Throw e) => (s', Throw e)
    end.

Definition throw {S A} (e : js_error) : M S A := fun s => (s, Throw e).

Definition lift {S A} (r : result A) : M S A := fun s => (s, r).

Definition gets {S A} (f : S -> A) : M S A := fun s => (s, Ok (f s)).

Definition modify {S} (f : S -> S) : M S unit := fun s => (f s, Ok tt).

(** [try { c } catch (e) { h e }] *)
Definition try_catch {S A} (c : M S A) (h : js_error -> M S A) : M S A :=
  fun s =>
    match c s with
    | (s', Ok a) => (s', Ok a)
    | (s', Throw e) => h e s'
    end.

Declare Scope js_scope.
Delimit Scope js_scope with js.
Notation "'let!' x ':=' c 'in' k" := (bind c (fun x => k))
  (at level 10, x name, c at level 100, k at level 200) : js_scope.
Notation "c ';;;' k" := (bind c (fun _ => k))
  (at level 100, k at level 200, right associativity) : js_scope.

(** Bind on plain results. *)
Definition rbind {A B} (r : result A) (k : A -> result B) : result B :=
  match r with
  | Ok a => k a
  | Throw e => Throw e
  end.

(** ** Comparison *)

(** Leading and trailing white space removed. *)
Definition trim (s : string) : string :=
  let back := skip_space (String.rev (skip_space s)) in String.rev back.

Fixpoint all_digits (s : string) : bool :=
  match s with
  | String c s' => is_digit c && all_digits s'
  | EmptyString => true
  end.

(** ToNumber, [None] for [NaN].  Of the numeric literals a string may hold,
    the signed decimal integers are recognised; the other forms (fractions,
    exponents, radix prefixes, [Infinity]) denote numbers outside the
    integers of this embedding and are not told apart from [NaN].  A symbol
    throws. *)
Definition ToNumber (v : value) : result (option Z) :=
  match v with
  | VUndefined => Ok None
  | VNull => Ok (Some 0)
  | VBool b => Ok (Some (if b then 1 else 0))
  | VNum n => Ok (Some n)
  | VNaN => Ok None
  | VStr s =>
      match trim s with
      | EmptyString => Ok (Some 0)
      | String "-" d =>
          Ok (if starts_with_digit d && all_digits d then Some (- digits_value 0 d) else None)
      | String "+" d =>
          Ok (if starts_with_digit d && all_digits d then Some (digits_value 0 d) else None)
      | d => Ok (if all_digits d then Some (digits_value 0 d) else None)
      end
  | VSymbol _ => Throw TypeError
  | VFun _ | VObj _ | VObjectPrototype => Ok None
  end.

(** ToPrimitive: an object becomes the string it prints as. *)
Definition ToPrimitive (v : value) : value :=
  match v with
  | VObj _ | VObjectPrototype => VStr "[object Object]"
  | _ => v
  end.

(** [a < b]: two strings compare by their characters, anything else as
    numbers, and a comparison with [NaN] is false.  A function would be
    compared by its source text, which the embedding does not have; no level
    is a function ([_getLevel] returns numbers and strings), and the
    comparison is then taken as one with [NaN]. *)
Definition js_lt (a b : value) : result bool :=
  match ToPrimitive a, ToPrimitive b with
  | VStr s, VStr t => Ok (String.ltb s t)
  | pa, pb =>
      rbind (ToNumber pa) (fun x =>
      rbind (ToNumber pb) (fun y =>
        match x, y with
        | Some n, Some k => Ok (n <? k)
        | _, _ => Ok false
        end))
  end.

(** ** The Logger *)

(** The fields of a [Logger] instance. *)
Record Logger : Type := {
  _send : value;
  _format : value;
  _appName : value;
  _minLevel : value;
  _colors : value
}.

(** The object [new Logger] starts from, before the constructor body runs. *)
Definition new_object : Logger :=
  {| _send := VUndefined; _format := VUndefined; _appName := VUndefined;
     _minLevel := VUndefined; _colors := VUndefined |}.

Definition set_send (v : value) (this : Logger) : Logger :=
  {| _send := v; _format := _format this; _appName := _appName this;
     _minLevel := _minLevel this; _colors := _colors this |}.
Definition set_format (v : value) (this : Logger) : Logger :=
  {| _send := _send this; _format := v; _appName := _appName this;
     _minLevel := _minLevel this; _colors := _colors this |}.
Definition set_appName (v : value) (this : Logger) : Logger :=
  {| _send := _send this; _format := _format this; _appName := v;
     _minLevel := _minLevel this; _colors := _colors this |}.
Definition set_minLevel (v : value) (this : Logger) : Logger :=
  {| _send := _send this; _format := _format this; _appName := _appName this;
     _minLevel := v; _colors := _colors this |}.
Definition set_colors (v : value) (this : Logger) : Logger :=
  {| _send := _send this; _format := _format this; _appName := _appName this;
     _minLevel := _minLevel this; _colors := v |}.

(** The log event values handed to a formatter. *)
Record LogEventValues : Type := {
  ev_appName : value;
  ev_level : value;
  ev_levelName : value;
  ev_color : value;
  ev_name : value;
  ev_message : value;
  ev_stack : value;
  ev_trail : value;
  ev_context : value
}.

(** The invocations of caller-supplied functions, oldest first. *)
Inductive event : Type :=
| Formatted (f : fn) (logValues : LogEventValues)   (* this._format(logValues) *)
| Sent (f : fn) (body : value).                     (* this._send(body) *)

(** What [_loggers[id]] evaluates to: a Logger instance, by its location in
    the heap, or a member inherited from [Object.prototype]. *)
Inductive reference : Type :=
| RLogger (loc : nat)
| RInherited (v : value).

(** The Logger instances allocated so far, and the own members of the
    module-level object [_loggers]. *)
Record registry : Type := {
  heap : list Logger;
  _loggers : gmap pkey nat
}.

Definition is_null (v : value) : bool :=
  match v with
  | VNull => true
  | _ => false
  end.

(** The default of a destructuring pattern applies to [undefined] only. *)
Definition or_default (v d : value) : value :=
  match v with
  | VUndefined => d
  | _ => v
  end.

(** [v.name] *)
Definition member (v : value) (name : string) : value := GetV v (KString name).

(** [o[v]] for a value [v] used as key. *)
Definition GetV_at (o v : value) : value :=
  match ToPropertyKey v with
  | Some k => GetV o k
  | None => VUndefined
  end.

(** Case analysis on a value that keeps the equation with it. *)
Definition inspect {A : Type} (a : A) : { b : A | a = b } := exist _ a eq_refl.

Section Environment.

(** The environment of the module: its own file name, the directory of the
    main module of the process ([require.main.path]; the process has a
    main module), and [path.relative]. *)
Variable __filename : string.
Variable main_path : string.
Variable path_relative : string -> string -> string.

(** [_getTrailFromErrorStack]: "extracts scope, path, line, column from
    error stack".  [re] carries the [g] flag exactly when
    [excludeCurrentModule] is set, which is the only case in which the loop
    comes back to [re.exec]; the search then resumes at [lastIndex], the
    end of the previous match.  [path.relative] throws on a path that is
    not a string. *)
Equations? _getTrailFromErrorStack (stack : string) (excludeCurrentModule : bool)
  : result value by wf (String.length stack) lt :=
  _getTrailFromErrorStack stack excludeCurrentModule with inspect (exec _errorTrailRE stack) := {
    | exist _ None _ => Ok (VObj []);
    | exist _ (Some matches) Hexec =>
        let scope := capture (groups matches) 1 in
        let file := capture (groups matches) 2 in
        let line := capture (groups matches) 3 in
        let column := capture (groups matches) 4 in
        if excludeCurrentModule
           && match file with Some f => String.eqb f __filename | None => false end
        then _getTrailFromErrorStack (rest matches) excludeCurrentModule
        else match file with
             | Some f =>
                 Ok (VObj [ ("scope", capture_value scope);
                            ("file", VStr (path_relative main_path f));
                            ("line", parseInt10 line);
                            ("column", parseInt10 column) ])
             | None => Throw TypeError
             end }.
Proof. by apply exec_shrinks in Hexec. Qed.

(** What [Error().stack] evaluates to inside [_getLogValues]. *)
Variable Error_stack : string.

(** The caller-supplied functions: what a function value returns, or
    throws, as a formatter and as a [send] callback (for [send], a
    rejected promise counts as a throw). *)
Variable run_format : fn -> LogEventValues -> result value.
Variable run_send : fn -> value -> result value.

(** [_getLogValues]: "extract log values from input".  Destructuring
    [undefined] or [null] throws; [log] lets a stack through only when it
    is a string or [undefined], and no other value is given a trail
    here. *)
Definition _getLogValues (appName level colors errorOrMessageOrOptions context : value)
  : result LogEventValues :=
  rbind
    (if String.eqb (typeof errorOrMessageOrOptions) "string" then
       rbind (_getTrailFromErrorStack Error_stack true) (fun trail =>
       Ok (VUndefined, errorOrMessageOrOptions, trail, VUndefined, VUndefined))
     else
       match errorOrMessageOrOptions with
       | VUndefined | VNull => Throw TypeError
       | _ =>
           let name := member errorOrMessageOrOptions "name" in
           let message := member errorOrMessageOrOptions "message" in
           let stack := member errorOrMessageOrOptions "stack" in
           let optionsContext := member errorOrMessageOrOptions "context" in
           match js_or stack (VStr Error_stack) with
           | VStr text =>
               rbind (_getTrailFromErrorStack text (truthy stack)) (fun trail =>
               Ok (name, message, trail, stack, optionsContext))
           | _ => Throw TypeError
           end
       end)
    (fun '(name, message, trail, stack, optionsContext) =>
       Ok {| ev_appName := appName;
             ev_level := level;
             ev_levelName := js_index logLevelNames level;
             ev_color := js_or (js_and colors (GetV_at colors level))
                               (js_index _defaultColors level);
             ev_name := name;
             ev_message := message;
             ev_stack := stack;
             ev_trail := trail;
             (* context takes precedence over errorOrMessageOrOptions.context *)
             ev_context := js_or (js_or context optionsContext) (VObj []) |}).

(** *** [Logger.setConfig] *)

(** The destructuring assignment of [setConfig], with its defaults:
    send, format, appName, minLevel, colors. *)
Definition destructure_config (this : Logger) (config : value)
  : result (value * value * value * value * value) :=
  match config with
  | VUndefined | VNull => Throw TypeError
  | _ =>
      Ok (or_default (member config "send") (_send this),
          or_default (member config "format") (js_or (_format this) (VNum SLACK)),
          or_default (member config "appName") (js_or (_appName this) (VStr "My App")),
          or_default (member config "minLevel") (js_or (_minLevel this) (VNum WARNING)),
          or_default (member config "colors") (_colors this))
  end.

(** The condition [setConfig] asserts. *)
Definition config_assertion (send format appName minLevel colors : value) : bool :=
  String.eqb (typeof send) "function"
  && (String.eqb (typeof format) "function"
      || js_in format logFormats || js_in format logFormatNames)
  && (js_in minLevel logLevels || js_in minLevel logLevelNames)
  && String.eqb (typeof appName) "string" && truthy appName
  && typeof_in ["undefined"; "object"] colors && negb (is_null colors).

Definition setConfig (config : value) : M Logger unit :=
  (let! validated :=
     try_catch
       (let! this := gets id in
        let! fields := lift (destructure_config this config) in
        let '(send, format, appName, minLevel, colors) := fields in
        if config_assertion send format appName minLevel colors
        then ret fields
        else throw AssertionError)
       (fun _ => throw InvalidConfig) in
   let '(send, format, appName, minLevel, colors) := validated in
   modify (set_send send);;;
   let! resolved := lift (_getFormat format) in
   modify (set_format resolved);;;
   modify (set_appName appName);;;
   let! rank := lift (_getLevel minLevel) in
   modify (set_minLevel rank);;;
   modify (set_colors colors))%js.

(** *** [Logger.log] and the fixed-level methods *)

(** The condition [log] asserts. *)
Definition log_assertion (level errorOrMessageOrOptions context : value) : bool :=
  (js_in level logLevels || js_in level logLevelNames)
  && truthy errorOrMessageOrOptions
  && (String.eqb (typeof errorOrMessageOrOptions) "string"
      || (String.eqb (typeof errorOrMessageOrOptions) "object"
          && String.eqb (typeof (member errorOrMessageOrOptions "message")) "string"
          && truthy (member errorOrMessageOrOptions "message")
          && typeof_in ["undefined"; "string"] (member errorOrMessageOrOptions "name")
          && typeof_in ["undefined"; "string"] (member errorOrMessageOrOptions "stack")
          && typeof_in ["undefined"; "object"] (member errorOrMessageOrOptions "context")
          && negb (is_null (member errorOrMessageOrOptions "context"))))
  && typeof_in ["undefined"; "object"] context
  && negb (is_null context).

(** [this._format(logValues)] and [this._send(body)]: calling a value that
    is not a function throws; a call is recorded before it runs. *)
Definition call_format (f : value) (logValues : LogEventValues) : M (list event) value :=
  match f with
  | VFun g => (modify (fun t => (t ++ [Formatted g logValues])%list);;;
               lift (run_format g logValues))%js
  | _ => throw TypeError
  end.

Definition call_send (f : value) (body : value) : M (list event) value :=
  match f with
  | VFun g => (modify (fun t => (t ++ [Sent g body])%list);;; lift (run_send g body))%js
  | _ => throw TypeError
  end.

(** [log] is an [async] method: its result stands for the promise it
    returns, [Ok] for the value the promise resolves to and [Throw] for a
    rejection.  [log] reads [this] and does not assign to it; its state is
    the trace of calls. *)
Definition log (this : Logger) (level errorOrMessageOrOptions context : value)
  : M (list event) value :=
  (try_catch
     (if log_assertion level errorOrMessageOrOptions context
      then ret tt else throw AssertionError)
     (fun _ => throw InvalidLogCall);;;
   (* don't log if less than minimum level for logger *)
   let! safeLevel := lift (_getLevel level) in
   let! below := lift (js_lt safeLevel (_minLevel this)) in
   if below : bool then ret VUndefined
   else
     let! logValues :=
       lift (_getLogValues (_appName this) safeLevel (_colors this)
               errorOrMessageOrOptions context) in
     let! body :=
       try_catch (call_format (_format this) logValues)
                 (fun _ => throw InvalidFormatter) in
     (* _send() should implement error catching *)
     call_send (_send this) body)%js.

Definition debug (this : Logger) (errorOrMessageOrOptions context : value) :=
  log this (js_index logLevels (VStr "DEBUG")) errorOrMessageOrOptions context.
Definition info (this : Logger) (errorOrMessageOrOptions context : value) :=
  log this (js_index logLevels (VStr "INFO")) errorOrMessageOrOptions context.
Definition warning (this : Logger) (errorOrMessageOrOptions context : value) :=
  log this (js_index logLevels (VStr "WARNING")) errorOrMessageOrOptions context.
Definition error (this : Logger) (errorOrMessageOrOptions context : value) :=
  log this (js_index logLevels (VStr "ERROR")) errorOrMessageOrOptions context.
Definition critical (this : Logger) (errorOrMessageOrOptions context : value) :=
  log this (js_index logLevels (VStr "CRITICAL")) errorOrMessageOrOptions context.

End Environment.

(** ** The registry of loggers *)

(** [id in _loggers] *)
Definition registry_has (id : pkey) (r : registry) : bool :=
  match _loggers r !! id with
  | Some _ => true
  | None => in_Object_prototype id
  end.

(** [_loggers[id]] *)
Definition registry_get (id : pkey) (r : registry) : reference :=
  match _loggers r !! id with
  | Some loc => RLogger loc
  | None => RInherited (Object_prototype_get id)
  end.

(** [target.setConfig(config)].  Neither [Object.prototype] nor any of its
    methods has a member [setConfig]: calling it throws. *)
Definition call_setConfig (target : reference) (config : value) : M registry unit :=
  fun r =>
    match target with
    | RLogger loc =>
        match heap r !! loc with
        | Some this =>
            let '(this', outcome) := setConfig config this in
            ({| heap := <[loc := this']> (heap r); _loggers := _loggers r |}, outcome)
        | None => (r, Throw TypeError)
        end
    | RInherited _ => (r, Throw TypeError)
    end.

(** [new Logger(config)]: the constructor runs [setConfig] on a new object;
    the object exists for the program only when the constructor returns. *)
Definition new_Logger (config : value) : M registry nat :=
  fun r =>
    match setConfig config new_object with
    | (this, Ok _) =>
        ({| heap := (heap r ++ [this])%list; _loggers := _loggers r |},
         Ok (List.length (heap r)))
    | (_, Throw e) => (r, Throw e)
    end.

(** [const id = ...]: the key of the logger, the registered symbol
    [Symbol.for('default')] unless [idOrConfig] is a string or a number. *)
Definition logger_id (idOrConfig : value) : pkey :=
  match idOrConfig with
  | VStr s => KString s
  | VNum n => KString (pretty n)
  | VNaN => KString "NaN"
  | _ => KSymbol "default"
  end.

Definition getLogger (idOrConfig config : value) : M registry reference :=
  let id := logger_id idOrConfig in
  let loggerConfig :=
    if String.eqb (typeof idOrConfig) "object" then idOrConfig else config in
  (let! existing := gets (registry_has id) in
   if existing : bool then
     (* existing logger *)
     (if truthy loggerConfig
      then let! target := gets (registry_get id) in call_setConfig target loggerConfig
      else ret tt);;;
     gets (registry_get id)
   else
     (* first invocation - need to instantiate logger *)
     if negb (truthy loggerConfig) then throw (NotConfigured id)
     else
       let! loc := new_Logger loggerConfig in
       modify (fun r => {| heap := heap r; _loggers := <[id := loc]> (_loggers r) |});;;
       gets (registry_get id))%js.

(** The registry when the module is loaded: [const _loggers = {}]. *)
Definition empty_registry : registry := {| heap := []; _loggers := ∅ |}.

(** ** lib/formats.js: the Slack formatter *)

Notation "'let?' x ':=' r 'in' k" := (rbind r (fun x => k))
  (at level 10, x name, r at level 100, k at level 200) : js_scope.

(** What a formatter builds: values, arrays and object literals. *)
Inductive payload : Type :=
| PVal (v : value)
| PArr (items : list payload)
| PObj (members : list (string * payload)).

(** An array index: the canonical decimal form of an integer below
    2^32 - 1.  The own keys of an object come with these first, in
    ascending order, and the other strings after them, in the order of
    their creation. *)
Definition array_index (k : string) : option Z :=
  if all_digits k && negb (String.eqb k "")
     && (String.eqb k "0" || negb (String.prefix "0" k))
  then (let n := digits_value 0 k in if n <? 4294967295 then Some n else None)
  else None.

(** The members of a plain object, one for each key: the member [own_get]
    finds, at the place where the key comes first. *)
Fixpoint own_members (seen : list string) (members : list (string * value))
  : list (string * value) :=
  match members with
  | [] => []
  | (k, v) :: rest =>
      if existsb (String.eqb k) seen then own_members seen rest
      else (k, v) :: own_members (k :: seen) rest
  end.

Fixpoint insert_by_index (n : Z) (e : string * value) (l : list (Z * (string * value)))
  : list (Z * (string * value)) :=
  match l with
  | [] => [(n, e)]
  | (n', e') :: l' =>
      if n <? n' then (n, e) :: l else (n', e') :: insert_by_index n e l'
  end.

(** The members whose key is an array index, in ascending order, and the
    others, in their order. *)
Fixpoint by_index (members : list (string * value))
  : list (Z * (string * value)) * list (string * value) :=
  match members with
  | [] => ([], [])
  | (k, v) :: rest =>
      let '(indexed, named) := by_index rest in
      match array_index k with
      | Some n => (insert_by_index n (k, v) indexed, named)
      | None => (indexed, (k, v) :: named)
      end
  end.

(** The characters of a string, from index [i] on. *)
Fixpoint string_entries (i : Z) (s : string) : list (string * value) :=
  match s with
  | String c s' => (pretty i, VStr (String c "")) :: string_entries (i + 1) s'
  | EmptyString => []
  end.

(** [Object.entries(v)]: it throws for [undefined] and [null]; a string has
    its characters as members; numbers, booleans, symbols, functions and
    [Object.prototype] have no enumerable member of their own. *)
Definition Object_entries (v : value) : result (list (string * value)) :=
  match v with
  | VUndefined | VNull => Throw TypeError
  | VStr s => Ok (string_entries 0 s)
  | VObj members =>
      let '(indexed, named) := by_index (own_members [] members) in
      Ok ((snd <$> indexed) ++ named)%list
  | _ => Ok []
  end.

(** [Object.keys(v)] *)
Definition Object_keys (v : value) : result (list string) :=
  (let? entries := Object_entries v in Ok (fst <$> entries))%js.

Fixpoint mapM {A B : Type} (f : A -> result B) (l : list A) : result (list B) :=
  match l with
  | [] => Ok []
  | a :: l' => (let? b := f a in let? bs := mapM f l' in Ok (b :: bs))%js
  end.

Module formats.
Section Formatter.

(** [Date.now()]: the time of the call, in milliseconds. *)
Variable Date_now : Z.

(** What a template literal prints for a function: its source text. *)
Variable Function_toString : fn -> string.

(** What a template literal prints for an object with a member [toString]
    of its own, or the error that member throws. *)
Variable own_toString : list (string * value) -> result string.

(** ToString, as a template literal applies it.  A symbol throws.  An
    object without a member [toString] of its own prints through
    [Object.prototype.toString].  The decimal form of a number is that of
    [ToPropertyKey]. *)
Definition ToString (v : value) : result string :=
  match v with
  | VUndefined => Ok "undefined"
  | VNull => Ok "null"
  | VBool true => Ok "true"
  | VBool false => Ok "false"
  | VNum n => Ok (pretty n)
  | VNaN => Ok "NaN"
  | VStr s => Ok s
  | VSymbol _ => Throw TypeError
  | VFun f => Ok (Function_toString f)
  | VObj members =>
      match own_get members "toString" with
      | None => Ok "[object Object]"
      | Some _ => own_toString members
      end
  | VObjectPrototype => Ok "[object Object]"
  end.

(** The object literals of the payload. *)
Definition plain_text (text : string) : payload :=
  PObj [ ("type", PVal (VStr "plain_text")); ("text", PVal (VStr text));
         ("emoji", PVal (VBool true)) ].

Definition mrkdwn (text : value) : payload :=
  PObj [ ("type", PVal (VStr "mrkdwn")); ("text", PVal text) ].

Definition header (text : string) : payload :=
  PObj [ ("type", PVal (VStr "header")); ("text", plain_text text) ].

Definition section (text : value) : payload :=
  PObj [ ("type", PVal (VStr "section")); ("text", mrkdwn text) ].

(** The text of the time element, for the time [ts] in seconds. *)
Definition date_text (ts : Z) : string :=
  "<!date^" ++ pretty ts ++ "^{date_num} {time_secs}|2014-02-18 6:39:42 AM EST>".

Definition _slackFormatter (logValues : LogEventValues) : result payload :=
  let appName := ev_appName logValues in
  let levelName := ev_levelName logValues in
  let name := ev_name logValues in
  let message := ev_message logValues in
  let stack := ev_stack logValues in
  let trail := ev_trail logValues in
  let context := ev_context logValues in
  let color := ev_color logValues in
  (* prepare slack payload *)
  (let? levelName' := ToString levelName in
   let? appName' := ToString appName in
   let? text :=
     (if truthy name
      then let? name' := ToString name in
           let? message' := ToString message in
           Ok (VStr (name' ++ ": " ++ message'))
      else Ok message) in
   let blocks := [ header ("[" ++ levelName' ++ "] " ++ appName'); section text ] in
   (* stack trace *)
   let? blocks :=
     (if truthy stack
      then let? stack' := ToString stack in
           Ok (blocks ++ [ section (VStr ("```" ++ stack' ++ "```")) ])%list
      else Ok blocks) in
   (* time context *)
   let ts := Date_now / 1000 in
   let elements := [ mrkdwn (VStr (date_text ts)) ] in
   (* trail context *)
   let? keys := Object_keys trail in
   let? elements :=
     (if (0 <? Z.of_nat (List.length keys))
      then let scope := member trail "scope" in
           let file := member trail "file" in
           let line := member trail "line" in
           let column := member trail "column" in
           let? file' := ToString file in
           let? scope' :=
             (if truthy scope
              then let? scope' := ToString scope in Ok ("/" ++ scope')
              else Ok "") in
           let? line' := ToString line in
           let? column' := ToString column in
           Ok (elements
               ++ [ plain_text (":feelsobserve: " ++ file' ++ scope' ++ " line "
                                ++ line' ++ ":" ++ column') ])%list
      else Ok elements) in
   (* custom context fields *)
   let? entries := Object_entries context in
   let? fields :=
     mapM (fun '(key, value) =>
             let? value' := ToString value in Ok (plain_text (key ++ ": " ++ value')))
          entries in
   let contextBlock :=
     PObj [ ("type", PVal (VStr "context")); ("elements", PArr (elements ++ fields)%list) ] in
   Ok (PObj [ ("attachments",
               PArr [ PObj [ ("color", PVal color);
                             ("blocks", PArr (blocks ++ [contextBlock])%list) ] ]) ]))%js.

End Formatter.
End formats.

(** ** The first version of the module (index.js)

    It posts to a Slack webhook itself.  Its levels start at 0, its Logger
    keeps the webhook in place of [send] and [format], and its errors for
    invalid arguments are those of [setConfig] and [log], with another
    wording.  [_putToSlack], which builds the payload and posts it, is an
    [async] function of the module: a call of it is recorded with its
    arguments, and what its promise settles to is left to the environment. *)
Module legacy.

Definition DEBUG : Z := 0.
Definition INFO : Z := 1.
Definition WARNING : Z := 2.
Definition ERROR : Z := 3.
Definition CRITICAL : Z := 4.

Definition levels : list (string * value) :=
  [ ("DEBUG", VNum DEBUG); ("INFO", VNum INFO); ("WARNING", VNum WARNING);
    ("ERROR", VNum ERROR); ("CRITICAL", VNum CRITICAL) ].

Definition levelNames : list (string * value) :=
  [ ("0", VStr "DEBUG"); ("1", VStr "INFO"); ("2", VStr "WARNING");
    ("3", VStr "ERROR"); ("4", VStr "CRITICAL") ].

Definition defaultColors : list (string * value) :=
  [ ("0", VStr "#eee"); ("1", VStr "#0f0"); ("2", VStr "#ff0");
    ("3", VStr "#f00"); ("4", VStr "#f00") ].

(** [_getLevel]: "takes string or number and returns number value". *)
Definition _getLevel (level : value) : result value :=
  if js_in level levelNames then Ok level
  else if js_in level levels then Ok (js_index levels level)
  else match level with
       | VSymbol _ => Throw TypeError
       | _ => Throw (UnknownLevel level)
       end.

Record Logger : Type := {
  _slackHook : value;
  _minLevel : value;
  _appName : value;
  _colors : value
}.

(** The arguments of a call of [_putToSlack]. *)
Record PutArguments : Type := {
  put_slackHook : value;
  put_appName : value;
  put_level : value;
  put_colors : value;
  put_errorOrMessageOrOptions : value;
  put_context : value
}.

(** The destructuring assignment of [setOptions], with its defaults:
    slackHook, appName, minLevel, colors. *)
Definition destructure_options (options : value) : result (value * value * value * value) :=
  match options with
  | VUndefined | VNull => Throw TypeError
  | _ =>
      Ok (member options "slackHook",
          or_default (member options "appName") (VStr "myApp"),
          or_default (member options "minLevel") (VNum WARNING),
          member options "colors")
  end.

(** The condition [setOptions] asserts. *)
Definition options_assertion (slackHook appName minLevel colors : value) : bool :=
  String.eqb (typeof slackHook) "string" && truthy slackHook
  && (js_in minLevel levels || js_in minLevel levelNames)
  && String.eqb (typeof appName) "string" && truthy appName
  && typeof_in ["undefined"; "object"] colors && negb (is_null colors).

Definition setOptions (options : value) : M Logger unit :=
  (let! validated :=
     try_catch
       (let! fields := lift (destructure_options options) in
        let '(slackHook, appName, minLevel, colors) := fields in
        if options_assertion slackHook appName minLevel colors
        then ret fields
        else throw AssertionError)
       (fun _ => throw InvalidConfig) in
   let '(slackHook, appName, minLevel, colors) := validated in
   modify (fun this => {| _slackHook := slackHook; _minLevel := _minLevel this;
                          _appName := _appName this; _colors := _colors this |});;;
   let! rank := lift (_getLevel minLevel) in
   modify (fun this => {| _slackHook := _slackHook this; _minLevel := rank;
                          _appName := _appName this; _colors := _colors this |});;;
   modify (fun this => {| _slackHook := _slackHook this; _minLevel := _minLevel this;
                          _appName := appName; _colors := _colors this |});;;
   modify (fun this => {| _slackHook := _slackHook this; _minLevel := _minLevel this;
                          _appName := _appName this; _colors := colors |}))%js.

(** The condition [log] asserts.  It is written without parentheses around
    the two tests of the level, and [&&] binds tighter than [||]: the test
    [level in levels] stands alone, and every other test is joined to
    [level in levelNames]. *)
Definition log_assertion (level errorOrMessageOrOptions context : value) : bool :=
  js_in level levels
  || (js_in level levelNames
      && truthy errorOrMessageOrOptions
      && (String.eqb (typeof errorOrMessageOrOptions) "string"
          || (String.eqb (typeof errorOrMessageOrOptions) "object"
              && String.eqb (typeof (member errorOrMessageOrOptions "message")) "string"
              && truthy (member errorOrMessageOrOptions "message")
              && typeof_in ["undefined"; "string"] (member errorOrMessageOrOptions "name")
              && typeof_in ["undefined"; "string"] (member errorOrMessageOrOptions "stack")
              && typeof_in ["undefined"; "object"] (member errorOrMessageOrOptions "context")
              && negb (is_null (member errorOrMessageOrOptions "context"))))
      && typeof_in ["undefined"; "object"] context
      && negb (is_null context)).

Section Posting.

(** What the promise of a call of [_putToSlack] settles to. *)
Variable run_putToSlack : PutArguments -> result value.

(** [log]: its result stands for an error it throws, or for the promise it
    returns.  Its state is the trace of the calls of [_putToSlack]. *)
Definition log (this : Logger) (level errorOrMessageOrOptions context : value)
  : M (list PutArguments) value :=
  (try_catch
     (if log_assertion level errorOrMessageOrOptions context
      then ret tt else throw AssertionError)
     (fun _ => throw InvalidLogCall);;;
   (* don't log if less than minimum level for logger *)
   let! safeLevel := lift (_getLevel level) in
   let! below := lift (js_lt safeLevel (_minLevel this)) in
   if below : bool then ret VUndefined
   else
     let arguments :=
       {| put_slackHook := _slackHook this;
          put_appName := _appName this;
          put_level := safeLevel;
          put_colors := _colors this;
          put_errorOrMessageOrOptions := errorOrMessageOrOptions;
          put_context := context |} in
     modify (fun t => (t ++ [arguments])%list);;;
     lift (run_putToSlack arguments))%js.

Definition debug (this : Logger) (errorOrMessageOrOptions context : value) :=
  log this (js_index levels (VStr "DEBUG")) errorOrMessageOrOptions context.
Definition info (this : Logger) (errorOrMessageOrOptions context : value) :=
  log this (js_index levels (VStr "INFO")) errorOrMessageOrOptions context.
Definition warning (this : Logger) (errorOrMessageOrOptions context : value) :=
  log this (js_index levels (VStr "WARNING")) errorOrMessageOrOptions context.
Definition error (this : Logger) (errorOrMessageOrOptions context : value) :=
  log this (js_index levels (VStr "ERROR")) errorOrMessageOrOptions context.
Definition critical (this : Logger) (errorOrMessageOrOptions context : value) :=
  log this (js_index levels (VStr "CRITICAL")) errorOrMessageOrOptions context.

End Posting.
End legacy.

(** ** The vocabulary of the properties *)

(** Every character of [t] is in the class [a]. *)
Fixpoint all_in (a : cls) (t : string) : bool :=
  match t with
  | String c t' => cls_match a c && all_in a t'
  | EmptyString => true
  end.

(** The text [t] is matched by [r]. *)
Fixpoint lang (r : regex) (t : string) : Prop :=
  match r with
  | RAtom a => exists c, t = String c "" /\ cls_match a c = true
  | RStar a => all_in a t = true
  | RPlus a => t <> "" /\ all_in a t = true
  | ROpt r' => t = "" \/ lang r' t
  | RSeq r1 r2 => exists t1 t2, t = t1 ++ t2 /\ lang r1 t1 /\ lang r2 t2
  | RGroup _ r' => lang r' t
  end.

(** Every group of [r] captures only texts that satisfy [P]. *)
Fixpoint groups_ok (P : nat -> string -> Prop) (r : regex) : Prop :=
  match r with
  | RAtom _ | RStar _ | RPlus _ => True
  | ROpt r' => groups_ok P r'
  | RSeq r1 r2 => groups_ok P r1 /\ groups_ok P r2
  | RGroup i r' => (forall t, lang r' t -> P i t) /\ groups_ok P r'
  end.

(** Every capture satisfies [P]. *)
Definition caps_ok (P : nat -> string -> Prop) (caps : captures) : Prop :=
  forall i t, capture caps i = Some t -> P i t.

(** The groups that take part in every match of [r]. *)
Fixpoint sure (r : regex) : list nat :=
  match r with
  | RGroup i r' => i :: sure r'
  | RSeq r1 r2 => sure r1 ++ sure r2
  | RAtom _ | RStar _ | RPlus _ | ROpt _ => []
  end.

(** What the groups of [_errorTrailRE] capture: the line and the column are
    non-empty runs of digits. *)
Definition frame_groups (i : nat) (t : string) : Prop :=
  match i with
  | 3%nat | 4%nat => t <> "" /\ all_in Digit t = true
  | _ => True
  end.

(** A trail is empty, or has a scope (possibly [undefined]), a file, a
    line and a column. *)
Definition trail_shape (t : value) : Prop :=
  t = VObj [] \/
  exists scope file line column,
    t = VObj [ ("scope", scope); ("file", VStr file);
               ("line", VNum line); ("column", VNum column) ]
    /\ (scope = VUndefined \/ exists s, scope = VStr s)
    /\ 0 <= line /\ 0 <= column.

(** The strings [_getLevel] resolves, and no others. *)
Definition level_key (s : string) : bool :=
  match own_get logLevelNames s, own_get logLevels s with
  | None, None => in_Object_prototype (KString s)
  | _, _ => true
  end.

(** The line feed. *)
Definition nl : string := String (ascii_of_nat 10) "".

(** A location of the logging module, and what [Error().stack] holds when it
    is captured in [_getLogValues] during [logger.error(...)] called from a
    route handler. *)
Definition module_file : string :=
  "/srv/node_modules/@eqworks/node-slack-logger/lib/index.js".

Definition captured_stack : string :=
  "Error" ++ nl
  ++ "    at _getLogValues (" ++ module_file ++ ":108:53)" ++ nl
  ++ "    at Logger.log (" ++ module_file ++ ":207:23)" ++ nl
  ++ "    at Logger.error (" ++ module_file ++ ":268:17)" ++ nl
  ++ "    at handler (/srv/app/routes.js:12:14)".

(** The stack of an error whose first frame lies in the logging module. *)
Definition explicit_stack : string :=
  "Error: boom" ++ nl
  ++ "    at helper (" ++ module_file ++ ":1:2)" ++ nl
  ++ "    at job (/srv/app/jobs.js:3:4)".

(** The trail of the event built from an input. *)
Definition trail_of (r : result LogEventValues) : result value :=
  rbind r (fun logValues => Ok (ev_trail logValues)).

(** A Logger that holds a configuration as the data model describes it: a
    callable [send], a formatter function, a non-empty application name, a
    rank as minimum level, and colors that are absent or an object. *)
Definition configured (this : Logger) : bool :=
  String.eqb (typeof (_send this)) "function"
  && String.eqb (typeof (_format this)) "function"
  && match _appName this with
     | VStr s => negb (String.eqb s "")
     | _ => false
     end
  && match _minLevel this with
     | VNum r => (DEBUG <=? r) && (r <=? CRITICAL)
     | _ => false
     end
  && match _colors this with
     | VUndefined | VObj _ | VObjectPrototype => true
     | _ => false
     end.

(** The string starts with a digit or a minus sign, as the decimal form of
    every number does. *)
Definition numeric_head (s : string) : bool :=
  match s with
  | String c _ => is_digit c || Ascii.eqb c "-"
  | EmptyString => false
  end.

(** A Logger with the default minimum level and a custom formatter, a
    formatter that always throws, and a [send] that always resolves. *)
Definition sample_logger : Logger :=
  {| _send := VFun (UserFn 0); _format := VFun (UserFn 1);
     _appName := VStr "App"; _minLevel := VNum WARNING; _colors := VUndefined |}.

Definition failing_format (f : fn) (logValues : LogEventValues) : result value :=
  Throw (UserError (VStr "cannot render")).

Definition resolving_send (f : fn) (body : value) : result value := Ok VUndefined.

(** [path.relative] from the root directory, for absolute paths. *)
Definition relative_to_root (from to : string) : string :=
  match to with
  | String "/" rest => rest
  | _ => to
  end.

(** The registry is well formed: every member of [_loggers] is a Logger of
    the heap, no two members are the same Logger, and every registered
    Logger has a callable [send], a non-empty string as application name and
    a minimum level that resolves to itself. *)
Definition registry_wf (r : registry) : Prop :=
  (forall k1 k2 loc,
     _loggers r !! k1 = Some loc -> _loggers r !! k2 = Some loc -> k1 = k2)
  /\ (forall k loc,
        _loggers r !! k = Some loc ->
        exists this,
          heap r !! loc = Some this
          /\ String.eqb (typeof (_send this)) "function" = true
          /\ (exists name, _appName this = VStr name /\ name <> "")
          /\ _getLevel (_minLevel this) = Ok (_minLevel this)).

(** A formatter that renders every event as the same text. *)
Definition constant_format (f : fn) (logValues : LogEventValues) : result value :=
  Ok (VStr "payload").


(** What the groups of [_errorTrailRE] capture, the path included: a
    non-empty text without white space and without a closing parenthesis. *)
Definition frame_texts (i : nat) (t : string) : Prop :=
  match i with
  | 2%nat => t <> "" /\ all_in (NoneOf [Space; Lit ")"]) t = true
  | 3%nat | 4%nat => t <> "" /\ all_in Digit t = true
  | _ => True
  end.

(** A value that a template literal prints without running code of the
    caller and without throwing: not a symbol, and not an object with a
    member [toString] of its own. *)
Definition printable (v : value) : bool :=
  match v with
  | VSymbol _ => false
  | VObj members =>
      match own_get members "toString" with
      | None => true
      | Some _ => false
      end
  | _ => true
  end.

(** Every member of an object is printable. *)
Definition printable_members (v : value) : bool :=
  match v with
  | VObj members => forallb (fun kv => printable kv.2) members
  | _ => true
  end.

(** The payload for Slack: one attachment, with a color and blocks; and
    the context block, with its elements. *)
Definition slack_body (color : value) (blocks : list payload) : payload :=
  PObj [ ("attachments", PArr [ PObj [ ("color", PVal color); ("blocks", PArr blocks) ] ]) ].

Definition context_block (elements : list payload) : payload :=
  PObj [ ("type", PVal (VStr "context")); ("elements", PArr elements) ].

(** A source text for every function, and objects whose own [toString]
    throws. *)
Definition source_text (f : fn) : string := "function () { [native code] }".

Definition throwing_toString (members : list (string * value)) : result string :=
  Throw (UserError (VStr "cannot print")).

(** An error as [log] is given it, with a name, a message and a stack. *)
Definition sample_error : value :=
  VObj [ ("name", VStr "TypeError"); ("message", VStr "x is null");
         ("stack", VStr explicit_stack) ].

(** A Logger of the first version, and a [_putToSlack] whose promise
    resolves. *)
Definition legacy_logger : legacy.Logger :=
  {| legacy._slackHook := VStr "https://hooks.slack.com/services/T/B/X";
     legacy._minLevel := VNum legacy.WARNING;
     legacy._appName := VStr "App";
     legacy._colors := VUndefined |}.

Definition resolving_put (arguments : legacy.PutArguments) : result value := Ok VUndefined.

(** * Properties *)

(** ** The matcher is sound *)

Lemma append_assoc (a b c : string) : (a ++ b) ++ c = a ++ (b ++ c).
Proof. induction a as [|x a IH]; simpl; [done|by rewrite IH]. Qed.

Lemma length_append (a b : string) :
  String.length (a ++ b) = (String.length a + String.length b)%nat.
Proof. induction a as [|x a IH]; simpl; [done|by rewrite IH]. Qed.

Lemma substring_prefix (a b : string) :
  String.substring 0 (String.length a) (a ++ b) = a.
Proof.
  induction a as [|x a IH]; simpl.
  - by destruct b.
  - by rewrite IH.
Qed.

Lemma consumed_append (t s' : string) : consumed (t ++ s') s' = t.
Proof.
  unfold consumed. rewrite length_append.
  replace (String.length t + String.length s' - String.length s')%nat
    with (String.length t) by lia.
  apply substring_prefix.
Qed.

Lemma m_star_sound {R} a s caps (k : @cont R) x :
  m_star a s caps k = Some x ->
  exists t s', s = t ++ s' /\ all_in a t = true /\ k s' caps = Some x.
Proof.
  induction s as [|c s IH]; simpl; intros H.
  - by exists "", "".
  - destruct (cls_match a c) eqn:Hc; [|by exists "", (String c s)].
    destruct (m_star a s caps k) eqn:E.
    + injection H as ->. destruct (IH eq_refl) as (t & s' & -> & Ht & Hk).
      exists (String c t), s'. simpl. by rewrite Hc, Ht.
    + by exists "", (String c s).
Qed.

Section Soundness.
Context {R : Type} (P : nat -> string -> Prop).

Lemma m_sound r : forall s caps (k : @cont R) x,
  groups_ok P r -> caps_ok P caps ->
  m r s caps k = Some x ->
  exists t s' caps',
    s = t ++ s' /\ lang r t /\ k s' caps' = Some x /\ caps_ok P caps' /\
    (forall i, is_Some (capture caps i) \/ i ∈ sure r -> is_Some (capture caps' i)).
Proof.
  induction r as [a|a|a|r IH|r1 IH1 r2 IH2|i r IH]; simpl; intros s caps k x HP Hcaps H.
  - destruct s as [|c s]; [done|]. destruct (cls_match a c) eqn:Hc; [|done].
    exists (String c ""), s, caps. repeat split; eauto.
    intros j [?|Hj]; [done|]. by apply elem_of_nil in Hj.
  - apply m_star_sound in H as (t & s' & -> & Ht & Hk).
    exists t, s', caps. repeat split; eauto.
    intros j [?|Hj]; [done|]. by apply elem_of_nil in Hj.
  - destruct s as [|c s]; [done|]. destruct (cls_match a c) eqn:Hc; [|done].
    apply m_star_sound in H as (t & s' & -> & Ht & Hk).
    exists (String c t), s', caps. simpl. rewrite Hc, Ht. repeat split; eauto.
    intros j [?|Hj]; [done|]. by apply elem_of_nil in Hj.
  - destruct (m r s caps k) eqn:E.
    + injection H as ->.
      destruct (IH _ _ _ _ HP Hcaps E) as (t & s' & caps' & -> & Ht & Hk & Hc' & Hsure).
      exists t, s', caps'. repeat split; eauto.
      intros j [?|Hj]; [eauto|]. by apply elem_of_nil in Hj.
    + exists "", s, caps. repeat split; eauto.
      intros j [?|Hj]; [done|]. by apply elem_of_nil in Hj.
  - destruct HP as [HP1 HP2].
    destruct (IH1 _ _ _ _ HP1 Hcaps H) as (t1 & s1 & caps1 & -> & Ht1 & Hk1 & Hc1 & Hs1).
    destruct (IH2 _ _ _ _ HP2 Hc1 Hk1) as (t2 & s2 & caps2 & -> & Ht2 & Hk2 & Hc2 & Hs2).
    exists (t1 ++ t2), s2, caps2. rewrite append_assoc. repeat split; eauto.
    intros j [Hj|Hj]; [eauto|].
    apply elem_of_app in Hj as [Hj|Hj]; eauto.
  - destruct HP as [HPi HP].
    destruct (IH _ _ _ _ HP Hcaps H) as (t & s' & caps' & -> & Ht & Hk & Hc' & Hsure).
    rewrite consumed_append in Hk.
    exists t, s', ((i, t) :: caps'). repeat split; eauto.
    + intros j u. simpl. destruct (i =? j)%nat eqn:Hij.
      * apply Nat.eqb_eq in Hij as <-. intros [= <-]. by apply HPi.
      * apply Hc'.
    + intros j Hj. simpl. destruct (i =? j)%nat eqn:Hij; [done|].
      apply Nat.eqb_neq in Hij. apply Hsure.
      destruct Hj as [?|Hj]; [by left|]. right.
      apply elem_of_cons in Hj as [?|?]; [congruence|done].
Qed.
End Soundness.

(** A successful [exec] on [s]: the captures satisfy [P], and every group
    in [sure re] has a capture. *)
Lemma exec_sound P re s x :
  groups_ok P re ->
  exec re s = Some x ->
  caps_ok P (groups x) /\ (forall i, i ∈ sure re -> is_Some (capture (groups x) i)).
Proof.
  intros HP.
  assert (Hnil : caps_ok P []) by (by intros i t).
  assert (Hm : forall s0, m re s0 [] (fun s' caps => Some {| groups := caps; rest := s' |}) = Some x ->
            caps_ok P (groups x) /\ (forall i, i ∈ sure re -> is_Some (capture (groups x) i))).
  { intros s0 E.
    destruct (m_sound P re _ _ _ _ HP Hnil E) as (t & s' & caps' & _ & _ & [= <-] & ? & Hs).
    simpl. split; [done|]. intros i Hi. apply Hs. by right. }
  induction s as [|c s IH]; simpl.
  - destruct (m re "" [] _) eqn:E; [|done]. intros [= ->]. by eapply Hm.
  - destruct (m re (String c s) [] _) eqn:E; [|done].
    intros [= ->]. by eapply Hm.
Qed.

(** ** The trail of a stack *)

Lemma _errorTrailRE_groups : groups_ok frame_groups _errorTrailRE.
Proof. simpl. intuition. Qed.

Lemma digits_value_nonneg s : forall acc, 0 <= acc -> 0 <= digits_value acc s.
Proof.
  induction s as [|c s IH]; simpl; intros acc Hacc; [done|].
  destruct (is_digit c) eqn:Hc; [|done].
  apply IH. unfold is_digit in Hc.
  apply andb_prop in Hc as [Hlo _]. apply Nat.leb_le in Hlo. lia.
Qed.

Lemma digit_not_space c : is_digit c = true -> is_space c = false.
Proof.
  unfold is_digit, is_space. intros H.
  apply andb_prop in H as [Hlo Hhi].
  apply Nat.leb_le in Hlo. apply Nat.leb_le in Hhi.
  repeat match goal with
         | |- context [(?a <=? ?b)%nat] => destruct (Nat.leb_spec a b)
         | |- context [(?a =? ?b)%nat] => destruct (Nat.eqb_spec a b)
         end; simpl; try done; lia.
Qed.

Lemma parseInt10_digits t :
  t <> "" -> all_in Digit t = true ->
  exists n, parseInt10 (Some t) = VNum n /\ 0 <= n.
Proof.
  destruct t as [|c t]; [done|]. intros _ H. simpl in H.
  apply andb_prop in H as [Hc _].
  unfold parseInt10. simpl. rewrite (digit_not_space c Hc).
  destruct (Ascii.eqb_spec c "-") as [->|_]; [by vm_compute in Hc|].
  destruct (Ascii.eqb_spec c "+") as [->|_]; [by vm_compute in Hc|].
  rewrite Hc. eexists. split; [done|].
  apply digits_value_nonneg. unfold is_digit in Hc.
  apply andb_prop in Hc as [Hlo _]. apply Nat.leb_le in Hlo. lia.
Qed.

Section TrailProperties.
Variable __filename main_path : string.
Variable path_relative : string -> string -> string.

Let trail := _getTrailFromErrorStack __filename main_path path_relative.

Lemma _getTrailFromErrorStack_total stack excludeCurrentModule :
  exists t, trail stack excludeCurrentModule = Ok t /\ trail_shape t /\
            (exec _errorTrailRE stack = None -> t = VObj []).
Proof.
  unfold trail.
  funelim (_getTrailFromErrorStack __filename main_path path_relative
             stack excludeCurrentModule).
  - clear Heqcall.
    destruct (exec_sound frame_groups _ _ _ _errorTrailRE_groups Hexec) as [Hok Hsure].
    destruct (Hsure 2%nat) as [file Hfile]; [by apply list_elem_of_In; simpl; auto|].
    destruct (Hsure 3%nat) as [line Hline]; [by apply list_elem_of_In; simpl; auto|].
    destruct (Hsure 4%nat) as [column Hcolumn]; [by apply list_elem_of_In; simpl; auto|].
    destruct (parseInt10_digits line) as (l & Hl & ?); [by apply (Hok 3%nat)..|].
    destruct (parseInt10_digits column) as (c & Hc & ?); [by apply (Hok 4%nat)..|].
    rewrite Hfile, Hline, Hcolumn, Hl, Hc.
    destruct (excludeCurrentModule && String.eqb file __filename).
    { destruct H as (t & Ht & Hshape & _). exists t.
      split; [done|]. split; [done|]. intros Hnone. congruence. }
    eexists. split; [done|]. split; [|intros Hnone; congruence]. right.
    exists (capture_value (capture (groups matches) 1)), (path_relative main_path file), l, c.
    repeat split; try done.
    destruct (capture (groups matches) 1); simpl; eauto.
  - exists (VObj []). split; [done|]. split; [by left|done].
Qed.

End TrailProperties.

(** ** Levels *)

Lemma _getLevel_ranks_and_names :
  Forall (fun '(name, rank) => _getLevel rank = Ok rank /\ _getLevel (VStr name) = Ok rank)
         logLevels.
Proof. repeat constructor. Qed.

Lemma existsb_eqb_elem (s : string) (names : list string) :
  existsb (String.eqb s) names = true -> In s names.
Proof.
  induction names as [|n names IH]; simpl; [done|].
  destruct (String.eqb_spec s n) as [->|_]; simpl; auto.
Qed.

Lemma _getLevel_unknown (s : string) :
  level_key s = false -> _getLevel (VStr s) = Throw (UnknownLevel (VStr s)).
Proof.
  unfold level_key, _getLevel, js_in, has_member. cbn [ToPropertyKey].
  destruct (own_get logLevelNames s); [done|].
  destruct (own_get logLevels s); [done|]. by intros ->.
Qed.

(** C6 (code defect): for every rank of the level table and for its
    canonical name, [_getLevel] returns the rank, and for a string that names
    no member of the level tables, own or inherited, it throws the
    unknown-level error.  For the input ["toString"], which is neither a rank
    nor a level name, it does not throw: the [in] test finds the member that
    [logLevelNames] inherits from [Object.prototype], and the input itself,
    a string, is returned as the level. *)
Theorem C6_getLevel_accepts_inherited_member :
  Forall (fun '(name, rank) => _getLevel rank = Ok rank /\ _getLevel (VStr name) = Ok rank)
         logLevels
  /\ (forall s : string,
        level_key s = false -> _getLevel (VStr s) = Throw (UnknownLevel (VStr s)))
  /\ own_get logLevels "toString" = None
  /\ own_get logLevelNames "toString" = None
  /\ _getLevel (VStr "toString") = Ok (VStr "toString").
Proof.
  split; [apply _getLevel_ranks_and_names|].
  split; [apply _getLevel_unknown|]. by repeat split.
Qed.

Lemma C6_getLevel_accepts_inherited_member_witness :
  level_key "VERBOSE" = false
  /\ _getLevel (VStr "VERBOSE") = Throw (UnknownLevel (VStr "VERBOSE")).
Proof.
  split; [reflexivity|].
  apply (proj1 (proj2 C6_getLevel_accepts_inherited_member)). reflexivity.
Defined.


(** ** The trail of a log event *)

Section EventTrail.
Variable __filename main_path : string.
Variable path_relative : string -> string -> string.
Variable Error_stack : string.

Let getLogValues := _getLogValues __filename main_path path_relative Error_stack.
Let getTrail := _getTrailFromErrorStack __filename main_path path_relative.

(** The stack and the flag [_getLogValues] passes on, by kind of input. *)
Lemma _getLogValues_trail_of_string appName level colors context (message : string) :
  trail_of (getLogValues appName level colors (VStr message) context)
  = getTrail Error_stack true.
Proof.
  unfold trail_of, getLogValues, getTrail, _getLogValues. simpl.
  by destruct (_getTrailFromErrorStack _ _ _ Error_stack true).
Qed.

Lemma _getLogValues_trail_of_object appName level colors context members :
  trail_of (getLogValues appName level colors (VObj members) context)
  = match member (VObj members) "stack" with
    | VStr text =>
        if String.eqb text "" then getTrail Error_stack false else getTrail text true
    | VUndefined => getTrail Error_stack false
    | other =>
        match js_or other (VStr Error_stack) with
        | VStr text => getTrail text (truthy other)
        | _ => Throw TypeError
        end
    end.
Proof.
  unfold trail_of, getLogValues, getTrail, _getLogValues.
  change (String.eqb (typeof (VObj members)) "string") with false. cbv iota zeta.
  destruct (member (VObj members) "stack") as [| |b|n| |text|k|f|ms|];
    unfold js_or; cbn [truthy]; try done.
  - by destruct (_getTrailFromErrorStack _ _ _ Error_stack false).
  - by destruct (_getTrailFromErrorStack _ _ _ Error_stack false).
  - destruct b; [done|].
    by destruct (_getTrailFromErrorStack _ _ _ Error_stack false).
  - destruct (n =? 0); cbn [negb]; [|done].
    by destruct (_getTrailFromErrorStack _ _ _ Error_stack false).
  - by destruct (_getTrailFromErrorStack _ _ _ Error_stack false).
  - destruct (String.eqb text ""); cbn [negb].
    + by destruct (_getTrailFromErrorStack _ _ _ Error_stack false).
    + by destruct (_getTrailFromErrorStack _ _ _ text true).
Qed.
End EventTrail.

(** C1 (code defect): on an object input the exclude-self flag is the
    reverse of the rule "explicit stack: do not exclude; fresh stack:
    exclude".  [log(level, { message: 'boom' })], an object without a
    stack, has its trail taken from the freshly captured stack with
    self-exclusion disabled: the trail is the frame of [_getLogValues] in the
    logging module itself, where self-exclusion would have given the frame
    of the caller.  An object with an explicit stack has that stack parsed
    with self-exclusion enabled: a first frame in the logging module is
    skipped, where the parse without self-exclusion takes it. *)
Theorem C1_object_input_inverts_self_exclusion :
  forall (main_path : string) (path_relative : string -> string -> string)
         (appName level colors context : value),
    trail_of (_getLogValues module_file main_path path_relative captured_stack
                appName level colors (VObj [("message", VStr "boom")]) context)
    = Ok (VObj [ ("scope", VStr "_getLogValues");
                 ("file", VStr (path_relative main_path module_file));
                 ("line", VNum 108); ("column", VNum 53) ])
    /\ _getTrailFromErrorStack module_file main_path path_relative captured_stack true
       = Ok (VObj [ ("scope", VStr "handler");
                    ("file", VStr (path_relative main_path "/srv/app/routes.js"));
                    ("line", VNum 12); ("column", VNum 14) ])
    /\ trail_of (_getLogValues module_file main_path path_relative captured_stack
                   appName level colors
                   (VObj [("message", VStr "boom"); ("stack", VStr explicit_stack)])
                   context)
       = Ok (VObj [ ("scope", VStr "job");
                    ("file", VStr (path_relative main_path "/srv/app/jobs.js"));
                    ("line", VNum 3); ("column", VNum 4) ])
    /\ _getTrailFromErrorStack module_file main_path path_relative explicit_stack false
       = Ok (VObj [ ("scope", VStr "helper");
                    ("file", VStr (path_relative main_path module_file));
                    ("line", VNum 1); ("column", VNum 2) ]).
Proof.
  intros. rewrite !_getLogValues_trail_of_object.
  repeat split; vm_compute; reflexivity.
Qed.

(** ** Configuration *)

(** [setConfig], step by step. *)
Lemma setConfig_unfold (config : value) (this : Logger) :
  setConfig config this
  = match destructure_config this config with
    | Throw _ => (this, Throw InvalidConfig)
    | Ok (send, format, appName, minLevel, colors) =>
        if config_assertion send format appName minLevel colors then
          match _getFormat format with
          | Throw e => (set_send send this, Throw e)
          | Ok resolved =>
              match _getLevel minLevel with
              | Throw e =>
                  (set_appName appName (set_format resolved (set_send send this)), Throw e)
              | Ok rank =>
                  ({| _send := send; _format := resolved; _appName := appName;
                      _minLevel := rank; _colors := colors |}, Ok tt)
              end
          end
        else (this, Throw InvalidConfig)
    end.
Proof.
  unfold setConfig, bind, try_catch, gets, lift, ret, throw, modify, id.
  destruct (destructure_config this config) as [[[[[send format] appName] minLevel] colors]|e];
    [|done].
  destruct (config_assertion send format appName minLevel colors); [|done].
  destruct (_getFormat format); [|done].
  by destruct (_getLevel minLevel).
Qed.

(** What the assertion lets through, [_getFormat] and [_getLevel]
    resolve. *)
Lemma config_assertion_resolves send format appName minLevel colors :
  config_assertion send format appName minLevel colors = true ->
  (exists resolved, _getFormat format = Ok resolved)
  /\ (exists rank, _getLevel minLevel = Ok rank).
Proof.
  unfold config_assertion, _getFormat, _getLevel. intros H.
  repeat (apply andb_prop in H as [H ?]).
  split.
  - destruct (js_in format logFormatNames); [eauto|].
    destruct (js_in format logFormats); [eauto|].
    destruct (String.eqb (typeof format) "function"); [eauto|done].
  - destruct (js_in minLevel logLevelNames); [eauto|].
    destruct (js_in minLevel logLevels); [eauto|].
    match goal with Hl : (_ || _) = true |- _ => by simpl in Hl end.
Qed.

(** [setConfig] assigns nothing when it throws, and what it throws is the
    invalid-arguments error. *)
Lemma setConfig_atomic (config : value) (this this' : Logger) (e : js_error) :
  setConfig config this = (this', Throw e) -> this' = this /\ e = InvalidConfig.
Proof.
  rewrite setConfig_unfold.
  destruct (destructure_config this config) as [[[[[send format] appName] minLevel] colors]|e'];
    [|by intros [= <- <-]].
  destruct (config_assertion send format appName minLevel colors) eqn:Hassert;
    [|by intros [= <- <-]].
  destruct (config_assertion_resolves _ _ _ _ _ Hassert) as [[resolved ->] [rank ->]].
  done.
Qed.

Lemma _getFormat_function (format : value) :
  String.eqb (typeof format) "function" = true -> _getFormat format = Ok format.
Proof. by destruct format. Qed.

Lemma _getLevel_rank (r : Z) :
  DEBUG <= r <= CRITICAL -> _getLevel (VNum r) = Ok (VNum r).
Proof.
  unfold DEBUG, CRITICAL. intros H.
  assert (r = 1 \/ r = 2 \/ r = 3 \/ r = 4 \/ r = 5) as [->|[->|[->|[->| ->]]]] by lia;
    reflexivity.
Qed.

Lemma configured_fields (this : Logger) :
  configured this = true ->
  String.eqb (typeof (_send this)) "function" = true
  /\ js_or (_format this) (VNum SLACK) = _format this
  /\ _getFormat (_format this) = Ok (_format this)
  /\ js_or (_minLevel this) (VNum WARNING) = _minLevel this
  /\ _getLevel (_minLevel this) = Ok (_minLevel this)
  /\ js_or (_appName this) (VStr "My App") = _appName this.
Proof.
  unfold configured. intros H. repeat (apply andb_prop in H as [H ?]).
  destruct this as [send format appName minLevel colors]; simpl in *.
  split; [done|].
  split; [by destruct format|].
  split; [by apply _getFormat_function|].
  destruct minLevel as [| | |r| | | | | |]; try done.
  destruct appName as [| | | | |s| | | |]; try done.
  match goal with Hr : (_ && _) = true |- _ => apply andb_prop in Hr as [Hlo Hhi] end.
  apply Z.leb_le in Hlo. apply Z.leb_le in Hhi.
  split; [|split; [by apply _getLevel_rank|]].
  - unfold js_or. simpl. destruct (Z.eqb_spec r 0); [unfold DEBUG in *; lia|done].
  - unfold js_or. simpl. by destruct (String.eqb s "").
Qed.

(** C4: on a Logger that holds a valid configuration, a call of [setConfig]
    with an object leaves each of send, format, minLevel and colors as it
    was when the object omits it, and a call with only an application name
    succeeds and changes the application name alone.  On the first
    configuration, with only [send] given, the application name becomes
    "My App", the minimum level the rank of WARNING, and the format the
    built-in SLACK formatter. *)
Theorem C4_setConfig_merges_with_stored_values :
  (forall (this this' : Logger) (members : list (string * value)),
     configured this = true ->
     setConfig (VObj members) this = (this', Ok tt) ->
     (member (VObj members) "send" = VUndefined -> _send this' = _send this)
     /\ (member (VObj members) "format" = VUndefined -> _format this' = _format this)
     /\ (member (VObj members) "minLevel" = VUndefined -> _minLevel this' = _minLevel this)
     /\ (member (VObj members) "colors" = VUndefined -> _colors this' = _colors this)
     /\ (member (VObj members) "appName" = VUndefined -> _appName this' = _appName this))
  /\ (forall (this : Logger) (name : string),
        configured this = true -> name <> "" ->
        setConfig (VObj [("appName", VStr name)]) this
        = (set_appName (VStr name) this, Ok tt))
  /\ (forall send : fn,
        setConfig (VObj [("send", VFun send)]) new_object
        = ({| _send := VFun send; _format := VFun _slackFormatter;
              _appName := VStr "My App"; _minLevel := VNum WARNING;
              _colors := VUndefined |}, Ok tt)).
Proof.
  split; [|split].
  - intros this this' members Hcfg.
    destruct (configured_fields this Hcfg) as (_ & Hf & Hgf & Hl & Hgl & Ha).
    rewrite setConfig_unfold. unfold destructure_config.
    generalize (member (VObj members) "send") (member (VObj members) "format")
               (member (VObj members) "appName") (member (VObj members) "minLevel")
               (member (VObj members) "colors").
    intros msend mformat mappName mminLevel mcolors.
    destruct (config_assertion _ _ _ _ _); [|done].
    match goal with
    | |- context [_getFormat ?f] => destruct (_getFormat f) as [resolved|] eqn:Hformat
    end; [|done].
    match goal with
    | |- context [_getLevel ?l] => destruct (_getLevel l) as [rank|] eqn:Hlevel
    end; [|done].
    intros [= <-]. cbn [_send _format _appName _minLevel _colors].
    repeat split; intros ->; cbn [or_default] in *; congruence.
  - intros this name Hcfg Hname.
    destruct (configured_fields this Hcfg) as (Hs & Hf & Hgf & Hl & Hgl & _).
    rewrite setConfig_unfold. unfold destructure_config.
    change (member (VObj [("appName", VStr name)]) "send") with VUndefined.
    change (member (VObj [("appName", VStr name)]) "format") with VUndefined.
    change (member (VObj [("appName", VStr name)]) "appName") with (VStr name).
    change (member (VObj [("appName", VStr name)]) "minLevel") with VUndefined.
    change (member (VObj [("appName", VStr name)]) "colors") with VUndefined.
    cbn [or_default]. rewrite Hf, Hl, Hgf, Hgl.
    assert (config_assertion (_send this) (_format this) (VStr name) (_minLevel this)
              (_colors this) = true) as ->.
    { unfold config_assertion. rewrite Hs. simpl.
      unfold configured in Hcfg. repeat (apply andb_prop in Hcfg as [Hcfg ?]).
      destruct (_format this); try done.
      destruct (_minLevel this) as [| | |r| | | | | |]; try done.
      assert (js_in (VNum r) logLevelNames = true) as ->.
      { match goal with Hr : (_ && _) = true |- _ => apply andb_prop in Hr as [Hlo Hhi] end.
        apply Z.leb_le in Hlo. apply Z.leb_le in Hhi. unfold DEBUG, CRITICAL in *.
        assert (r = 1 \/ r = 2 \/ r = 3 \/ r = 4 \/ r = 5) as [->|[->|[->|[->| ->]]]]
          by lia; reflexivity. }
      rewrite orb_true_r. simpl.
      destruct (String.eqb_spec name ""); [done|]. simpl.
      by destruct (_colors this). }
    by destruct this.
  - intros send. reflexivity.
Qed.

(** An instance: a configured Logger keeps everything but its name. *)
Lemma C4_setConfig_merges_with_stored_values_witness :
  let this := {| _send := VFun (UserFn 0); _format := VFun (UserFn 1);
                 _appName := VStr "Old"; _minLevel := VNum ERROR;
                 _colors := VObj [("4", VStr "#c00")] |} in
  configured this = true /\ "New" <> "" /\
  setConfig (VObj [("appName", VStr "New")]) this
  = (set_appName (VStr "New") this, Ok tt).
Proof.
  intros this. split; [reflexivity|]. split; [discriminate|].
  apply (proj1 (proj2 C4_setConfig_merges_with_stored_values)); [reflexivity|discriminate].
Defined.

(** C9 (code defect): whenever [setConfig] raises, it has assigned nothing
    and the Logger holds the configuration it held before.  But it does not
    raise on every argument that is not a valid configuration.  A
    minimum level ["toString"], which resolves to no rank, passes the
    assertion through the member that [logLevels] inherits from
    [Object.prototype], and is stored as the minimum level; and a number
    given as configuration to a configured Logger is read as an object that
    omits every field, and the call returns. *)
Theorem C9_setConfig_accepts_unresolvable_minLevel :
  (forall (config : value) (this this' : Logger) (e : js_error),
     setConfig config this = (this', Throw e) -> this' = this /\ e = InvalidConfig)
  /\ (forall send : fn,
        setConfig (VObj [("send", VFun send); ("minLevel", VStr "toString")]) new_object
        = ({| _send := VFun send; _format := VFun _slackFormatter;
              _appName := VStr "My App"; _minLevel := VStr "toString";
              _colors := VUndefined |}, Ok tt))
  /\ (let this := {| _send := VFun (UserFn 0); _format := VFun _slackFormatter;
                     _appName := VStr "App"; _minLevel := VNum WARNING;
                     _colors := VUndefined |} in
      setConfig (VNum 42) this = (this, Ok tt)).
Proof. split; [apply setConfig_atomic|]. by split. Qed.

Lemma C9_setConfig_accepts_unresolvable_minLevel_witness :
  setConfig (VObj [("appName", VStr "")]) sample_logger
  = (sample_logger, Throw InvalidConfig).
Proof.
  destruct (setConfig (VObj [("appName", VStr "")]) sample_logger) as [this' [[]|e]] eqn:H;
    [vm_compute in H; discriminate H|].
  destruct (proj1 C9_setConfig_accepts_unresolvable_minLevel _ _ _ _ H) as [-> ->].
  reflexivity.
Defined.

(** ** The registry *)

Lemma pretty_N_go_head (x : N) : forall s,
  numeric_head s = true -> numeric_head (pretty_N_go x s) = true.
Proof.
  induction (N.lt_wf_0 x) as [x _ IH]. intros s Hs.
  destruct (decide (x = 0)%N) as [->|Hx]; [by rewrite pretty_N_go_0|].
  rewrite pretty_N_go_step by lia.
  apply IH; [apply N.div_lt; lia|].
  simpl. unfold pretty_N_char. by repeat case_match.
Qed.

Lemma pretty_N_head (x : N) : numeric_head (pretty x) = true.
Proof.
  unfold pretty, pretty_N. case_decide; [done|].
  rewrite pretty_N_go_step by lia.
  apply pretty_N_go_head. simpl. unfold pretty_N_char. by repeat case_match.
Qed.

Lemma pretty_Z_head (n : Z) : numeric_head (pretty n) = true.
Proof.
  destruct n as [|p|p]; [done|apply (pretty_N_head (Npos p))|done].
Qed.

(** No key that starts as a number names a member of [Object.prototype]. *)
Lemma numeric_head_not_inherited (s : string) :
  numeric_head s = true -> in_Object_prototype (KString s) = false.
Proof.
  intros Hs. destruct (in_Object_prototype (KString s)) eqn:E; [|done].
  apply existsb_eqb_elem in E. simpl in E.
  repeat (destruct E as [<-|E]; [done|]). done.
Qed.

(** [getLogger(key)], for a key under which the registry holds a logger. *)
Lemma getLogger_own (s : string) (r : registry) (loc : nat) :
  _loggers r !! KString s = Some loc ->
  getLogger (VStr s) VUndefined r = (r, Ok (RLogger loc)).
Proof.
  intros H. unfold getLogger, bind, gets, ret.
  change (String.eqb (typeof (VStr s)) "object") with false.
  cbn [logger_id truthy]. unfold registry_has, registry_get. by rewrite H, H.
Qed.

(** [getLogger(key)], for a key that names no member of [_loggers], own or
    inherited. *)
Lemma getLogger_NotConfigured (idOrConfig : value) (r : registry) :
  String.eqb (typeof idOrConfig) "object" = false ->
  _loggers r !! logger_id idOrConfig = None ->
  in_Object_prototype (logger_id idOrConfig) = false ->
  getLogger idOrConfig VUndefined r = (r, Throw (NotConfigured (logger_id idOrConfig))).
Proof.
  intros Ht Hown Hproto.
  unfold getLogger, bind, gets, throw, registry_has. by rewrite Ht, Hown, Hproto.
Qed.

(** A successful [getLogger] for a key that names no member of
    [Object.prototype] returns a Logger, and the registry holds it under
    that key from then on. *)
Lemma getLogger_registers (idOrConfig config : value) (r r' : registry) (ref : reference) :
  in_Object_prototype (logger_id idOrConfig) = false ->
  getLogger idOrConfig config r = (r', Ok ref) ->
  exists loc, ref = RLogger loc /\ _loggers r' !! logger_id idOrConfig = Some loc.
Proof.
  intros Hproto. unfold getLogger, bind, gets, ret, throw, modify.
  set (id := logger_id idOrConfig) in *.
  set (loggerConfig := if String.eqb (typeof idOrConfig) "object" then idOrConfig else config).
  unfold registry_has at 1. destruct (_loggers r !! id) as [loc|] eqn:Hown.
  - destruct (truthy loggerConfig).
    + unfold registry_get at 1. rewrite Hown. unfold call_setConfig.
      destruct (heap r !! loc) as [this|]; [|done].
      destruct (setConfig loggerConfig this) as [this' [[]|e]]; [|done].
      unfold registry_get. simpl. rewrite Hown. intros [= <- <-]. eauto.
    + unfold registry_get. rewrite Hown. intros [= <- <-]. eauto.
  - rewrite Hproto. destruct (truthy loggerConfig); [|done]. simpl.
    unfold new_Logger. destruct (setConfig loggerConfig new_object) as [this [[]|e]]; [|done].
    unfold registry_get. simpl. rewrite lookup_insert_eq. intros [= <- <-]. simpl.
    rewrite lookup_insert_eq. eauto.
Qed.

(** C5 (code defect): for a key that names no member of [_loggers], own or
    inherited, [getLogger(key)] fails with the not-configured error, and once
    [getLogger(key, config)] has succeeded for such a key, [getLogger(key)]
    returns the same Logger instance and leaves the registry, and with it
    the configuration of the Logger, as it is.  But [getLogger('toString')]
    on the registry in which nothing was ever configured does not fail: the
    [in] test finds the member that [_loggers] inherits from
    [Object.prototype], and that member, a function and not a Logger, is
    returned. *)
Theorem C5_getLogger_returns_inherited_member :
  (forall (idOrConfig : value) (r : registry),
     String.eqb (typeof idOrConfig) "object" = false ->
     _loggers r !! logger_id idOrConfig = None ->
     in_Object_prototype (logger_id idOrConfig) = false ->
     getLogger idOrConfig VUndefined r
     = (r, Throw (NotConfigured (logger_id idOrConfig))))
  /\ (forall (key : string) (config : value) (r r' : registry) (ref : reference),
        in_Object_prototype (KString key) = false ->
        getLogger (VStr key) config r = (r', Ok ref) ->
        (exists loc, ref = RLogger loc)
        /\ getLogger (VStr key) VUndefined r' = (r', Ok ref))
  /\ _loggers empty_registry !! KString "toString" = None
  /\ getLogger (VStr "toString") VUndefined empty_registry
     = (empty_registry, Ok (RInherited (VFun (ObjectPrototypeFn "toString")))).
Proof.
  split; [apply getLogger_NotConfigured|]. split; [|by split].
  intros key config r r' ref Hkey H.
  apply getLogger_registers in H as (loc & -> & Hown); [|done].
  split; [eauto|]. by apply getLogger_own.
Qed.

Lemma C5_getLogger_returns_inherited_member_witness :
  (String.eqb (typeof (VStr "x")) "object" = false
   /\ _loggers empty_registry !! logger_id (VStr "x") = None
   /\ in_Object_prototype (logger_id (VStr "x")) = false
   /\ getLogger (VStr "x") VUndefined empty_registry
      = (empty_registry, Throw (NotConfigured (KString "x"))))
  /\ (getLogger VUndefined VUndefined empty_registry
      = (empty_registry, Throw (NotConfigured (KSymbol "default")))).
Proof.
  split.
  - repeat (split; [reflexivity|]).
    apply (proj1 C5_getLogger_returns_inherited_member (VStr "x") empty_registry);
      reflexivity.
  - apply (proj1 C5_getLogger_returns_inherited_member VUndefined empty_registry);
      reflexivity.
Defined.



(** ** Logging *)

Section Logging.
Variable __filename main_path : string.
Variable path_relative : string -> string -> string.
Variable Error_stack : string.
Variable run_format : fn -> LogEventValues -> result value.
Variable run_send : fn -> value -> result value.

Let getLogValues := _getLogValues __filename main_path path_relative Error_stack.
Let log' := log __filename main_path path_relative Error_stack run_format run_send.

(** [log] after its assertion and the resolution of the level. *)
Lemma log_unfold this level errorOrMessageOrOptions context safeLevel trace :
  log_assertion level errorOrMessageOrOptions context = true ->
  _getLevel level = Ok safeLevel ->
  log' this level errorOrMessageOrOptions context trace
  = match js_lt safeLevel (_minLevel this) with
    | Throw e => (trace, Throw e)
    | Ok true => (trace, Ok VUndefined)
    | Ok false =>
        match getLogValues (_appName this) safeLevel (_colors this)
                errorOrMessageOrOptions context with
        | Throw e => (trace, Throw e)
        | Ok logValues =>
            match _format this with
            | VFun f =>
                match run_format f logValues with
                | Ok body =>
                    call_send run_send (_send this) body
                      (trace ++ [Formatted f logValues])%list
                | Throw _ => ((trace ++ [Formatted f logValues])%list, Throw InvalidFormatter)
                end
            | _ => (trace, Throw InvalidFormatter)
            end
        end
    end.
Proof.
  intros Hvalid Hlevel.
  unfold log', log, getLogValues, bind, try_catch, lift, ret, throw.
  rewrite Hvalid, Hlevel.
  destruct (js_lt safeLevel (_minLevel this)) as [[]|]; try done.
  destruct (_getLogValues _ _ _ _ _ _ _ _ _) as [logValues|]; [|done].
  unfold call_format.
  destruct (_format this); try done.
  unfold bind, modify, lift. by destruct (run_format f logValues).
Qed.

(** An input that passes the assertion of [log] is given its event. *)
Lemma _getLogValues_total appName level level' colors errorOrMessageOrOptions context :
  log_assertion level' errorOrMessageOrOptions context = true ->
  exists logValues,
    getLogValues appName level colors errorOrMessageOrOptions context = Ok logValues
    /\ ev_context logValues
       = js_or (js_or context (member errorOrMessageOrOptions "context")) (VObj []).
Proof.
  unfold log_assertion. intros H.
  apply andb_prop in H as [H _]. apply andb_prop in H as [H _].
  apply andb_prop in H as [H Hinput]. apply andb_prop in H as [_ Htruthy].
  apply orb_prop in Hinput as [Hstring|Hobject].
  - destruct errorOrMessageOrOptions; try done.
    unfold getLogValues, _getLogValues.
    change (String.eqb (typeof (VStr s)) "string") with true. cbv iota.
    destruct (_getTrailFromErrorStack_total __filename main_path path_relative
                Error_stack true) as (t & -> & _).
    eexists. split; [reflexivity|done].
  - apply andb_prop in Hobject as [Hobject _]. apply andb_prop in Hobject as [Hobject _].
    apply andb_prop in Hobject as [Hobject Hs]. apply andb_prop in Hobject as [Hobject _].
    apply andb_prop in Hobject as [Hobject _]. apply andb_prop in Hobject as [Hobject _].
    unfold getLogValues, _getLogValues.
    destruct (String.eqb (typeof errorOrMessageOrOptions) "string") eqn:Ht.
    { destruct errorOrMessageOrOptions; done. }
    assert (exists text, js_or (member errorOrMessageOrOptions "stack") (VStr Error_stack)
                         = VStr text) as [text Htext].
    { destruct (member errorOrMessageOrOptions "stack") as [| | | | |text| | | |];
        vm_compute in Hs; try discriminate Hs; [by eexists|].
      unfold js_or. cbn [truthy]. destruct (String.eqb text ""); by eexists. }
    destruct errorOrMessageOrOptions; try done; cbv zeta; rewrite Htext;
      match goal with
      | |- context [_getTrailFromErrorStack ?a ?b ?c ?d ?e] =>
          destruct (_getTrailFromErrorStack_total a b c d e) as (t & -> & _)
      end; eexists; (split; [reflexivity|done]).
Qed.

(** The assertion of [log] tests the level apart from the rest. *)
Lemma log_assertion_level level level' errorOrMessageOrOptions context :
  log_assertion level errorOrMessageOrOptions context = true ->
  js_in level' logLevels || js_in level' logLevelNames = true ->
  log_assertion level' errorOrMessageOrOptions context = true.
Proof.
  unfold log_assertion. intros H Hlevel.
  apply andb_prop in H as [H ->]. apply andb_prop in H as [H ->].
  apply andb_prop in H as [H ->]. apply andb_prop in H as [_ ->].
  by rewrite Hlevel.
Qed.

(** C2: when the assertion of [log] holds and the resolved level is below
    the minimum level of the Logger, [log] returns [undefined] and the trace
    of invocations is what it was: neither the formatter nor [send] is
    called.  In particular [debug] and [info] on a Logger whose minimum
    level is the rank of WARNING. *)
Theorem C2_log_below_minLevel_calls_nothing :
  (forall this level errorOrMessageOrOptions context safeLevel trace,
     log_assertion level errorOrMessageOrOptions context = true ->
     _getLevel level = Ok safeLevel ->
     js_lt safeLevel (_minLevel this) = Ok true ->
     log' this level errorOrMessageOrOptions context trace = (trace, Ok VUndefined))
  /\ (forall this errorOrMessageOrOptions context trace,
        _minLevel this = VNum WARNING ->
        log_assertion (VNum DEBUG) errorOrMessageOrOptions context = true ->
        debug __filename main_path path_relative Error_stack run_format run_send
              this errorOrMessageOrOptions context trace = (trace, Ok VUndefined)
        /\ info __filename main_path path_relative Error_stack run_format run_send
                this errorOrMessageOrOptions context trace = (trace, Ok VUndefined)).
Proof.
  split.
  - intros this level eo context safeLevel trace Hvalid Hlevel Hbelow.
    by rewrite (log_unfold _ _ _ _ _ _ Hvalid Hlevel), Hbelow.
  - intros this eo context trace Hmin Hvalid. unfold debug, info. split.
    + change (js_index logLevels (VStr "DEBUG")) with (VNum DEBUG).
      fold log'. rewrite (log_unfold _ _ _ _ (VNum DEBUG) _ Hvalid eq_refl).
      by rewrite Hmin.
    + change (js_index logLevels (VStr "INFO")) with (VNum INFO).
      fold log'.
      rewrite (log_unfold _ _ _ _ (VNum INFO) _
                 (log_assertion_level _ (VNum INFO) _ _ Hvalid eq_refl) eq_refl).
      by rewrite Hmin.
Qed.

(** C3: for an input that passes the assertion of [log], the event is built,
    and its context is the [context] argument when one is given, else the
    [context] member of the input when it has one, else the empty object; it
    is an object in every case, never [null] and never [undefined].  For the
    input [{ message: "m", context: { a: 1 } }] and the argument [{ a: 2 }]
    the context of the event is [{ a: 2 }]. *)
Theorem C3_event_context_precedence :
  (forall appName level safeLevel colors errorOrMessageOrOptions context,
     log_assertion level errorOrMessageOrOptions context = true ->
     exists logValues,
       getLogValues appName safeLevel colors errorOrMessageOrOptions context = Ok logValues
       /\ ev_context logValues
          = match context with
            | VUndefined =>
                match member errorOrMessageOrOptions "context" with
                | VUndefined => VObj []
                | optionsContext => optionsContext
                end
            | _ => context
            end
       /\ typeof (ev_context logValues) = "object"
       /\ ev_context logValues <> VNull)
  /\ (forall appName safeLevel colors,
        exists logValues,
          getLogValues appName safeLevel colors
            (VObj [("message", VStr "m"); ("context", VObj [("a", VNum 1)])])
            (VObj [("a", VNum 2)]) = Ok logValues
          /\ ev_context logValues = VObj [("a", VNum 2)]).
Proof.
  split.
  - intros appName level safeLevel colors eo context Hvalid.
    destruct (_getLogValues_total appName safeLevel level colors eo context Hvalid)
      as (logValues & Hev & Hctx).
    exists logValues. split; [done|]. rewrite Hctx. clear Hev Hctx.
    unfold log_assertion in Hvalid.
    apply andb_prop in Hvalid as [Hvalid Hnotnull].
    apply andb_prop in Hvalid as [Hvalid Hcontext].
    apply andb_prop in Hvalid as [Hvalid Hinput].
    assert (Hoptions : typeof_in ["undefined"; "object"] (member eo "context") = true
                       /\ is_null (member eo "context") = false).
    { apply orb_prop in Hinput as [Hstring|Hobject].
      - by destruct eo.
      - apply andb_prop in Hobject as [Hobject Hn].
        apply andb_prop in Hobject as [_ Ho]. split; [done|].
        by destruct (is_null (member eo "context")). }
    destruct Hoptions as [Ho Hn].
    destruct context; vm_compute in Hcontext; try discriminate Hcontext;
      try discriminate Hnotnull; unfold js_or; cbn [truthy];
      try (by repeat split).
    destruct (member eo "context"); vm_compute in Ho; try discriminate Ho;
      try discriminate Hn; by repeat split.
  - intros appName safeLevel colors.
    destruct (_getLogValues_total appName safeLevel (VNum ERROR) colors
                (VObj [("message", VStr "m"); ("context", VObj [("a", VNum 1)])])
                (VObj [("a", VNum 2)]) eq_refl) as (logValues & Hev & Hctx).
    exists logValues. by split.
Qed.

(** C8: for a call of [log] that passes the assertion and is not filtered,
    on a Logger whose formatter is a function, the event is built and, if
    the formatter throws when applied to it, [log] fails with the
    invalid-formatter error; the formatter was called, once, and [send] was
    not. *)
Theorem C8_formatter_failure_is_surfaced :
  forall this level errorOrMessageOrOptions context safeLevel trace (format : fn),
    log_assertion level errorOrMessageOrOptions context = true ->
    _getLevel level = Ok safeLevel ->
    js_lt safeLevel (_minLevel this) = Ok false ->
    _format this = VFun format ->
    exists logValues,
      getLogValues (_appName this) safeLevel (_colors this) errorOrMessageOrOptions context
        = Ok logValues
      /\ forall e : js_error,
           run_format format logValues = Throw e ->
           log' this level errorOrMessageOrOptions context trace
           = ((trace ++ [Formatted format logValues])%list, Throw InvalidFormatter).
Proof.
  intros this level eo context safeLevel trace format Hvalid Hlevel Hbelow Hformat.
  destruct (_getLogValues_total (_appName this) safeLevel level (_colors this) eo context
              Hvalid) as (logValues & Hev & _).
  exists logValues. split; [done|]. intros e Hthrow.
  rewrite (log_unfold _ _ _ _ _ _ Hvalid Hlevel), Hbelow.
  fold getLogValues. by rewrite Hev, Hformat, Hthrow.
Qed.

End Logging.

(** ** Instances *)

Lemma C2_log_below_minLevel_calls_nothing_witness :
  _minLevel sample_logger = VNum WARNING
  /\ log_assertion (VNum DEBUG) (VStr "starting") VUndefined = true
  /\ debug module_file "/" relative_to_root captured_stack failing_format resolving_send
           sample_logger (VStr "starting") VUndefined [] = ([], Ok VUndefined).
Proof.
  split; [reflexivity|]. split; [reflexivity|].
  apply (proj2 (C2_log_below_minLevel_calls_nothing module_file "/" relative_to_root
                  captured_stack failing_format resolving_send)
           sample_logger (VStr "starting") VUndefined []); reflexivity.
Defined.

Lemma C3_event_context_precedence_witness :
  log_assertion (VStr "ERROR") (VObj [("message", VStr "m"); ("context", VObj [("a", VNum 1)])])
                (VObj [("a", VNum 2)]) = true
  /\ exists logValues,
       _getLogValues module_file "/" relative_to_root captured_stack
         (VStr "App") (VNum ERROR) VUndefined
         (VObj [("message", VStr "m"); ("context", VObj [("a", VNum 1)])])
         (VObj [("a", VNum 2)]) = Ok logValues
       /\ ev_context logValues = VObj [("a", VNum 2)].
Proof.
  split; [reflexivity|].
  destruct (proj1 (C3_event_context_precedence module_file "/" relative_to_root
                     captured_stack)
              (VStr "App") (VStr "ERROR") (VNum ERROR) VUndefined
              (VObj [("message", VStr "m"); ("context", VObj [("a", VNum 1)])])
              (VObj [("a", VNum 2)]) eq_refl) as (logValues & Hev & Hctx & _).
  exists logValues. split; [exact Hev|exact Hctx].
Defined.

Lemma C8_formatter_failure_is_surfaced_witness :
  log_assertion (VStr "ERROR") (VStr "disk full") VUndefined = true
  /\ _getLevel (VStr "ERROR") = Ok (VNum ERROR)
  /\ js_lt (VNum ERROR) (_minLevel sample_logger) = Ok false
  /\ _format sample_logger = VFun (UserFn 1)
  /\ exists logValues,
       _getLogValues module_file "/" relative_to_root captured_stack
         (VStr "App") (VNum ERROR) VUndefined (VStr "disk full") VUndefined = Ok logValues
       /\ log module_file "/" relative_to_root captured_stack failing_format resolving_send
              sample_logger (VStr "ERROR") (VStr "disk full") VUndefined []
          = ([Formatted (UserFn 1) logValues], Throw InvalidFormatter).
Proof.
  repeat (split; [reflexivity|]).
  destruct (C8_formatter_failure_is_surfaced module_file "/" relative_to_root
              captured_stack failing_format resolving_send
              sample_logger (VStr "ERROR") (VStr "disk full") VUndefined (VNum ERROR) []
              (UserFn 1) eq_refl eq_refl eq_refl eq_refl) as (logValues & Hev & Hlog).
  exists logValues. split; [exact Hev|].
  exact (Hlog (UserError (VStr "cannot render")) eq_refl).
Defined.


(** * Further properties *)

(** ** Level and format resolution *)

(** The values whose key names an own member of [logLevelNames] are the ranks
    and their decimal strings. *)
Lemma own_logLevelNames_key (v : value) (s : string) (x : value) :
  ToPropertyKey v = Some (KString s) ->
  own_get logLevelNames s = Some x ->
  (exists r, DEBUG <= r <= CRITICAL /\ (v = VNum r \/ v = VStr (pretty r))).
Proof.
  intros Hkey Hown.
  assert (Hs : s = "1" \/ s = "2" \/ s = "3" \/ s = "4" \/ s = "5").
  { unfold logLevelNames in Hown. cbn [own_get] in Hown.
    repeat match type of Hown with
           | (if String.eqb ?a s then _ else _) = _ =>
               destruct (String.eqb_spec a s) as [<-|_]; [by auto 6|]
           end.
    done. }
  assert (Hr : exists r, DEBUG <= r <= CRITICAL /\ s = pretty r).
  { unfold DEBUG, CRITICAL.
    destruct Hs as [->|[->|[->|[->| ->]]]];
      [exists 1|exists 2|exists 3|exists 4|exists 5]; by split. }
  destruct Hr as (r & Hr & ->). exists r. split; [done|].
  destruct v as [| |[]|n| |t|k|f|ms|]; simpl in Hkey; try discriminate Hkey;
    injection Hkey as Hkey;
    try (exfalso; apply (f_equal numeric_head) in Hkey;
         by rewrite pretty_Z_head in Hkey).
  - left. by apply (inj pretty) in Hkey as ->.
  - right. by subst.
Qed.

Lemma js_in_logLevelNames_truthy (v : value) :
  js_in v logLevelNames = true -> truthy v = true.
Proof.
  unfold js_in. destruct (ToPropertyKey v) as [[s|k]|] eqn:Hkey; [|done..].
  unfold has_member. destruct (own_get logLevelNames s) as [x|] eqn:Hown.
  - intros _.
    destruct (own_logLevelNames_key v s x Hkey Hown) as (r & Hr & [->| ->]).
    + simpl. unfold DEBUG in Hr. destruct (Z.eqb_spec r 0); [lia|done].
    + simpl. pose proof (pretty_Z_head r) as Hhead. by destruct (pretty r).
  - intros Hin.
    destruct v as [| |[]|n| |t|k|f|ms|]; simpl in Hkey; try discriminate Hkey;
      injection Hkey as <-; try (by vm_compute in Hin).
    + by rewrite numeric_head_not_inherited in Hin by apply pretty_Z_head.
    + by destruct t.
Qed.

Lemma own_logLevels_rank (s : string) (x : value) :
  own_get logLevels s = Some x ->
  exists r, DEBUG <= r <= CRITICAL /\ x = VNum r.
Proof.
  unfold logLevels, DEBUG, INFO, WARNING, ERROR, CRITICAL. cbn [own_get]. intros H.
  repeat match type of H with
         | (if String.eqb ?a s then _ else _) = _ =>
             destruct (String.eqb a s);
             [injection H as <-; eexists; split; [|reflexivity]; lia|]
         end.
  done.
Qed.

(** What [_getLevel] returns: its argument, when the key of the argument
    names a member of [logLevelNames], and a rank otherwise. *)
Lemma _getLevel_result (v r : value) :
  _getLevel v = Ok r ->
  (r = v /\ js_in v logLevelNames = true)
  \/ (exists k, DEBUG <= k <= CRITICAL /\ r = VNum k).
Proof.
  unfold _getLevel. destruct (js_in v logLevelNames) eqn:Hnames.
  - intros [= <-]. by left.
  - destruct (js_in v logLevels) eqn:Hlevels; [|by destruct v].
    intros [= <-]. right.
    unfold js_in, js_index in *.
    destruct (ToPropertyKey v) as [[s|k]|]; [|done..].
    unfold has_member, get_member in *.
    destruct (own_get logLevelNames s); [done|].
    destruct (own_get logLevels s) as [x|] eqn:Hown; [|congruence].
    by apply own_logLevels_rank in Hown.
Qed.

Lemma _getLevel_stable :
  forall v r : value,
    _getLevel v = Ok r ->
    _getLevel r = Ok r /\ truthy r = true /\ js_or r (VNum WARNING) = r.
Proof.
  intros v r H.
  assert (Hr : _getLevel r = Ok r /\ truthy r = true).
  { destruct (_getLevel_result v r H) as [[-> Hin]|(k & Hk & ->)].
    - split; [done|]. by apply js_in_logLevelNames_truthy.
    - split; [by apply _getLevel_rank|].
      simpl. unfold DEBUG in Hk. destruct (Z.eqb_spec k 0); [lia|done]. }
  destruct Hr as [Hr Ht]. repeat split; [done..|]. unfold js_or. by rewrite Ht.
Qed.

(** X1: what [_getLevel] returns resolves to itself, and is truthy: a
    resolved level stored in a Logger is what [setConfig] reads back through
    its default [this._minLevel || logLevels.WARNING], and resolving it again
    changes nothing. *)
Theorem X1_getLevel_result_is_stable :
  forall v r : value,
    _getLevel v = Ok r ->
    _getLevel r = Ok r /\ truthy r = true /\ js_or r (VNum WARNING) = r.
Proof. exact _getLevel_stable. Qed.

Lemma X1_getLevel_result_is_stable_witness :
  _getLevel (VStr "CRITICAL") = Ok (VNum CRITICAL)
  /\ _getLevel (VNum CRITICAL) = Ok (VNum CRITICAL)
  /\ truthy (VNum CRITICAL) = true
  /\ js_or (VNum CRITICAL) (VNum WARNING) = VNum CRITICAL.
Proof.
  split; [reflexivity|].
  apply (X1_getLevel_result_is_stable (VStr "CRITICAL") (VNum CRITICAL)). reflexivity.
Defined.

(** X2: the two level tables are inverse to each other, through
    [_getLevel]: a level name resolves to a rank whose name it is, and the
    name of a rank resolves to that rank; the default color table has a
    color for every rank. *)
Theorem X2_level_tables_round_trip :
  Forall (fun '(name, rank) =>
            _getLevel (VStr name) = Ok rank
            /\ js_index logLevelNames rank = VStr name)
         logLevels
  /\ Forall (fun '(key, name) =>
               rbind (_getLevel name) (fun rank => Ok (ToPropertyKey rank))
               = Ok (Some (KString key))
               /\ truthy (js_index _defaultColors (VStr key)) = true)
            logLevelNames.
Proof. split; repeat constructor. Qed.

(** The keys that name an own member of the format tables. *)
Lemma own_format_tables (s : string) :
  (forall x, own_get logFormatNames s = Some x -> s = "1")
  /\ (forall x, own_get logFormats s = Some x -> s = "SLACK").
Proof.
  unfold logFormatNames, logFormats. cbn [own_get]. split; intros x H.
  - match type of H with
    | (if String.eqb ?a s then _ else _) = _ => by destruct (String.eqb_spec a s)
    end.
  - match type of H with
    | (if String.eqb ?a s then _ else _) = _ => by destruct (String.eqb_spec a s)
    end.
Qed.

Lemma Object_prototype_get_function (s : string) :
  in_Object_prototype (KString s) = true ->
  s <> "__proto__" ->
  Object_prototype_get (KString s) = VFun (ObjectPrototypeFn s).
Proof.
  intros Hin Hs. unfold Object_prototype_get.
  destruct (String.eqb_spec s "__proto__"); [done|]. by rewrite Hin.
Qed.

(** X3: [_getFormat] passes a function through, throws for a value that is
    neither a function nor the key of a member of the format tables, and
    what it returns is a function that it resolves to itself, for every
    argument but the key ["__proto__"], for which it returns
    [Object.prototype]. *)
Theorem X3_getFormat_returns_function :
  (forall f : fn, _getFormat (VFun f) = Ok (VFun f))
  /\ (forall v : value,
        String.eqb (typeof v) "function" = false ->
        js_in v logFormats = false ->
        js_in v logFormatNames = false ->
        _getFormat v = Throw InvalidFormat)
  /\ (forall v r : value,
        _getFormat v = Ok r ->
        ToPropertyKey v <> Some (KString "__proto__") ->
        String.eqb (typeof r) "function" = true /\ _getFormat r = Ok r)
  /\ _getFormat (VStr "__proto__") = Ok VObjectPrototype.
Proof.
  split; [done|]. split; [|split; [|done]].
  - intros v Hfun Hin Hnames. unfold _getFormat. by rewrite Hnames, Hin, Hfun.
  - intros v r H Hproto.
    assert (Hr : String.eqb (typeof r) "function" = true);
      [|split; [done|by apply _getFormat_function]].
    revert H. unfold _getFormat, js_in, js_index.
    destruct (ToPropertyKey v) as [[s|k]|] eqn:Hkey; cbn [has_member get_member].
    + destruct (own_get logFormatNames s) as [x|] eqn:E1.
      { apply own_format_tables in E1 as ->. by intros [= <-]. }
      destruct (in_Object_prototype (KString s)) eqn:Hin.
      { assert (own_get _defaultFormats s = None) as ->.
        { unfold _defaultFormats. cbn [own_get].
          destruct (String.eqb_spec (pretty SLACK) s) as [<-|_]; [|done].
          by vm_compute in Hin. }
        rewrite Object_prototype_get_function; [|done|congruence].
        by intros [= <-]. }
      destruct (own_get logFormats s) as [x|] eqn:E2.
      { pose proof E2 as Hs. apply own_format_tables in Hs as ->.
        injection E2 as <-. by intros [= <-]. }
      destruct (String.eqb (typeof v) "function") eqn:Hfun; [|done].
      by intros [= <-].
    + destruct (String.eqb (typeof v) "function") eqn:Hfun; [|done].
      by intros [= <-].
    + destruct (String.eqb (typeof v) "function") eqn:Hfun; [|done].
      by intros [= <-].
Qed.

Lemma X3_getFormat_returns_function_witness :
  (String.eqb (typeof (VStr "JSON")) "function" = false
   /\ js_in (VStr "JSON") logFormats = false
   /\ js_in (VStr "JSON") logFormatNames = false
   /\ _getFormat (VStr "JSON") = Throw InvalidFormat)
  /\ (_getFormat (VStr "SLACK") = Ok (VFun _slackFormatter)
      /\ ToPropertyKey (VStr "SLACK") <> Some (KString "__proto__")
      /\ String.eqb (typeof (VFun _slackFormatter)) "function" = true
      /\ _getFormat (VFun _slackFormatter) = Ok (VFun _slackFormatter)).
Proof.
  split.
  - repeat (split; [reflexivity|]).
    apply (proj1 (proj2 X3_getFormat_returns_function)); reflexivity.
  - split; [reflexivity|]. split; [discriminate|].
    apply (proj1 (proj2 (proj2 X3_getFormat_returns_function)) (VStr "SLACK"));
      [reflexivity|discriminate].
Defined.

(** ** Configuration, further *)

Lemma config_assertion_true send format appName minLevel colors :
  config_assertion send format appName minLevel colors = true <->
  String.eqb (typeof send) "function" = true
  /\ (String.eqb (typeof format) "function"
      || js_in format logFormats || js_in format logFormatNames) = true
  /\ (js_in minLevel logLevels || js_in minLevel logLevelNames) = true
  /\ String.eqb (typeof appName) "string" = true
  /\ truthy appName = true
  /\ typeof_in ["undefined"; "object"] colors = true
  /\ is_null colors = false.
Proof.
  unfold config_assertion. rewrite !andb_true_iff, negb_true_iff. tauto.
Qed.

(** A successful [setConfig], taken apart. *)
Lemma setConfig_success (config : value) (this this' : Logger) :
  setConfig config this = (this', Ok tt) ->
  exists send format appName minLevel colors resolved rank,
    destructure_config this config = Ok (send, format, appName, minLevel, colors)
    /\ config_assertion send format appName minLevel colors = true
    /\ _getFormat format = Ok resolved
    /\ _getLevel minLevel = Ok rank
    /\ this' = {| _send := send; _format := resolved; _appName := appName;
                  _minLevel := rank; _colors := colors |}.
Proof.
  rewrite setConfig_unfold.
  destruct (destructure_config this config)
    as [[[[[send format] appName] minLevel] colors]|]; [|done].
  destruct (config_assertion _ _ _ _ _) eqn:Hassert; [|done].
  destruct (_getFormat format) as [resolved|] eqn:Hformat; [|done].
  destruct (_getLevel minLevel) as [rank|] eqn:Hlevel; [|done].
  intros [= <-]. by exists send, format, appName, minLevel, colors, resolved, rank.
Qed.

Lemma setConfig_establishes :
  forall (config : value) (this this' : Logger),
    setConfig config this = (this', Ok tt) ->
    String.eqb (typeof (_send this')) "function" = true
    /\ (exists name, _appName this' = VStr name /\ name <> "")
    /\ typeof_in ["undefined"; "object"] (_colors this') = true
    /\ _colors this' <> VNull
    /\ _getLevel (_minLevel this') = Ok (_minLevel this')
    /\ truthy (_minLevel this') = true.
Proof.
  intros config this this' H.
  apply setConfig_success in H
    as (send & format & appName & minLevel & colors & resolved & rank
        & _ & Hassert & _ & Hlevel & ->).
  apply config_assertion_true in Hassert as (Hs & _ & _ & Ha & Hta & Hc & Hn).
  cbn [_send _appName _colors _minLevel].
  destruct (_getLevel_stable minLevel rank Hlevel) as (Hstable & Htruthy & _).
  repeat split; try done.
  - destruct appName; try done. eexists. split; [done|]. by intros ->.
  - by intros ->.
Qed.

(** X4: after a successful [setConfig] the Logger has a callable [send], a
    non-empty string as application name, colors that are [undefined] or an
    object and not [null], and a minimum level that resolves to itself. *)
Theorem X4_setConfig_establishes :
  forall (config : value) (this this' : Logger),
    setConfig config this = (this', Ok tt) ->
    String.eqb (typeof (_send this')) "function" = true
    /\ (exists name, _appName this' = VStr name /\ name <> "")
    /\ typeof_in ["undefined"; "object"] (_colors this') = true
    /\ _colors this' <> VNull
    /\ _getLevel (_minLevel this') = Ok (_minLevel this')
    /\ truthy (_minLevel this') = true.
Proof. exact setConfig_establishes. Qed.

Lemma X4_setConfig_establishes_witness :
  setConfig (VObj [("send", VFun (UserFn 0)); ("minLevel", VStr "INFO")]) new_object
  = ({| _send := VFun (UserFn 0); _format := VFun _slackFormatter;
        _appName := VStr "My App"; _minLevel := VNum INFO; _colors := VUndefined |}, Ok tt)
  /\ String.eqb (typeof (VFun (UserFn 0))) "function" = true
  /\ _getLevel (VNum INFO) = Ok (VNum INFO).
Proof.
  assert (H : setConfig (VObj [("send", VFun (UserFn 0)); ("minLevel", VStr "INFO")])
                new_object
              = ({| _send := VFun (UserFn 0); _format := VFun _slackFormatter;
                    _appName := VStr "My App"; _minLevel := VNum INFO;
                    _colors := VUndefined |}, Ok tt)) by reflexivity.
  split; [exact H|].
  destruct (X4_setConfig_establishes _ _ _ H) as (Hs & _ & _ & _ & Hl & _).
  split; [exact Hs|exact Hl].
Defined.

Lemma or_default_fix (m d x : value) : or_default m d = x -> or_default m x = x.
Proof. intros <-. by destruct m. Qed.

(** X5: [setConfig] is idempotent: when a call succeeds and leaves a
    function as the formatter, the same call on the Logger it produced
    succeeds and changes nothing. *)
Theorem X5_setConfig_idempotent :
  forall (config : value) (this this' : Logger),
    setConfig config this = (this', Ok tt) ->
    String.eqb (typeof (_format this')) "function" = true ->
    setConfig config this' = (this', Ok tt).
Proof.
  intros config this this' H Hfun.
  apply setConfig_success in H
    as (send & format & appName & minLevel & colors & resolved & rank
        & Hfields & Hassert & Hformat & Hlevel & ->).
  cbn [_format] in Hfun.
  destruct (_getLevel_stable minLevel rank Hlevel) as (Hrank & Htruthy & Hor).
  pose proof Hassert as Hparts.
  apply config_assertion_true in Hparts as (Hs & Hf & Hl & Ha & Hta & Hc & Hn).
  assert (Hconfig : config <> VUndefined /\ config <> VNull).
  { by destruct config. }
  unfold destructure_config in Hfields.
  assert (Hfields' :
    Ok (or_default (member config "send") (_send this),
        or_default (member config "format") (js_or (_format this) (VNum SLACK)),
        or_default (member config "appName") (js_or (_appName this) (VStr "My App")),
        or_default (member config "minLevel") (js_or (_minLevel this) (VNum WARNING)),
        or_default (member config "colors") (_colors this))
    = Ok (send, format, appName, minLevel, colors)).
  { by destruct config. }
  injection Hfields' as Hsend Hfmt Happ Hmin Hcol. clear Hfields.
  rewrite setConfig_unfold.
  assert (destructure_config
            {| _send := send; _format := resolved; _appName := appName;
               _minLevel := rank; _colors := colors |} config
          = Ok (send,
                or_default (member config "format") resolved,
                appName,
                or_default (member config "minLevel") rank,
                colors)) as ->.
  { unfold destructure_config. cbn [_send _format _appName _minLevel _colors].
    rewrite Hor.
    assert (js_or resolved (VNum SLACK) = resolved) as ->.
    { unfold js_or. by destruct resolved. }
    assert (js_or appName (VStr "My App") = appName) as ->.
    { unfold js_or. by rewrite Hta. }
    rewrite (or_default_fix _ _ _ Hsend), (or_default_fix _ _ _ Happ),
            (or_default_fix _ _ _ Hcol).
    destruct Hconfig. by destruct config. }
  assert (Hformat2 : _getFormat (or_default (member config "format") resolved) = Ok resolved
                     /\ (String.eqb (typeof (or_default (member config "format") resolved))
                                    "function"
                         || js_in (or_default (member config "format") resolved) logFormats
                         || js_in (or_default (member config "format") resolved)
                                  logFormatNames) = true).
  { destruct (member config "format") eqn:Hm; cbn [or_default] in *;
      try (subst format; by split).
    split; [by apply _getFormat_function|]. by rewrite Hfun. }
  assert (Hlevel2 : _getLevel (or_default (member config "minLevel") rank) = Ok rank
                    /\ (js_in (or_default (member config "minLevel") rank) logLevels
                        || js_in (or_default (member config "minLevel") rank)
                                 logLevelNames) = true).
  { destruct (member config "minLevel") eqn:Hm; cbn [or_default] in *;
      try (subst minLevel; by split).
    split; [done|].
    unfold _getLevel in Hrank.
    destruct (js_in rank logLevelNames); [by rewrite orb_true_r|].
    destruct (js_in rank logLevels); [done|]. by destruct rank. }
  destruct Hformat2 as [-> Hf2]. destruct Hlevel2 as [-> Hl2].
  assert (config_assertion send (or_default (member config "format") resolved) appName
            (or_default (member config "minLevel") rank) colors = true) as ->.
  { apply config_assertion_true. by repeat split. }
  done.
Qed.

Lemma X5_setConfig_idempotent_witness :
  let config := VObj [("send", VFun (UserFn 0)); ("format", VStr "SLACK");
                      ("minLevel", VStr "ERROR")] in
  let this' := {| _send := VFun (UserFn 0); _format := VFun _slackFormatter;
                  _appName := VStr "My App"; _minLevel := VNum ERROR;
                  _colors := VUndefined |} in
  setConfig config new_object = (this', Ok tt)
  /\ String.eqb (typeof (_format this')) "function" = true
  /\ setConfig config this' = (this', Ok tt).
Proof.
  intros config this'.
  assert (H : setConfig config new_object = (this', Ok tt)) by reflexivity.
  split; [exact H|]. split; [reflexivity|].
  exact (X5_setConfig_idempotent config new_object this' H eq_refl).
Defined.

(** ** The registry, further *)

(** [getLogger], case by case. *)
Lemma getLogger_unfold (idOrConfig config : value) (r : registry) :
  getLogger idOrConfig config r
  = let id := logger_id idOrConfig in
    let loggerConfig :=
      if String.eqb (typeof idOrConfig) "object" then idOrConfig else config in
    match _loggers r !! id with
    | Some loc =>
        if truthy loggerConfig then
          match heap r !! loc with
          | Some this =>
              match setConfig loggerConfig this with
              | (this', Ok _) =>
                  ({| heap := <[loc := this']> (heap r); _loggers := _loggers r |},
                   Ok (RLogger loc))
              | (this', Throw e) =>
                  ({| heap := <[loc := this']> (heap r); _loggers := _loggers r |},
                   Throw e)
              end
          | None => (r, Throw TypeError)
          end
        else (r, Ok (RLogger loc))
    | None =>
        if in_Object_prototype id then
          if truthy loggerConfig then (r, Throw TypeError)
          else (r, Ok (RInherited (Object_prototype_get id)))
        else if truthy loggerConfig then
          match setConfig loggerConfig new_object with
          | (this, Ok _) =>
              ({| heap := (heap r ++ [this])%list;
                  _loggers := <[id := List.length (heap r)]> (_loggers r) |},
               Ok (RLogger (List.length (heap r))))
          | (_, Throw e) => (r, Throw e)
          end
        else (r, Throw (NotConfigured id))
    end.
Proof.
  unfold getLogger, bind, gets, ret, throw, modify. cbv zeta.
  set (id := logger_id idOrConfig).
  set (loggerConfig := if String.eqb (typeof idOrConfig) "object" then idOrConfig else config).
  unfold registry_has at 1. destruct (_loggers r !! id) as [loc|] eqn:Hown.
  - destruct (truthy loggerConfig).
    + unfold registry_get at 1. rewrite Hown. unfold call_setConfig.
      destruct (heap r !! loc) as [this|]; [|done].
      destruct (setConfig loggerConfig this) as [this' [[]|e]]; [|done].
      unfold registry_get. cbn [_loggers]. by rewrite Hown.
    + unfold registry_get. by rewrite Hown.
  - destruct (in_Object_prototype id).
    + destruct (truthy loggerConfig).
      * unfold registry_get at 1. by rewrite Hown.
      * unfold registry_get. by rewrite Hown.
    + destruct (truthy loggerConfig); cbn [negb]; [|done].
      unfold new_Logger.
      destruct (setConfig loggerConfig new_object) as [this [[]|e]]; [|done].
      unfold registry_get. cbn [_loggers heap]. by rewrite lookup_insert_eq.
Qed.

(** X6: a call of [getLogger] that throws leaves the registry and every
    Logger as they were, whether it was to create a logger or to configure
    an existing one again. *)
Theorem X6_getLogger_failure_changes_nothing :
  forall (idOrConfig config : value) (r r' : registry) (e : js_error),
    getLogger idOrConfig config r = (r', Throw e) -> r' = r.
Proof.
  intros idOrConfig config r r' e. rewrite getLogger_unfold. cbv zeta.
  destruct (_loggers r !! logger_id idOrConfig) as [loc|].
  - destruct (truthy _); [|done].
    destruct (heap r !! loc) as [this|] eqn:Hthis; [|by intros [= <-]].
    destruct (setConfig _ this) as [this' [[]|e']] eqn:Hset; [done|].
    apply setConfig_atomic in Hset as [-> _].
    intros [= <- _]. destruct r as [h l]. cbn [heap _loggers] in *.
    f_equal. by apply list_insert_id.
  - destruct (in_Object_prototype _).
    + destruct (truthy _); [by intros [= <-]|done].
    + destruct (truthy _); [|by intros [= <-]].
      destruct (setConfig _ new_object) as [this [[]|e']]; [done|by intros [= <-]].
Qed.

Lemma X6_getLogger_failure_changes_nothing_witness :
  let config := VObj [("send", VFun (UserFn 0))] in
  let r := fst (getLogger (VStr "jobs") config empty_registry) in
  getLogger (VStr "jobs") (VObj [("appName", VStr "")]) r = (r, Throw InvalidConfig).
Proof.
  intros config r.
  destruct (getLogger (VStr "jobs") (VObj [("appName", VStr "")]) r) as [r' [ref|e]] eqn:H;
    [vm_compute in H; discriminate H|].
  rewrite (X6_getLogger_failure_changes_nothing _ _ _ _ _ H) in *.
  f_equal. vm_compute in H. by injection H as _ <-.
Defined.

Lemma setConfig_establishes_entry (config : value) (this this' : Logger) :
  setConfig config this = (this', Ok tt) ->
  String.eqb (typeof (_send this')) "function" = true
  /\ (exists name, _appName this' = VStr name /\ name <> "")
  /\ _getLevel (_minLevel this') = Ok (_minLevel this').
Proof.
  intros H. destruct (setConfig_establishes _ _ _ H) as (? & ? & _ & _ & ? & _). done.
Qed.

Lemma getLogger_keeps_registry_wf :
  registry_wf empty_registry
  /\ forall (idOrConfig config : value) (r r' : registry) (outcome : result reference),
       registry_wf r ->
       getLogger idOrConfig config r = (r', outcome) ->
       registry_wf r'.
Proof.
  split.
  { split; intros *; simpl; by rewrite lookup_empty. }
  intros idOrConfig config r r' outcome [Hinj Hreg].
  rewrite getLogger_unfold. cbv zeta.
  set (id := logger_id idOrConfig).
  set (loggerConfig := if String.eqb (typeof idOrConfig) "object" then idOrConfig else config).
  destruct (_loggers r !! id) as [loc|] eqn:Hown.
  - destruct (truthy loggerConfig); [|by intros [= <- _]].
    destruct (heap r !! loc) as [this|] eqn:Hthis; [|by intros [= <- _]].
    assert (Hlt : (loc < List.length (heap r))%nat) by by eapply lookup_lt_Some.
    destruct (setConfig loggerConfig this) as [this' [[]|e]] eqn:Hset.
    + intros [= <- _]. split; [exact Hinj|]. cbn [heap _loggers].
      intros k loc0 Hk. cbn [heap _loggers] in *. destruct (decide (loc0 = loc)) as [->|Hne].
      * exists this'. rewrite list_lookup_insert_eq by done.
        split; [done|]. by eapply setConfig_establishes_entry.
      * rewrite list_lookup_insert_ne by done. by eapply Hreg.
    + apply setConfig_atomic in Hset as [-> _]. intros [= <- _].
      rewrite list_insert_id by done. by destruct r.
  - destruct (in_Object_prototype id).
    { destruct (truthy loggerConfig); by intros [= <- _]. }
    destruct (truthy loggerConfig); [|by intros [= <- _]].
    destruct (setConfig loggerConfig new_object) as [this [[]|e]] eqn:Hset;
      [|by intros [= <- _]].
    intros [= <- _]. split; cbn [heap _loggers].
    + intros k1 k2 loc0. rewrite !lookup_insert.
      repeat case_decide; subst; try done.
      * intros [= <-] Hk2. destruct (Hreg _ _ Hk2) as (t & Ht & _).
        apply lookup_lt_Some in Ht. lia.
      * intros Hk1 [= <-]. destruct (Hreg _ _ Hk1) as (t & Ht & _).
        apply lookup_lt_Some in Ht. lia.
      * apply Hinj.
    + intros k loc0. rewrite lookup_insert. case_decide.
      * intros [= <-]. exists this. split.
        { rewrite lookup_app_r by done. by rewrite Nat.sub_diag. }
        by eapply setConfig_establishes_entry.
      * intros Hk. destruct (Hreg _ _ Hk) as (t & Ht & Hrest).
        exists t. split; [|done]. rewrite lookup_app_l; [done|].
        by eapply lookup_lt_Some.
Qed.

(** X7: the registry stays well formed.  It is well formed when the module
    is loaded, and every call of [getLogger], whatever its arguments and its
    outcome, keeps it so: every member of [_loggers] is a Logger with a
    callable [send], a non-empty application name and a resolved minimum
    level, and no two keys share a Logger. *)
Theorem X7_getLogger_keeps_registry_wf :
  registry_wf empty_registry
  /\ forall (idOrConfig config : value) (r r' : registry) (outcome : result reference),
       registry_wf r ->
       getLogger idOrConfig config r = (r', outcome) ->
       registry_wf r'.
Proof. exact getLogger_keeps_registry_wf. Qed.

Lemma X7_getLogger_keeps_registry_wf_witness :
  let r := fst (getLogger (VStr "jobs") (VObj [("send", VFun (UserFn 0))]) empty_registry) in
  _loggers r !! KString "jobs" = Some 0%nat /\ registry_wf r.
Proof.
  intros r. split; [reflexivity|].
  exact (proj2 X7_getLogger_keeps_registry_wf (VStr "jobs")
           (VObj [("send", VFun (UserFn 0))]) empty_registry r _
           (proj1 X7_getLogger_keeps_registry_wf) (surjective_pairing _)).
Defined.

(** X8: [getLogger] touches one logger only.  After a call for one key, in
    a well-formed registry, every other key names the Logger it named
    before, and that Logger holds the configuration it held before. *)
Theorem X8_getLogger_leaves_other_loggers :
  forall (idOrConfig config : value) (r r' : registry) (outcome : result reference)
         (k : pkey),
    registry_wf r ->
    getLogger idOrConfig config r = (r', outcome) ->
    k <> logger_id idOrConfig ->
    _loggers r' !! k = _loggers r !! k
    /\ forall loc, _loggers r !! k = Some loc -> heap r' !! loc = heap r !! loc.
Proof.
  intros idOrConfig config r r' outcome k [Hinj Hreg].
  rewrite getLogger_unfold. cbv zeta.
  set (id := logger_id idOrConfig).
  set (loggerConfig := if String.eqb (typeof idOrConfig) "object" then idOrConfig else config).
  destruct (_loggers r !! id) as [loc|] eqn:Hown.
  - destruct (truthy loggerConfig); [|by intros [= <- _]].
    destruct (heap r !! loc) as [this|] eqn:Hthis; [|by intros [= <- _]].
    assert (forall this', k <> id ->
              _loggers r !! k = _loggers r !! k
              /\ forall loc0, _loggers r !! k = Some loc0 ->
                   <[loc := this']> (heap r) !! loc0 = heap r !! loc0) as Hframe.
    { intros this' Hk. split; [done|]. intros loc0 Hloc0.
      apply list_lookup_insert_ne. intros <-. apply Hk. by eapply Hinj. }
    destruct (setConfig loggerConfig this) as [this' [[]|e]];
      intros [= <- _] Hk; by apply Hframe.
  - destruct (in_Object_prototype id).
    { destruct (truthy loggerConfig); by intros [= <- _]. }
    destruct (truthy loggerConfig); [|by intros [= <- _]].
    destruct (setConfig loggerConfig new_object) as [this [[]|e]]; [|by intros [= <- _]].
    intros [= <- _] Hk. cbn [heap _loggers]. split.
    + by rewrite lookup_insert_ne.
    + intros loc0 Hloc0. destruct (Hreg _ _ Hloc0) as (t & Ht & _).
      apply lookup_app_l. by eapply lookup_lt_Some.
Qed.

Lemma X8_getLogger_leaves_other_loggers_witness :
  let r := fst (getLogger (VStr "abc") (VObj [("send", VFun (UserFn 0))]) empty_registry) in
  let r' := fst (getLogger (VStr "xyz") (VObj [("send", VFun (UserFn 1))]) r) in
  registry_wf r
  /\ KString "abc" <> logger_id (VStr "xyz")
  /\ _loggers r' !! KString "abc" = _loggers r !! KString "abc"
  /\ heap r' !! 0%nat = heap r !! 0%nat.
Proof.
  intros r r'.
  assert (Hwf : registry_wf r).
  { exact (proj2 getLogger_keeps_registry_wf (VStr "abc")
             (VObj [("send", VFun (UserFn 0))]) empty_registry r _
             (proj1 getLogger_keeps_registry_wf) (surjective_pairing _)). }
  split; [exact Hwf|]. split; [discriminate|].
  destruct (X8_getLogger_leaves_other_loggers (VStr "xyz") (VObj [("send", VFun (UserFn 1))])
              r r' (snd (getLogger (VStr "xyz") (VObj [("send", VFun (UserFn 1))]) r))
              (KString "abc") Hwf) as [Hkey Hheap].
  - apply surjective_pairing.
  - discriminate.
  - split; [exact Hkey|]. by apply Hheap.
Defined.

(** X9: the default logger.  When the first argument of [getLogger] is an
    object, it is the configuration and the second argument is not read; a
    successful call makes or configures the logger kept under the registered
    symbol [default], and a following [getLogger()] returns that same Logger
    and leaves the registry as it is.  [null] as first argument is no
    configuration, and the second argument is not read then either. *)
Theorem X9_getLogger_default_logger :
  (forall (members : list (string * value)) (config : value) (r r' : registry)
          (ref : reference),
     getLogger (VObj members) config r = (r', Ok ref) ->
     (exists loc, ref = RLogger loc /\ _loggers r' !! KSymbol "default" = Some loc)
     /\ getLogger VUndefined VUndefined r' = (r', Ok ref))
  /\ (forall (idOrConfig config : value) (r : registry),
        String.eqb (typeof idOrConfig) "object" = true ->
        getLogger idOrConfig config r = getLogger idOrConfig VUndefined r)
  /\ (forall (config : value) (r : registry),
        _loggers r !! KSymbol "default" = None ->
        getLogger VNull config r = (r, Throw (NotConfigured (KSymbol "default")))).
Proof.
  split; [|split].
  - intros members config r r' ref H.
    apply getLogger_registers in H as (loc & -> & Hown); [|done].
    cbn [logger_id] in Hown. split; [eauto|].
    rewrite getLogger_unfold. cbv zeta. cbn [logger_id]. by rewrite Hown.
  - intros idOrConfig config r Hobject. rewrite !getLogger_unfold. cbv zeta.
    by rewrite Hobject.
  - intros config r Hnone. rewrite getLogger_unfold. cbv zeta. cbn [logger_id].
    by rewrite Hnone.
Qed.

Lemma X9_getLogger_default_logger_witness :
  let config := [("send", VFun (UserFn 0)); ("appName", VStr "Billing")] in
  let r' := fst (getLogger (VObj config) VUndefined empty_registry) in
  getLogger (VObj config) VUndefined empty_registry = (r', Ok (RLogger 0))
  /\ getLogger VUndefined VUndefined r' = (r', Ok (RLogger 0))
  /\ _loggers empty_registry !! KSymbol "default" = None
  /\ getLogger VNull (VObj config) empty_registry
     = (empty_registry, Throw (NotConfigured (KSymbol "default"))).
Proof.
  intros config r'.
  assert (H : getLogger (VObj config) VUndefined empty_registry = (r', Ok (RLogger 0)))
    by reflexivity.
  split; [exact H|].
  split; [exact (proj2 (proj1 X9_getLogger_default_logger config VUndefined
                          empty_registry r' _ H))|].
  split; [reflexivity|].
  exact (proj2 (proj2 X9_getLogger_default_logger) (VObj config) empty_registry eq_refl).
Defined.

(** ** Logging, further *)

Section LoggingFurther.
Variable __filename main_path : string.
Variable path_relative : string -> string -> string.
Variable Error_stack : string.
Variable run_format : fn -> LogEventValues -> result value.
Variable run_send : fn -> value -> result value.

Let getLogValues := _getLogValues __filename main_path path_relative Error_stack.
Let log' := log __filename main_path path_relative Error_stack run_format run_send.

(** The event of an input that passes the assertion of [log], field by
    field. *)
Lemma _getLogValues_fields appName level level' colors errorOrMessageOrOptions context :
  log_assertion level' errorOrMessageOrOptions context = true ->
  exists trail,
    trail_shape trail
    /\ getLogValues appName level colors errorOrMessageOrOptions context
       = Ok {| ev_appName := appName;
               ev_level := level;
               ev_levelName := js_index logLevelNames level;
               ev_color := js_or (js_and colors (GetV_at colors level))
                                 (js_index _defaultColors level);
               ev_name := member errorOrMessageOrOptions "name";
               ev_message :=
                 if String.eqb (typeof errorOrMessageOrOptions) "string"
                 then errorOrMessageOrOptions
                 else member errorOrMessageOrOptions "message";
               ev_stack := member errorOrMessageOrOptions "stack";
               ev_trail := trail;
               ev_context :=
                 js_or (js_or context (member errorOrMessageOrOptions "context"))
                       (VObj []) |}.
Proof.
  unfold log_assertion. intros H.
  apply andb_prop in H as [H _]. apply andb_prop in H as [H _].
  apply andb_prop in H as [H Hinput]. apply andb_prop in H as [_ Htruthy].
  apply orb_prop in Hinput as [Hstring|Hobject].
  - destruct errorOrMessageOrOptions; try done.
    unfold getLogValues, _getLogValues.
    change (String.eqb (typeof (VStr s)) "string") with true. cbv iota.
    destruct (_getTrailFromErrorStack_total __filename main_path path_relative
                Error_stack true) as (t & -> & Hshape & _).
    exists t. split; [done|reflexivity].
  - apply andb_prop in Hobject as [Hobject _]. apply andb_prop in Hobject as [Hobject _].
    apply andb_prop in Hobject as [Hobject Hs]. apply andb_prop in Hobject as [Hobject _].
    apply andb_prop in Hobject as [Hobject _]. apply andb_prop in Hobject as [Hobject _].
    unfold getLogValues, _getLogValues.
    destruct (String.eqb (typeof errorOrMessageOrOptions) "string") eqn:Ht.
    { destruct errorOrMessageOrOptions; done. }
    assert (exists text, js_or (member errorOrMessageOrOptions "stack") (VStr Error_stack)
                         = VStr text) as [text Htext].
    { destruct (member errorOrMessageOrOptions "stack") as [| | | | |text| | | |];
        vm_compute in Hs; try discriminate Hs; [by eexists|].
      unfold js_or. cbn [truthy]. destruct (String.eqb text ""); by eexists. }
    destruct errorOrMessageOrOptions; try done; cbv zeta; rewrite Htext;
      match goal with
      | |- context [_getTrailFromErrorStack ?a ?b ?c ?d ?e] =>
          destruct (_getTrailFromErrorStack_total a b c d e) as (t & -> & Hshape & _)
      end; exists t; (split; [done|reflexivity]).
Qed.

(** A call that fails the assertion. *)
Lemma log_invalid this level errorOrMessageOrOptions context trace :
  log_assertion level errorOrMessageOrOptions context = false ->
  log' this level errorOrMessageOrOptions context trace = (trace, Throw InvalidLogCall).
Proof.
  intros H. unfold log', log, bind, try_catch, ret, throw. by rewrite H.
Qed.

Lemma log_assertion_resolves level errorOrMessageOrOptions context :
  log_assertion level errorOrMessageOrOptions context = true ->
  exists safeLevel, _getLevel level = Ok safeLevel.
Proof.
  unfold log_assertion, _getLevel. intros H.
  apply andb_prop in H as [H _]. apply andb_prop in H as [H _].
  apply andb_prop in H as [H _]. apply andb_prop in H as [H _].
  destruct (js_in level logLevelNames); [eauto|].
  destruct (js_in level logLevels); [eauto|done].
Qed.


(** X11: whatever its arguments, [log] calls the formatter at most once and
    [send] at most once, and [send] only after the formatter has returned,
    with what the formatter returned.  The calls it adds to the trace are
    none, or the formatter alone (and [log] fails), or the formatter and then
    [send] (and [log] ends as [send] does). *)
Theorem X11_log_calls_in_order :
  forall this level errorOrMessageOrOptions context trace trace' outcome,
    log' this level errorOrMessageOrOptions context trace = (trace', outcome) ->
    (trace' = trace /\ (outcome = Ok VUndefined \/ exists e, outcome = Throw e))
    \/ (exists format logValues e,
          trace' = (trace ++ [Formatted format logValues])%list /\ outcome = Throw e)
    \/ (exists format logValues send body,
          trace' = (trace ++ [Formatted format logValues; Sent send body])%list
          /\ run_format format logValues = Ok body
          /\ outcome = run_send send body).
Proof.
  intros this level eo context trace trace' outcome.
  destruct (log_assertion level eo context) eqn:Hvalid.
  - destruct (log_assertion_resolves _ _ _ Hvalid) as [safeLevel Hlevel].
    unfold log'. rewrite (log_unfold _ _ _ _ _ _ _ _ _ _ _ _ Hvalid Hlevel).
    destruct (js_lt safeLevel (_minLevel this)) as [[]|e].
    + intros [= <- <-]. left. split; [done|by left].
    + destruct (_getLogValues _ _ _ _ _ _ _ _ _) as [logValues|e].
      * destruct (_format this) as [| | | | | | |format| |];
          try (intros [= <- <-]; left; split; [done|right; by eexists]).
        destruct (run_format format logValues) as [body|e] eqn:Hbody.
        -- unfold call_send.
           destruct (_send this) as [| | | | | | |send| |];
             try (unfold throw; intros [= <- <-]; right; left; by do 3 eexists).
           unfold bind, modify, lift. rewrite <- app_assoc.
           intros [= <- <-]. right. right. by exists format, logValues, send, body.
        -- intros [= <- <-]. right. left. by do 3 eexists.
      * intros [= <- <-]. left. split; [done|right; by eexists].
    + intros [= <- <-]. left. split; [done|right; by eexists].
  - fold log'. rewrite (log_invalid _ _ _ _ _ Hvalid).
    intros [= <- <-]. left. split; [done|right; by eexists].
Qed.

(** X12: [log] checks its arguments before it looks at the minimum level: an
    empty message, a [null] context, an object whose [message] is not a
    string, and a level that names no member of the level tables are each
    refused with the invalid-arguments error, on every Logger, also when the
    level is below the minimum, and nothing is called. *)
Theorem X12_log_rejects_before_filtering :
  (forall this level context trace,
     log' this level (VStr "") context trace = (trace, Throw InvalidLogCall))
  /\ (forall this level errorOrMessageOrOptions trace,
        log' this level errorOrMessageOrOptions VNull trace
        = (trace, Throw InvalidLogCall))
  /\ (forall this level members context trace,
        String.eqb (typeof (member (VObj members) "message")) "string" = false ->
        log' this level (VObj members) context trace = (trace, Throw InvalidLogCall))
  /\ (forall this (name : string) errorOrMessageOrOptions context trace,
        level_key name = false ->
        log' this (VStr name) errorOrMessageOrOptions context trace
        = (trace, Throw InvalidLogCall)).
Proof.
  repeat split; intros.
  - apply log_invalid. unfold log_assertion. cbn [truthy String.eqb negb].
    by rewrite andb_false_r.
  - apply log_invalid. unfold log_assertion. cbn [is_null negb].
    by rewrite andb_false_r.
  - apply log_invalid. unfold log_assertion.
    change (String.eqb (typeof (VObj members)) "string") with false.
    rewrite H. cbn [andb orb]. by rewrite andb_false_r.
  - apply log_invalid. unfold log_assertion.
    assert (js_in (VStr name) logLevels || js_in (VStr name) logLevelNames = false) as ->;
      [|done].
    unfold level_key in H. unfold js_in, has_member. cbn [ToPropertyKey].
    destruct (own_get logLevelNames name); [done|].
    destruct (own_get logLevels name); [done|]. by rewrite H.
Qed.


(** X14: the level fields of an event agree.  For a rank [r] and an input
    that passes the assertion, the event carries the application name it
    was given and the level [r]; its level name is the name that resolves to
    [r]; and its color is never missing: it is the entry of the Logger's
    colors for [r] when that is truthy, and the default color of [r]
    otherwise, in particular when the Logger has no colors. *)
Theorem X14_event_level_fields :
  forall appName colors errorOrMessageOrOptions context level (r : Z),
    DEBUG <= r <= CRITICAL ->
    log_assertion level errorOrMessageOrOptions context = true ->
    exists logValues,
      getLogValues appName (VNum r) colors errorOrMessageOrOptions context = Ok logValues
      /\ ev_appName logValues = appName
      /\ ev_level logValues = VNum r
      /\ (exists name, ev_levelName logValues = VStr name
                       /\ _getLevel (VStr name) = Ok (VNum r))
      /\ truthy (ev_color logValues) = true
      /\ (truthy (GetV_at colors (VNum r)) = true ->
          ev_color logValues = GetV_at colors (VNum r))
      /\ (truthy (GetV_at colors (VNum r)) = false ->
          ev_color logValues = js_index _defaultColors (VNum r)).
Proof.
  intros appName colors eo context level r Hr Hvalid.
  destruct (_getLogValues_fields appName (VNum r) level colors eo context Hvalid)
    as (trail & _ & Hev).
  eexists. split; [exact Hev|]. cbn [ev_appName ev_level ev_levelName ev_color].
  unfold DEBUG, CRITICAL in Hr.
  assert (Hdefault : truthy (js_index _defaultColors (VNum r)) = true
                     /\ exists name, js_index logLevelNames (VNum r) = VStr name
                                     /\ _getLevel (VStr name) = Ok (VNum r)).
  { assert (r = 1 \/ r = 2 \/ r = 3 \/ r = 4 \/ r = 5) as [->|[->|[->|[->| ->]]]] by lia;
      (split; [reflexivity|eexists; split; reflexivity]). }
  destruct Hdefault as [Hdefault Hname].
  split; [done|]. split; [done|]. split; [exact Hname|].
  destruct (truthy colors) eqn:Hc.
  - unfold js_and. rewrite Hc. unfold js_or.
    destruct (truthy (GetV_at colors (VNum r))) eqn:Hcolor; by repeat split.
  - assert (Hcolor : truthy (GetV_at colors (VNum r)) = false).
    { unfold GetV_at. cbn [ToPropertyKey]. by destruct colors. }
    unfold js_and. rewrite Hc. unfold js_or. rewrite Hc, Hcolor. by repeat split.
Qed.

(** X15: the message of an event.  For every input that passes the
    assertion, the message of the event is a non-empty string, and its name
    and its stack are strings or [undefined]; for a plain string the message
    is that string, the name and the stack are [undefined], and the context
    is the empty object when no context is given. *)
Theorem X15_event_message :
  (forall appName level safeLevel colors errorOrMessageOrOptions context,
     log_assertion level errorOrMessageOrOptions context = true ->
     exists logValues,
       getLogValues appName safeLevel colors errorOrMessageOrOptions context = Ok logValues
       /\ (exists message, ev_message logValues = VStr message /\ message <> "")
       /\ typeof_in ["undefined"; "string"] (ev_name logValues) = true
       /\ typeof_in ["undefined"; "string"] (ev_stack logValues) = true)
  /\ (forall appName level safeLevel colors (message : string) context,
        log_assertion level (VStr message) context = true ->
        exists logValues,
          getLogValues appName safeLevel colors (VStr message) context = Ok logValues
          /\ ev_message logValues = VStr message
          /\ ev_name logValues = VUndefined
          /\ ev_stack logValues = VUndefined
          /\ (context = VUndefined -> ev_context logValues = VObj [])).
Proof.
  split.
  - intros appName level safeLevel colors eo context Hvalid.
    destruct (_getLogValues_fields appName safeLevel level colors eo context Hvalid)
      as (trail & _ & Hev).
    eexists. split; [exact Hev|]. cbn [ev_message ev_name ev_stack].
    unfold log_assertion in Hvalid.
    apply andb_prop in Hvalid as [Hvalid _]. apply andb_prop in Hvalid as [Hvalid _].
    apply andb_prop in Hvalid as [Hvalid Hinput]. apply andb_prop in Hvalid as [_ Htruthy].
    apply orb_prop in Hinput as [Hstring|Hobject].
    + destruct eo as [| | | | |message| | | |]; try done.
      change (String.eqb (typeof (VStr message)) "string") with true. cbv iota.
      split; [|by split].
      exists message. split; [done|]. intros ->. done.
    + apply andb_prop in Hobject as [Hobject _]. apply andb_prop in Hobject as [Hobject _].
      apply andb_prop in Hobject as [Hobject Hstack].
      apply andb_prop in Hobject as [Hobject Hname].
      apply andb_prop in Hobject as [Hobject Hmtruthy].
      apply andb_prop in Hobject as [Hobject Hmstring].
      assert (String.eqb (typeof eo) "string" = false) as -> by by destruct eo.
      split; [|by split].
      destruct (member eo "message") as [| | | | |message| | | |]; try done.
      exists message. split; [done|]. intros ->. done.
  - intros appName level safeLevel colors message context Hvalid.
    destruct (_getLogValues_fields appName safeLevel level colors (VStr message) context
                Hvalid) as (trail & _ & Hev).
    eexists. split; [exact Hev|]. cbn [ev_message ev_name ev_stack ev_context].
    repeat split. by intros ->.
Qed.

End LoggingFurther.

(** ** Instances, further *)


Lemma X11_log_calls_in_order_witness :
  exists trace' outcome,
    log module_file "/" relative_to_root captured_stack constant_format resolving_send
        sample_logger (VStr "CRITICAL") (VStr "disk full") VUndefined [] = (trace', outcome)
    /\ exists format logValues send body,
         trace' = [Formatted format logValues; Sent send body]
         /\ constant_format format logValues = Ok body
         /\ outcome = resolving_send send body.
Proof.
  destruct (log module_file "/" relative_to_root captured_stack constant_format
              resolving_send sample_logger (VStr "CRITICAL") (VStr "disk full")
              VUndefined []) as [trace' outcome] eqn:H.
  exists trace', outcome. split; [reflexivity|].
  destruct (X11_log_calls_in_order _ _ _ _ _ _ _ _ _ _ _ _ _ H)
    as [[Hsame _]|[(format & logValues & e & Htrace & Hout)|Hboth]].
  - exfalso. subst trace'. vm_compute in H. discriminate H.
  - exfalso. subst. vm_compute in H. discriminate H.
  - exact Hboth.
Defined.

Lemma X12_log_rejects_before_filtering_witness :
  (String.eqb (typeof (member (VObj [("text", VStr "hello")]) "message")) "string" = false
   /\ debug module_file "/" relative_to_root captured_stack constant_format resolving_send
            sample_logger (VObj [("text", VStr "hello")]) VUndefined []
      = ([], Throw InvalidLogCall))
  /\ (level_key "VERBOSE" = false
      /\ log module_file "/" relative_to_root captured_stack constant_format resolving_send
             sample_logger (VStr "VERBOSE") (VStr "hello") VUndefined []
         = ([], Throw InvalidLogCall)).
Proof.
  split; (split; [reflexivity|]).
  - apply (proj1 (proj2 (proj2 (X12_log_rejects_before_filtering module_file "/"
                                  relative_to_root captured_stack constant_format
                                  resolving_send)))).
    reflexivity.
  - apply (proj2 (proj2 (proj2 (X12_log_rejects_before_filtering module_file "/"
                                  relative_to_root captured_stack constant_format
                                  resolving_send)))).
    reflexivity.
Defined.


Lemma X14_event_level_fields_witness :
  let colors := VObj [("4", VStr "#c00")] in
  DEBUG <= ERROR <= CRITICAL
  /\ log_assertion (VStr "ERROR") (VStr "disk full") VUndefined = true
  /\ truthy (GetV_at colors (VNum ERROR)) = true
  /\ exists logValues,
       _getLogValues module_file "/" relative_to_root captured_stack
         (VStr "App") (VNum ERROR) colors (VStr "disk full") VUndefined = Ok logValues
       /\ (exists name, ev_levelName logValues = VStr name
                        /\ _getLevel (VStr name) = Ok (VNum ERROR))
       /\ ev_color logValues = VStr "#c00".
Proof.
  intros colors.
  assert (Hr : DEBUG <= ERROR <= CRITICAL) by (unfold DEBUG, ERROR, CRITICAL; lia).
  split; [exact Hr|]. split; [reflexivity|]. split; [reflexivity|].
  destruct (X14_event_level_fields module_file "/" relative_to_root captured_stack
              (VStr "App") colors (VStr "disk full") VUndefined (VStr "ERROR") ERROR
              Hr eq_refl)
    as (logValues & Hev & _ & _ & Hname & _ & Hcolor & _).
  exists logValues. split; [exact Hev|]. split; [exact Hname|].
  rewrite (Hcolor eq_refl). reflexivity.
Defined.

Lemma X15_event_message_witness :
  log_assertion (VStr "INFO") (VObj [("name", VStr "TypeError"); ("message", VStr "x is null")])
                VUndefined = true
  /\ exists logValues,
       _getLogValues module_file "/" relative_to_root captured_stack
         (VStr "App") (VNum INFO) VUndefined
         (VObj [("name", VStr "TypeError"); ("message", VStr "x is null")]) VUndefined
       = Ok logValues
       /\ (exists message, ev_message logValues = VStr message /\ message <> "")
       /\ typeof_in ["undefined"; "string"] (ev_name logValues) = true
       /\ typeof_in ["undefined"; "string"] (ev_stack logValues) = true.
Proof.
  split; [reflexivity|].
  apply (proj1 (X15_event_message module_file "/" relative_to_root captured_stack)
           (VStr "App") (VStr "INFO") (VNum INFO) VUndefined
           (VObj [("name", VStr "TypeError"); ("message", VStr "x is null")]) VUndefined).
  reflexivity.
Defined.

(** ** The trail, further *)

Lemma _errorTrailRE_texts : groups_ok frame_texts _errorTrailRE.
Proof. simpl. intuition. Qed.

(** X16: the file of a trail.  The trail that [_getTrailFromErrorStack]
    returns is empty, or names a file, taken relative to the directory of
    the main module, whose path in the stack is not empty and holds no white
    space and no closing parenthesis; and when the flag is set, that path is
    never the path of the logging module itself. *)
Theorem X16_trail_file_is_not_the_module :
  forall (__filename main_path : string) (path_relative : string -> string -> string)
         (stack : string) (excludeCurrentModule : bool),
  exists trail,
    _getTrailFromErrorStack __filename main_path path_relative stack excludeCurrentModule
      = Ok trail
    /\ (trail = VObj [] \/
        exists scope file line column,
          trail = VObj [ ("scope", scope); ("file", VStr (path_relative main_path file));
                         ("line", line); ("column", column) ]
          /\ file <> ""
          /\ all_in (NoneOf [Space; Lit ")"]) file = true
          /\ (excludeCurrentModule = true -> file <> __filename)).
Proof.
  intros.
  funelim (_getTrailFromErrorStack __filename main_path path_relative
             stack excludeCurrentModule).
  - clear Heqcall.
    destruct (exec_sound frame_texts _ _ _ _errorTrailRE_texts Hexec) as [Hok Hsure].
    destruct (Hsure 2%nat) as [file Hfile]; [by apply list_elem_of_In; simpl; auto|].
    destruct (Hok 2%nat file Hfile) as [Hne Hclass].
    rewrite Hfile.
    destruct (excludeCurrentModule && String.eqb file __filename) eqn:Hskip; [done|].
    eexists. split; [done|]. right. do 4 eexists. split; [done|].
    split; [done|]. split; [done|].
    intros ->. cbn [andb] in Hskip. intros ->. by rewrite String.eqb_refl in Hskip.
  - exists (VObj []). split; [done|by left].
Qed.

Lemma X16_trail_file_is_not_the_module_witness :
  exists trail,
    _getTrailFromErrorStack module_file "/" relative_to_root captured_stack true = Ok trail
    /\ (trail = VObj [] \/
        exists scope file line column,
          trail = VObj [ ("scope", scope); ("file", VStr (relative_to_root "/" file));
                         ("line", line); ("column", column) ]
          /\ file <> ""
          /\ all_in (NoneOf [Space; Lit ")"]) file = true
          /\ (true = true -> file <> module_file)).
Proof.
  exact (X16_trail_file_is_not_the_module module_file "/" relative_to_root
           captured_stack true).
Defined.

(** ** The Slack formatter *)

Lemma rbind_Ok {A B} (r : result A) (k : A -> result B) (b : B) :
  rbind r k = Ok b -> exists a, r = Ok a /\ k a = Ok b.
Proof. destruct r as [a|e]; [by exists a|done]. Qed.

Lemma mapM_total {A B} (f : A -> result B) (l : list A) :
  (forall a, In a l -> exists b, f a = Ok b) ->
  exists bs, mapM f l = Ok bs /\ List.length bs = List.length l.
Proof.
  induction l as [|a l IH]; intros H; [by exists []|].
  destruct (H a) as [b Hb]; [by left|].
  destruct IH as (bs & Hbs & Hlen); [by intros x Hx; apply H; right|].
  exists (b :: bs). cbn [mapM rbind]. rewrite Hb. cbn [rbind]. rewrite Hbs.
  split; [done|]. cbn [List.length]. by rewrite Hlen.
Qed.

Lemma mapM_Ok {A B} (f : A -> result B) (l : list A) (bs : list B) :
  mapM f l = Ok bs -> forall a, In a l -> exists b, f a = Ok b.
Proof.
  revert bs. induction l as [|x l IH]; intros bs H a Ha; [done|].
  cbn [mapM] in H. apply rbind_Ok in H as (b & Hb & H).
  apply rbind_Ok in H as (bs' & Hbs & _).
  destruct Ha as [<-|Ha]; [by exists b|by apply (IH bs')].
Qed.

(** The members [Object.entries] lists are the own members, each once. *)
Lemma own_members_own seen members k v :
  In (k, v) (own_members seen members) <->
  existsb (String.eqb k) seen = false /\ own_get members k = Some v.
Proof.
  revert seen. induction members as [|[k' v'] rest IH]; intros seen.
  { cbn. split; [done|by intros [_ ?]]. }
  cbn [own_members own_get].
  destruct (existsb (String.eqb k') seen) eqn:Hseen.
  - rewrite IH. split; intros [Hk Hown]; (split; [done|]).
    + destruct (String.eqb_spec k' k) as [->|_]; [congruence|done].
    + destruct (String.eqb_spec k' k) as [->|_]; [congruence|done].
  - cbn [In]. rewrite IH. cbn [existsb].
    destruct (String.eqb_spec k' k) as [->|Hne].
    + rewrite String.eqb_refl. cbn [orb]. split.
      * intros [[= ->]|[? _]]; [done|done].
      * intros [Hk [= ->]]. by left.
    + assert (String.eqb k k' = false) as -> by (apply String.eqb_neq; congruence).
      cbn [orb]. split.
      * intros [[= ? ?]|?]; [congruence|done].
      * intros ?. by right.
Qed.

Lemma insert_by_index_In n e l x :
  In x (insert_by_index n e l) <-> x = (n, e) \/ In x l.
Proof.
  induction l as [|[n' e'] l IH]; cbn [insert_by_index In].
  - split; [intros [<-|[]]; by left|intros [->|[]]; by left].
  - destruct (n <? n'); cbn [In]; [|rewrite IH]; intuition congruence.
Qed.

Lemma by_index_In members indexed named e :
  by_index members = (indexed, named) ->
  In e ((snd <$> indexed) ++ named)%list <-> In e members.
Proof.
  revert indexed named. induction members as [|[k v] rest IH]; intros indexed named.
  { intros [= <- <-]. done. }
  cbn [by_index]. destruct (by_index rest) as [indexed' named'].
  specialize (IH indexed' named' eq_refl).
  rewrite in_app_iff in IH.
  destruct (array_index k) as [n|]; intros [= <- <-]; rewrite in_app_iff; cbn [In].
  - rewrite <- IH. rewrite !in_map_iff. split.
    + intros [([n' e'] & <- & Hin)|Hin]; [|by right; right].
      apply insert_by_index_In in Hin as [[= -> ->]|Hin]; [by left|].
      right. left. by exists (n', e').
    + intros [<-|[([n' e'] & <- & Hin)|Hin]]; [| |by right].
      * left. exists (n, (k, v)). split; [done|]. apply insert_by_index_In. by left.
      * left. exists (n', e'). split; [done|]. apply insert_by_index_In. by right.
  - rewrite <- IH. tauto.
Qed.

Lemma Object_entries_own members :
  exists entries,
    Object_entries (VObj members) = Ok entries
    /\ forall k v, In (k, v) entries <-> own_get members k = Some v.
Proof.
  unfold Object_entries.
  destruct (by_index (own_members [] members)) as [indexed named] eqn:Hsplit.
  eexists. split; [done|]. intros k v.
  rewrite (by_index_In _ _ _ _ Hsplit), own_members_own. cbn [existsb]. tauto.
Qed.

Lemma own_get_In members k v : own_get members k = Some v -> In (k, v) members.
Proof.
  induction members as [|[k' v'] rest IH]; cbn [own_get]; [done|].
  destruct (String.eqb_spec k' k) as [->|_]; [intros [= ->]; by left|].
  intros H. right. by apply IH.
Qed.

Lemma string_entries_printable s : forall i k v,
  In (k, v) (string_entries i s) -> printable v = true.
Proof.
  induction s as [|c s IH]; intros i k v; cbn [string_entries In]; [done|].
  intros [[= _ <-]|H]; [done|by eapply IH].
Qed.

(** The members of a value that is not [undefined] or [null] are listed,
    and are printable when its members are. *)
Lemma Object_entries_printable context :
  context <> VUndefined -> context <> VNull ->
  printable_members context = true ->
  exists entries,
    Object_entries context = Ok entries
    /\ forall k v, In (k, v) entries -> printable v = true.
Proof.
  intros Hu Hn Hp. destruct context as [| |b|n| |s|k|f|members|]; try done;
    try (exists []; split; [reflexivity|by intros ? ? []]).
  - eexists. split; [reflexivity|]. apply string_entries_printable.
  - destruct (Object_entries_own members) as (entries & -> & Hown).
    exists entries. split; [done|]. intros k v Hin.
    apply Hown, own_get_In in Hin. cbn [printable_members] in Hp.
    rewrite forallb_forall in Hp. exact (Hp _ Hin).
Qed.

Section FormatterProperties.
Variable Date_now : Z.
Variable Function_toString : fn -> string.
Variable own_toString : list (string * value) -> result string.

Let ToString := formats.ToString Function_toString own_toString.
Let slackFormatter := formats._slackFormatter Date_now Function_toString own_toString.

Lemma ToString_printable v : printable v = true -> exists s, ToString v = Ok s.
Proof.
  unfold ToString, formats.ToString.
  destruct v as [| |[]|n| |s|k|f|members|]; cbn [printable]; intros H;
    try discriminate H; try (eexists; reflexivity).
  destruct (own_get members "toString"); [done|by eexists].
Qed.

Lemma ToString_Ok v s : ToString v = Ok s -> typeof v <> "symbol".
Proof. unfold ToString, formats.ToString. by destruct v. Qed.

(** What the formatter has gone through when it returns. *)
Lemma _slackFormatter_inv logValues body :
  slackFormatter logValues = Ok body ->
  exists levelName appName text stackBlocks trailElements entries fields,
    ToString (ev_levelName logValues) = Ok levelName
    /\ ToString (ev_appName logValues) = Ok appName
    /\ (if truthy (ev_name logValues)
        then exists name message,
               ToString (ev_name logValues) = Ok name
               /\ ToString (ev_message logValues) = Ok message
               /\ text = VStr (name ++ ": " ++ message)
        else text = ev_message logValues)
    /\ (if truthy (ev_stack logValues)
        then exists stack,
               ToString (ev_stack logValues) = Ok stack
               /\ stackBlocks = [ formats.section (VStr ("```" ++ stack ++ "```")) ]
        else stackBlocks = [])
    /\ (exists keys, Object_keys (ev_trail logValues) = Ok keys
                     /\ (keys = [] -> trailElements = []))
    /\ (List.length trailElements <= 1)%nat
    /\ Object_entries (ev_context logValues) = Ok entries
    /\ mapM (fun '(key, value) =>
               rbind (ToString value)
                     (fun value' => Ok (formats.plain_text (key ++ ": " ++ value'))))
            entries = Ok fields
    /\ body = slack_body (ev_color logValues)
                ([ formats.header ("[" ++ levelName ++ "] " ++ appName);
                   formats.section text ]
                 ++ stackBlocks
                 ++ [ context_block
                        (formats.mrkdwn (VStr (formats.date_text (Date_now / 1000)))
                         :: trailElements ++ fields) ])%list.
Proof.
  unfold slackFormatter, formats._slackFormatter. cbv zeta. intros H.
  apply rbind_Ok in H as (levelName & HlevelName & H).
  apply rbind_Ok in H as (appName & HappName & H).
  apply rbind_Ok in H as (text & Htext & H).
  apply rbind_Ok in H as (blocks & Hblocks & H).
  apply rbind_Ok in H as (keys & Hkeys & H).
  apply rbind_Ok in H as (elements & Helements & H).
  apply rbind_Ok in H as (entries & Hentries & H).
  apply rbind_Ok in H as (fields & Hfields & H).
  injection H as <-.
  assert (Hstack : exists stackBlocks,
             blocks = ([ formats.header ("[" ++ levelName ++ "] " ++ appName);
                         formats.section text ] ++ stackBlocks)%list
             /\ (if truthy (ev_stack logValues)
                 then exists stack,
                        ToString (ev_stack logValues) = Ok stack
                        /\ stackBlocks = [ formats.section (VStr ("```" ++ stack ++ "```")) ]
                 else stackBlocks = [])).
  { destruct (truthy (ev_stack logValues)).
    - apply rbind_Ok in Hblocks as (stack & Hstack & [= <-]). eauto.
    - injection Hblocks as <-. by exists []. }
  destruct Hstack as (stackBlocks & -> & Hstack).
  assert (Htrail : exists trailElements,
             elements = (formats.mrkdwn (VStr (formats.date_text (Date_now / 1000)))
                         :: trailElements)
             /\ (keys = [] -> trailElements = [])
             /\ (List.length trailElements <= 1)%nat).
  { destruct keys as [|key keys].
    - injection Helements as <-. exists []. split; [done|]. split; [done|]. cbn. lia.
    - cbn [List.length] in Helements.
      destruct (0 <? Z.of_nat (S (List.length keys))) eqn:Hlen;
        [|apply Z.ltb_ge in Hlen; lia].
      apply rbind_Ok in Helements as (file & _ & Helements).
      apply rbind_Ok in Helements as (scope & _ & Helements).
      apply rbind_Ok in Helements as (line & _ & Helements).
      apply rbind_Ok in Helements as (column & _ & [= <-]).
      eexists. split; [reflexivity|]. split; [done|]. cbn. lia. }
  destruct Htrail as (trailElements & -> & Hempty & Hlen).
  exists levelName, appName, text, stackBlocks, trailElements, entries, fields.
  split; [done|]. split; [done|]. split.
  { destruct (truthy (ev_name logValues)).
    - apply rbind_Ok in Htext as (name & Hname & Htext).
      apply rbind_Ok in Htext as (message & Hmessage & [= <-]). eauto.
    - by injection Htext as <-. }
  split; [done|]. split; [by exists keys|]. split; [done|]. split; [done|].
  split; [done|].
  unfold slack_body, context_block. by rewrite <- !app_assoc.
Qed.

(** An event with printable fields, a trail and a context is formatted. *)
Lemma _slackFormatter_accepts logValues :
  printable (ev_levelName logValues) = true ->
  printable (ev_appName logValues) = true ->
  printable (ev_name logValues) = true ->
  printable (ev_message logValues) = true ->
  printable (ev_stack logValues) = true ->
  trail_shape (ev_trail logValues) ->
  ev_context logValues <> VUndefined ->
  ev_context logValues <> VNull ->
  printable_members (ev_context logValues) = true ->
  exists body, slackFormatter logValues = Ok body.
Proof.
  intros Hl Ha Hn Hm Hs Ht Hcu Hcn Hc.
  destruct (ToString_printable _ Hl) as [l El].
  destruct (ToString_printable _ Ha) as [a Ea].
  destruct (ToString_printable _ Hn) as [n En].
  destruct (ToString_printable _ Hm) as [m Em].
  destruct (ToString_printable _ Hs) as [s Es].
  destruct (Object_entries_printable _ Hcu Hcn Hc) as (entries & Ee & Hp).
  destruct (mapM_total
              (fun '(key, value) =>
                 rbind (ToString value)
                       (fun value' => Ok (formats.plain_text (key ++ ": " ++ value'))))
              entries) as (fields & Ef & _).
  { intros [k v] Hin. destruct (ToString_printable v (Hp _ _ Hin)) as [s' ->].
    by eexists. }
  unfold ToString in *.
  unfold slackFormatter, formats._slackFormatter. cbv zeta.
  rewrite El, Ea. cbn [rbind].
  assert (Htext : exists text,
             (if truthy (ev_name logValues)
              then rbind (formats.ToString Function_toString own_toString
                            (ev_name logValues))
                     (fun name' =>
                        rbind (formats.ToString Function_toString own_toString
                                 (ev_message logValues))
                          (fun message' => Ok (VStr (name' ++ ": " ++ message'))))
              else Ok (ev_message logValues)) = Ok text).
  { rewrite En, Em. cbn [rbind]. destruct (truthy (ev_name logValues)); by eexists. }
  destruct Htext as [text ->]. cbn [rbind].
  rewrite Es. cbn [rbind].
  destruct Ht as [->|(scope & file & line & column & -> & Hscope & _)].
  - replace (Object_keys (VObj [])) with (Ok (@nil string)) by reflexivity.
    cbn [rbind List.length Z.of_nat Z.ltb Z.compare].
    destruct (truthy (ev_stack logValues)); cbn [rbind]; rewrite Ee; cbn [rbind];
      rewrite Ef; by eexists.
  - replace (Object_keys (VObj [ ("scope", scope); ("file", VStr file);
                                 ("line", VNum line); ("column", VNum column) ]))
      with (Ok [ "scope"; "file"; "line"; "column" ]) by reflexivity.
    replace (member (VObj [ ("scope", scope); ("file", VStr file);
                            ("line", VNum line); ("column", VNum column) ]) "scope")
      with scope by reflexivity.
    replace (member (VObj [ ("scope", scope); ("file", VStr file);
                            ("line", VNum line); ("column", VNum column) ]) "file")
      with (VStr file) by reflexivity.
    replace (member (VObj [ ("scope", scope); ("file", VStr file);
                            ("line", VNum line); ("column", VNum column) ]) "line")
      with (VNum line) by reflexivity.
    replace (member (VObj [ ("scope", scope); ("file", VStr file);
                            ("line", VNum line); ("column", VNum column) ]) "column")
      with (VNum column) by reflexivity.
    cbn [rbind formats.ToString].
    destruct Hscope as [->|[t ->]]; cbn [truthy rbind formats.ToString];
      destruct (truthy (ev_stack logValues)); try destruct (negb _);
      cbn [rbind]; rewrite Ee; cbn [rbind]; rewrite Ef; by eexists.
Qed.

Variable __filename main_path : string.
Variable path_relative : string -> string -> string.
Variable Error_stack : string.

Let getLogValues := _getLogValues __filename main_path path_relative Error_stack.

(** The name of a level, whatever the level, is printable. *)
Lemma js_index_logLevelNames_printable level :
  printable (js_index logLevelNames level) = true.
Proof.
  unfold js_index. destruct (ToPropertyKey level) as [[s|k]|]; [|done..].
  unfold get_member, logLevelNames. cbn [own_get].
  repeat match goal with
         | |- context [String.eqb ?a s] => destruct (String.eqb a s); [done|]
         end.
  unfold Object_prototype_get.
  destruct (String.eqb s "__proto__"); [done|].
  by destruct (in_Object_prototype (KString s)).
Qed.

(** The texts of an input that passes the assertion of [log]. *)
Lemma log_assertion_texts level errorOrMessageOrOptions context :
  log_assertion level errorOrMessageOrOptions context = true ->
  (exists message,
     (if String.eqb (typeof errorOrMessageOrOptions) "string"
      then errorOrMessageOrOptions
      else member errorOrMessageOrOptions "message") = VStr message)
  /\ typeof_in ["undefined"; "string"] (member errorOrMessageOrOptions "name") = true
  /\ typeof_in ["undefined"; "string"] (member errorOrMessageOrOptions "stack") = true.
Proof.
  intros Hvalid. unfold log_assertion in Hvalid.
  apply andb_prop in Hvalid as [Hvalid _]. apply andb_prop in Hvalid as [Hvalid _].
  apply andb_prop in Hvalid as [Hvalid Hinput]. apply andb_prop in Hvalid as [_ Htruthy].
  apply orb_prop in Hinput as [Hstring|Hobject].
  - destruct errorOrMessageOrOptions as [| | | | |message| | | |]; try done.
    change (String.eqb (typeof (VStr message)) "string") with true. cbv iota.
    split; [by exists message|by split].
  - apply andb_prop in Hobject as [Hobject _]. apply andb_prop in Hobject as [Hobject _].
    apply andb_prop in Hobject as [Hobject Hstack].
    apply andb_prop in Hobject as [Hobject Hname].
    apply andb_prop in Hobject as [Hobject Hmtruthy].
    apply andb_prop in Hobject as [Hobject Hmstring].
    assert (String.eqb (typeof errorOrMessageOrOptions) "string" = false) as ->
      by by destruct errorOrMessageOrOptions.
    split; [|by split].
    destruct (member errorOrMessageOrOptions "message") as [| | | | |message| | | |];
      try done.
    by exists message.
Qed.

Lemma typeof_in_printable v :
  typeof_in ["undefined"; "string"] v = true -> printable v = true.
Proof. by destruct v. Qed.

(** X17: the Slack formatter accepts the events of [log].  An event that
    [_getLogValues] builds from arguments that pass the assertion of [log],
    for a printable application name, is formatted without an error as soon
    as the members of its context are printable; the payload is one
    attachment with the color of the event and three blocks, or four when
    the event has a stack. *)
Theorem X17_slackFormatter_accepts_log_events :
  forall appName level safeLevel colors errorOrMessageOrOptions context,
    log_assertion level errorOrMessageOrOptions context = true ->
    printable appName = true ->
    exists logValues,
      getLogValues appName safeLevel colors errorOrMessageOrOptions context = Ok logValues
      /\ (printable_members (ev_context logValues) = true ->
          exists blocks,
            slackFormatter logValues = Ok (slack_body (ev_color logValues) blocks)
            /\ List.length blocks
               = if truthy (ev_stack logValues) then 4%nat else 3%nat).
Proof.
  intros appName level safeLevel colors eo context Hvalid HappName.
  destruct (_getLogValues_fields __filename main_path path_relative Error_stack
              appName safeLevel level colors eo context Hvalid) as (trail & Hshape & Hev).
  destruct (log_assertion_texts _ _ _ Hvalid) as ([message Hmessage] & Hname & Hstack).
  eexists. split; [exact Hev|]. intros Hcontext.
  match type of Hev with _ = Ok ?ev => set (logValues := ev) in * end.
  destruct (_slackFormatter_accepts logValues) as [body Hbody].
  - apply js_index_logLevelNames_printable.
  - exact HappName.
  - by apply typeof_in_printable.
  - cbn [logValues ev_message]. by rewrite Hmessage.
  - by apply typeof_in_printable.
  - exact Hshape.
  - cbn [logValues ev_context]. unfold js_or.
    destruct (truthy (if truthy context then context else member eo "context")) eqn:Ht;
      [|done].
    intros E. by rewrite E in Ht.
  - cbn [logValues ev_context]. unfold js_or.
    destruct (truthy (if truthy context then context else member eo "context")) eqn:Ht;
      [|done].
    intros E. by rewrite E in Ht.
  - exact Hcontext.
  - destruct (_slackFormatter_inv _ _ Hbody)
      as (l & a & text & stackBlocks & trailElements & entries & fields
          & _ & _ & _ & Hblocks & _ & _ & _ & _ & ->).
    eexists. split; [exact Hbody|].
    rewrite !length_app. cbn [List.length].
    destruct (truthy (ev_stack logValues)).
    + destruct Hblocks as (stack & _ & ->). done.
    + by rewrite Hblocks.
Qed.

(** X18: what the Slack formatter needs.  When it returns a payload, the
    trail and the context of the event were neither [undefined] nor [null],
    its level name, application name, name and stack were no symbols, and no
    member of its context was a symbol: on every other event it throws. *)
Theorem X18_slackFormatter_requirements :
  forall (logValues : LogEventValues) (body : payload),
    slackFormatter logValues = Ok body ->
    (forall v, In v [ ev_trail logValues; ev_context logValues ] ->
               v <> VUndefined /\ v <> VNull)
    /\ (forall v, In v [ ev_levelName logValues; ev_appName logValues;
                         ev_name logValues; ev_stack logValues ] ->
                  typeof v <> "symbol")
    /\ (forall members key v,
          ev_context logValues = VObj members ->
          own_get members key = Some v ->
          typeof v <> "symbol").
Proof.
  intros logValues body Hbody.
  destruct (_slackFormatter_inv _ _ Hbody)
    as (l & a & text & stackBlocks & trailElements & entries & fields
        & Hl & Ha & Hname & Hstack & (keys & Hkeys & _) & _ & Hentries & Hfields & _).
  split; [|split].
  - intros v [<-|[<-|[]]].
    + unfold Object_keys in Hkeys. by destruct (ev_trail logValues).
    + by destruct (ev_context logValues).
  - intros v [<-|[<-|[<-|[<-|[]]]]].
    + by eapply ToString_Ok.
    + by eapply ToString_Ok.
    + destruct (truthy (ev_name logValues)) eqn:Ht.
      * destruct Hname as (name & message & Hn & _). by eapply ToString_Ok.
      * by destruct (ev_name logValues).
    + destruct (truthy (ev_stack logValues)) eqn:Ht.
      * destruct Hstack as (stack & Hs & _). by eapply ToString_Ok.
      * by destruct (ev_stack logValues).
  - intros members key v Hctx Hown. rewrite Hctx in Hentries.
    destruct (Object_entries_own members) as (entries' & Hentries' & Hin).
    rewrite Hentries' in Hentries. injection Hentries as ->.
    apply Hin in Hown.
    destruct (mapM_Ok _ _ _ Hfields _ Hown) as [b Hb].
    apply rbind_Ok in Hb as (s & Hs & _). by eapply ToString_Ok.
Qed.

(** X19: the payload of a log event.  For an event that [_getLogValues]
    builds for a rank and an application name that is a string, from
    arguments that pass the assertion of [log], the payload of the Slack
    formatter starts with a header that reads the name of the rank, in
    brackets, and the application name; then a section with the message,
    after the name of the error when there is one; then a section with the
    stack, when there is one; and last the context block, whose first element
    is the time, in seconds, and which has no other element when the trail
    is empty and the context has no member. *)
Theorem X19_log_event_payload :
  forall (app : string) level (r : Z) colors errorOrMessageOrOptions context
         (logValues : LogEventValues) (body : payload),
    DEBUG <= r <= CRITICAL ->
    log_assertion level errorOrMessageOrOptions context = true ->
    getLogValues (VStr app) (VNum r) colors errorOrMessageOrOptions context = Ok logValues ->
    slackFormatter logValues = Ok body ->
    exists levelName message elements,
      js_index logLevelNames (VNum r) = VStr levelName
      /\ _getLevel (VStr levelName) = Ok (VNum r)
      /\ ev_message logValues = VStr message
      /\ body
         = slack_body (ev_color logValues)
             ([ formats.header ("[" ++ levelName ++ "] " ++ app);
                formats.section
                  (VStr match ev_name logValues with
                        | VStr name =>
                            if String.eqb name "" then message else name ++ ": " ++ message
                        | _ => message
                        end) ]
              ++ match ev_stack logValues with
                 | VStr stack =>
                     if String.eqb stack "" then []
                     else [ formats.section (VStr ("```" ++ stack ++ "```")) ]
                 | _ => []
                 end
              ++ [ context_block
                     (formats.mrkdwn (VStr (formats.date_text (Date_now / 1000)))
                      :: elements) ])%list
      /\ (ev_trail logValues = VObj [] -> ev_context logValues = VObj [] -> elements = []).
Proof.
  intros app level r colors eo context logValues body Hr Hvalid Hev Hbody.
  destruct (_getLogValues_fields __filename main_path path_relative Error_stack
              (VStr app) (VNum r) level colors eo context Hvalid)
    as (trail & Hshape & Hev').
  fold getLogValues in Hev'. rewrite Hev in Hev'. injection Hev' as Hev'.
  destruct (log_assertion_texts _ _ _ Hvalid) as ([message Hmessage] & Hname & Hstack).
  assert (HlevelName : exists levelName,
             js_index logLevelNames (VNum r) = VStr levelName
             /\ _getLevel (VStr levelName) = Ok (VNum r)).
  { unfold DEBUG, CRITICAL in Hr.
    assert (r = 1 \/ r = 2 \/ r = 3 \/ r = 4 \/ r = 5) as [->|[->|[->|[->| ->]]]] by lia;
      (eexists; split; reflexivity). }
  destruct HlevelName as (levelName & HlevelName & Hrank).
  destruct (_slackFormatter_inv _ _ Hbody)
    as (l & a & text & stackBlocks & trailElements & entries & fields
        & Hl & Ha & Htext & Hblocks & (keys & Hkeys & Hempty) & _ & Hentries & Hfields
        & ->).
  rewrite Hev' in *.
  cbn [ev_levelName ev_appName ev_name ev_message ev_stack ev_trail ev_context ev_color]
    in *.
  rewrite HlevelName in Hl. rewrite Hmessage in *.
  injection Hl as <-. injection Ha as <-.
  exists levelName, message, (trailElements ++ fields)%list.
  split; [exact HlevelName|]. split; [exact Hrank|]. split; [done|]. split.
  - f_equal.
    assert (text = VStr match member eo "name" with
                        | VStr name =>
                            if String.eqb name "" then message else name ++ ": " ++ message
                        | _ => message
                        end) as ->.
    { destruct (member eo "name") as [| | | | |name| | | |]; try done.
      cbn [truthy] in Htext. destruct (String.eqb name ""); [done|].
      cbn [negb] in Htext. by destruct Htext as (? & ? & [= <-] & [= <-] & ->). }
    assert (stackBlocks = match member eo "stack" with
                          | VStr stack =>
                              if String.eqb stack "" then []
                              else [ formats.section (VStr ("```" ++ stack ++ "```")) ]
                          | _ => []
                          end) as ->.
    { destruct (member eo "stack") as [| | | | |stack| | | |]; try done.
      cbn [truthy] in Hblocks. destruct (String.eqb stack ""); [done|].
      cbn [negb] in Hblocks. by destruct Hblocks as (? & [= <-] & ->). }
    done.
  - intros -> Hctx. rewrite Hctx in Hentries.
    injection Hentries as <-. injection Hfields as <-.
    injection Hkeys as <-. by rewrite Hempty.
Qed.

End FormatterProperties.

(** ** Instances, the formatter *)

Lemma X17_slackFormatter_accepts_log_events_witness :
  let context := VObj [ ("user", VStr "ann"); ("attempt", VNum 2) ] in
  log_assertion (VStr "ERROR") sample_error context = true
  /\ printable (VStr "App") = true
  /\ exists logValues,
       _getLogValues module_file "/" relative_to_root captured_stack
         (VStr "App") (VNum ERROR) VUndefined sample_error context = Ok logValues
       /\ printable_members (ev_context logValues) = true
       /\ exists blocks,
            formats._slackFormatter 1700000000123 source_text throwing_toString logValues
            = Ok (slack_body (ev_color logValues) blocks)
            /\ List.length blocks = 4%nat.
Proof.
  intros context. split; [reflexivity|]. split; [reflexivity|].
  destruct (X17_slackFormatter_accepts_log_events
              1700000000123 source_text throwing_toString
              module_file "/" relative_to_root captured_stack
              (VStr "App") (VStr "ERROR") (VNum ERROR) VUndefined sample_error context
              eq_refl eq_refl) as (logValues & Hev & Hformat).
  assert (Hfields : ev_context logValues = context /\ truthy (ev_stack logValues) = true).
  { vm_compute in Hev. injection Hev as <-. split; reflexivity. }
  destruct Hfields as [Hcontext Hstack].
  exists logValues. split; [exact Hev|].
  assert (Hprintable : printable_members (ev_context logValues) = true)
    by (rewrite Hcontext; reflexivity).
  split; [exact Hprintable|].
  destruct (Hformat Hprintable) as (blocks & Hbody & Hlength).
  exists blocks. split; [exact Hbody|]. by rewrite Hstack in Hlength.
Defined.

Lemma X18_slackFormatter_requirements_witness :
  let logValues :=
    {| ev_appName := VStr "App"; ev_level := VNum ERROR; ev_levelName := VStr "ERROR";
       ev_color := VStr "#f00"; ev_name := VUndefined; ev_message := VStr "disk full";
       ev_stack := VUndefined; ev_trail := VObj [];
       ev_context := VObj [ ("user", VStr "ann") ] |} in
  exists body,
    formats._slackFormatter 1700000000123 source_text throwing_toString logValues = Ok body
    /\ (forall v, In v [ ev_trail logValues; ev_context logValues ] ->
                  v <> VUndefined /\ v <> VNull)
    /\ (forall members key v,
          ev_context logValues = VObj members ->
          own_get members key = Some v ->
          typeof v <> "symbol").
Proof.
  intros logValues.
  assert (Hbody : exists body,
             formats._slackFormatter 1700000000123 source_text throwing_toString logValues
             = Ok body) by (eexists; vm_compute; reflexivity).
  destruct Hbody as [body Hbody]. exists body. split; [exact Hbody|].
  destruct (X18_slackFormatter_requirements
              1700000000123 source_text throwing_toString logValues body Hbody)
    as (Hobjects & _ & Hmembers).
  split; [exact Hobjects|exact Hmembers].
Defined.

Lemma X19_log_event_payload_witness :
  DEBUG <= ERROR <= CRITICAL
  /\ log_assertion (VStr "ERROR") sample_error VUndefined = true
  /\ exists logValues body,
       _getLogValues module_file "/" relative_to_root captured_stack
         (VStr "App") (VNum ERROR) VUndefined sample_error VUndefined = Ok logValues
       /\ formats._slackFormatter 1700000000123 source_text throwing_toString logValues
          = Ok body
       /\ exists elements,
            body
            = slack_body (VStr "#f00")
                [ formats.header "[ERROR] App";
                  formats.section (VStr "TypeError: x is null");
                  formats.section (VStr ("```" ++ explicit_stack ++ "```"));
                  context_block
                    (formats.mrkdwn (VStr (formats.date_text 1700000000)) :: elements) ].
Proof.
  assert (Hr : DEBUG <= ERROR <= CRITICAL) by (unfold DEBUG, ERROR, CRITICAL; lia).
  split; [exact Hr|]. split; [reflexivity|].
  assert (Hev : exists logValues,
             _getLogValues module_file "/" relative_to_root captured_stack
               (VStr "App") (VNum ERROR) VUndefined sample_error VUndefined = Ok logValues)
    by (eexists; vm_compute; reflexivity).
  destruct Hev as [logValues Hev].
  assert (Hbody : exists body,
             formats._slackFormatter 1700000000123 source_text throwing_toString logValues
             = Ok body).
  { pose proof Hev as Hev'. vm_compute in Hev'. injection Hev' as <-.
    eexists. vm_compute. reflexivity. }
  destruct Hbody as [body Hbody].
  exists logValues, body. split; [exact Hev|]. split; [exact Hbody|].
  destruct (X19_log_event_payload
              1700000000123 source_text throwing_toString
              module_file "/" relative_to_root captured_stack
              "App" (VStr "ERROR") ERROR VUndefined sample_error VUndefined logValues body
              Hr eq_refl Hev Hbody)
    as (levelName & message & elements & Hname & _ & Hmessage & -> & _).
  exists elements.
  pose proof Hev as Hev'. vm_compute in Hev'. injection Hev' as <-.
  injection Hmessage as <-. injection Hname as <-.
  reflexivity.
Defined.

(** ** The fixed-level methods *)


Section FixedLevels.
Variable __filename main_path : string.
Variable path_relative : string -> string -> string.
Variable Error_stack : string.
Variable run_format : fn -> LogEventValues -> result value.
Variable run_send : fn -> value -> result value.

Let getLogValues := _getLogValues __filename main_path path_relative Error_stack.


End FixedLevels.


(** ** The first version of the module *)

Lemma legacy_own_levels_rank (s : string) (x : value) :
  own_get legacy.levels s = Some x ->
  exists r, legacy.DEBUG <= r <= legacy.CRITICAL /\ x = VNum r
            /\ numeric_head s = false
            /\ js_in (VStr s) legacy.levelNames = false.
Proof.
  unfold legacy.levels, legacy.DEBUG, legacy.INFO, legacy.WARNING, legacy.ERROR,
    legacy.CRITICAL.
  cbn [own_get]. intros H.
  repeat match type of H with
         | (if String.eqb ?a s then _ else _) = _ =>
             destruct (String.eqb_spec a s) as [<-|_];
             [injection H as <-; eexists; split; [|by repeat split]; lia|]
         end.
  done.
Qed.

(** A number names no member of [levels]. *)
Lemma legacy_number_not_in_levels (n : Z) : js_in (VNum n) legacy.levels = false.
Proof.
  unfold js_in. cbn [ToPropertyKey]. unfold has_member.
  destruct (own_get legacy.levels (pretty n)) as [x|] eqn:Hown.
  - apply legacy_own_levels_rank in Hown as (r & _ & _ & Hhead & _).
    by rewrite pretty_Z_head in Hhead.
  - apply numeric_head_not_inherited, pretty_Z_head.
Qed.

Lemma legacy_getLevel_stable (v r : value) :
  legacy._getLevel v = Ok r -> legacy._getLevel r = Ok r.
Proof.
  unfold legacy._getLevel at 1.
  destruct (js_in v legacy.levelNames) eqn:Hnames.
  - intros [= <-]. unfold legacy._getLevel. by rewrite Hnames.
  - destruct (js_in v legacy.levels) eqn:Hlevels; [|by destruct v].
    intros [= <-].
    unfold js_in, js_index in *.
    destruct (ToPropertyKey v) as [[s|k]|]; [|done..].
    unfold has_member, get_member in *.
    destruct (own_get legacy.levelNames s); [done|].
    destruct (own_get legacy.levels s) as [x|] eqn:Hown; [|congruence].
    apply legacy_own_levels_rank in Hown as (k & Hk & -> & _).
    unfold legacy.DEBUG, legacy.CRITICAL in Hk.
    assert (k = 0 \/ k = 1 \/ k = 2 \/ k = 3 \/ k = 4) as [->|[->|[->|[->| ->]]]] by lia;
      reflexivity.
Qed.

Section LegacyLogging.
Variable run_putToSlack : legacy.PutArguments -> result value.

(** X21: in the first version, [log] checks its arguments only for a level
    given by number.  For the name of a level, whatever the message and the
    context are, also [undefined] and [null], [log] does not refuse them: it
    compares the rank of the name with the minimum level and hands the
    arguments, as they are, to [_putToSlack].  For a number as level, a
    falsy message and a [null] context are refused with the
    invalid-arguments error, and nothing is posted. *)
Theorem X21_legacy_log_validates_numbered_levels_only :
  (forall this (name : string) rank errorOrMessageOrOptions context trace,
     own_get legacy.levels name = Some rank ->
     legacy.log run_putToSlack this (VStr name) errorOrMessageOrOptions context trace
     = match js_lt rank (legacy._minLevel this) with
       | Throw e => (trace, Throw e)
       | Ok true => (trace, Ok VUndefined)
       | Ok false =>
           let arguments :=
             {| legacy.put_slackHook := legacy._slackHook this;
                legacy.put_appName := legacy._appName this;
                legacy.put_level := rank;
                legacy.put_colors := legacy._colors this;
                legacy.put_errorOrMessageOrOptions := errorOrMessageOrOptions;
                legacy.put_context := context |} in
           ((trace ++ [arguments])%list, run_putToSlack arguments)
       end)
  /\ (forall this (n : Z) errorOrMessageOrOptions context trace,
        truthy errorOrMessageOrOptions = false \/ context = VNull ->
        legacy.log run_putToSlack this (VNum n) errorOrMessageOrOptions context trace
        = (trace, Throw InvalidLogCall)).
Proof.
  split.
  - intros this name rank eo context trace Hown.
    destruct (legacy_own_levels_rank _ _ Hown) as (r & _ & -> & _ & Hnames).
    assert (Hlevels : js_in (VStr name) legacy.levels = true).
    { unfold js_in, has_member. cbn [ToPropertyKey]. by rewrite Hown. }
    assert (Hrank : js_index legacy.levels (VStr name) = VNum r).
    { unfold js_index, get_member. cbn [ToPropertyKey]. by rewrite Hown. }
    unfold legacy.log, legacy.log_assertion, legacy._getLevel,
      bind, try_catch, lift, ret, throw, modify.
    rewrite Hlevels, Hnames, Hrank. cbn [orb].
    by destruct (js_lt (VNum r) (legacy._minLevel this)) as [[]|].
  - intros this n eo context trace Hinvalid.
    unfold legacy.log, legacy.log_assertion, bind, try_catch, lift, ret, throw.
    rewrite legacy_number_not_in_levels. cbn [orb].
    destruct Hinvalid as [-> | ->].
    + by rewrite andb_false_r.
    + by rewrite !andb_false_r.
Qed.

End LegacyLogging.

(** X22: [setOptions] of the first version replaces the whole configuration.
    It refuses the options and leaves the Logger as it was, or it succeeds,
    and then the Logger it leaves does not depend on the one it started
    from: it holds a non-empty webhook, a non-empty application name, colors
    that are [undefined] or an object and not [null], and a minimum level
    that resolves to itself. *)
Theorem X22_legacy_setOptions_replaces_configuration :
  forall (options : value) (this : legacy.Logger),
    legacy.setOptions options this = (this, Throw InvalidConfig)
    \/ exists this',
         (forall other : legacy.Logger, legacy.setOptions options other = (this', Ok tt))
         /\ (exists hook, legacy._slackHook this' = VStr hook /\ hook <> "")
         /\ (exists name, legacy._appName this' = VStr name /\ name <> "")
         /\ typeof_in ["undefined"; "object"] (legacy._colors this') = true
         /\ legacy._colors this' <> VNull
         /\ legacy._getLevel (legacy._minLevel this') = Ok (legacy._minLevel this').
Proof.
  intros options this.
  unfold legacy.setOptions, bind, try_catch, lift, ret, throw, modify.
  destruct (legacy.destructure_options options) as [[[[slackHook appName] minLevel] colors]|e];
    [|by left].
  destruct (legacy.options_assertion slackHook appName minLevel colors) eqn:Hvalid;
    [|by left].
  right.
  unfold legacy.options_assertion in Hvalid.
  apply andb_prop in Hvalid as [Hvalid Hnull].
  apply andb_prop in Hvalid as [Hvalid Hcolors].
  apply andb_prop in Hvalid as [Hvalid HappName].
  apply andb_prop in Hvalid as [Hvalid HappString].
  apply andb_prop in Hvalid as [Hvalid Hlevel].
  apply andb_prop in Hvalid as [HhookString Hhook].
  assert (Hrank : exists rank, legacy._getLevel minLevel = Ok rank).
  { unfold legacy._getLevel.
    destruct (js_in minLevel legacy.levelNames); [by eexists|].
    rewrite orb_false_r in Hlevel. rewrite Hlevel. by eexists. }
  destruct Hrank as [rank Hrank]. rewrite Hrank.
  exists {| legacy._slackHook := slackHook; legacy._minLevel := rank;
            legacy._appName := appName; legacy._colors := colors |}.
  split; [by intros other|].
  cbn [legacy._slackHook legacy._minLevel legacy._appName legacy._colors].
  split.
  { destruct slackHook as [| | | | |hook| | | |]; try done.
    exists hook. split; [done|]. by intros ->. }
  split.
  { destruct appName as [| | | | |name| | | |]; try done.
    exists name. split; [done|]. by intros ->. }
  split; [done|]. split; [by destruct colors|].
  by eapply legacy_getLevel_stable.
Qed.

Lemma X21_legacy_log_validates_numbered_levels_only_witness :
  own_get legacy.levels "ERROR" = Some (VNum legacy.ERROR)
  /\ legacy.log resolving_put legacy_logger (VStr "ERROR") VUndefined VNull []
     = ([ {| legacy.put_slackHook := legacy._slackHook legacy_logger;
             legacy.put_appName := VStr "App";
             legacy.put_level := VNum legacy.ERROR;
             legacy.put_colors := VUndefined;
             legacy.put_errorOrMessageOrOptions := VUndefined;
             legacy.put_context := VNull |} ], Ok VUndefined)
  /\ (truthy VUndefined = false \/ VNull = VNull)
  /\ legacy.log resolving_put legacy_logger (VNum legacy.ERROR) VUndefined VNull []
     = ([], Throw InvalidLogCall).
Proof.
  split; [reflexivity|]. split.
  - rewrite (proj1 (X21_legacy_log_validates_numbered_levels_only resolving_put)
               legacy_logger "ERROR" (VNum legacy.ERROR) VUndefined VNull [] eq_refl).
    reflexivity.
  - split; [by left|].
    apply (proj2 (X21_legacy_log_validates_numbered_levels_only resolving_put)).
    by left.
Defined.

Lemma X22_legacy_setOptions_replaces_configuration_witness :
  let options := VObj [ ("slackHook", VStr "https://hooks.slack.com/services/T/B/X");
                        ("minLevel", VStr "DEBUG") ] in
  exists this',
    legacy.setOptions options legacy_logger = (this', Ok tt)
    /\ legacy._minLevel this' = VNum legacy.DEBUG
    /\ legacy._appName this' = VStr "myApp"
    /\ legacy._getLevel (legacy._minLevel this') = Ok (legacy._minLevel this').
Proof.
  intros options.
  destruct (X22_legacy_setOptions_replaces_configuration options legacy_logger)
    as [Hfail|(this' & Hsame & _ & _ & _ & _ & Hlevel)].
  - vm_compute in Hfail. discriminate Hfail.
  - exists this'. pose proof (Hsame legacy_logger) as Hset.
    split; [exact Hset|].
    vm_compute in Hset. injection Hset as <-.
    split; [reflexivity|]. split; [reflexivity|exact Hlevel].
Defined.
